(** * HowToCook recommendation and consolidation engine

    A shallow embedding of the engine of the repository (TypeScript):
    - [src/utils/recipeUtils.ts]          scaling of a recipe,
    - [src/utils/shoppingListUtils.ts]    consolidation into a shopping list,
    - [src/utils/mealPlanUtils.ts]        preference filter and weekly plan,
    - [src/utils/dishCombinationUtils.ts] selection of a dish combination,
    - [src/tools/recommendMealPlan.ts], [src/tools/recommendDishCombination.ts]
                                          the two tool handlers and the scoring.

    Conventions of the embedding.
    - A JavaScript string is the list of its UTF-16 code units.
    - Counts (servings, dish counts, minutes) are integers ([Z]).  Where
      the engine computes with fractions of amounts (the scaling of an
      amount, the sum of two quantities) a JavaScript number is an IEEE-754
      double ([Double.double], the binary64 format of [SpecFloat]), with
      its rounding to the nearest double, its NaN and its infinities, and
      it is printed with the shortest digits that read back as the same
      double.  Averages and scores are exact rationals ([Q]).
    - [Math.random()] is an injected source: the k-th draw of
      [selectRandomRecipe] returns [rnd k].  A computation that draws from
      it threads the number of draws made so far; a JavaScript exception (a
      property read on [undefined], an Invalid Date) is the result [None].
      The draws that only feed an identifier or the sentence of a
      recommendation are left out together with those fields.
    - Optional fields are [option]s; closed string enumerations are inductive
      types with the string each value stands for. *)

From Stdlib Require Import Bool Ascii String List ZArith NArith QArith Qround Qabs Qminmax.
From Stdlib Require Import Lia Permutation Sorted Decimal SpecFloat.
Import ListNotations.

Local Open Scope Z_scope.
Local Open Scope list_scope.

(* ================================================================== *)
(** * JavaScript strings, the two regular expressions, numbers          *)
(* ================================================================== *)

Module JS.

Definition char16 := N.
Definition jsstring := list char16.

(** An ASCII literal as a JavaScript string. *)
Definition js (s : string) : jsstring := map N_of_ascii (list_ascii_of_string s).

Definition str_eqb (a b : jsstring) : bool :=
  if list_eq_dec N.eq_dec a b then true else false.

Fixpoint startsWith (s p : jsstring) : bool :=
  match p, s with
  | [], _ => true
  | _ :: _, [] => false
  | c :: p', d :: s' => N.eqb c d && startsWith s' p'
  end.

(** [s.includes(sub)] *)
Fixpoint includes (s sub : jsstring) : bool :=
  startsWith s sub ||
  match s with
  | [] => false
  | _ :: s' => includes s' sub
  end.

(** [arr.includes(x)] on an array of strings. *)
Definition arr_includes (arr : list jsstring) (x : jsstring) : bool :=
  existsb (str_eqb x) arr.

(** A string is falsy exactly when it is empty. *)
Definition truthy (s : jsstring) : bool :=
  match s with [] => false | _ => true end.

(** Character classes of the regular expressions: [\d], [\s], and the line
    terminators that [.] refuses. *)
Definition isDigit (c : char16) : bool := (48 <=? c)%N && (c <=? 57)%N.

Definition isSpace (c : char16) : bool :=
  ((9 <=? c)%N && (c <=? 13)%N)          (* \t \n \v \f \r *)
  || N.eqb c 32 || N.eqb c 0xA0 || N.eqb c 0x1680
  || ((0x2000 <=? c)%N && (c <=? 0x200A)%N)
  || N.eqb c 0x2028 || N.eqb c 0x2029 || N.eqb c 0x202F
  || N.eqb c 0x205F || N.eqb c 0x3000 || N.eqb c 0xFEFF.

Definition isLineTerminator (c : char16) : bool :=
  N.eqb c 10 || N.eqb c 13 || N.eqb c 0x2028 || N.eqb c 0x2029.

Fixpoint span (p : char16 -> bool) (s : jsstring) : jsstring * jsstring :=
  match s with
  | [] => ([], [])
  | c :: s' => if p c then let (a, b) := span p s' in (c :: a, b) else ([], s)
  end.

Fixpoint dropWhile (p : char16 -> bool) (s : jsstring) : jsstring :=
  match s with
  | [] => []
  | c :: s' => if p c then dropWhile p s' else s
  end.

Definition dot : char16 := 46%N.

(** The match of an amount against the anchored expression of
    [scaleIngredientAmount] and [combineQuantities] (a decimal number, any
    white space, then the rest of the line up to the end of the string):
    the captured groups 1 and 2, or [None] when it does not match.  The quantifiers are
    greedy and the first successful alternative of the backtracking search
    is the greedy one: the longest digit run, the fraction when a digit
    follows the point, the longest run of white space.  A shorter choice
    only moves the start of the last group to the left, so when the greedy choice
    fails (a line terminator in what is left) every choice fails. *)
Definition match_numeric (s : jsstring) : option (jsstring * jsstring) :=
  let (d, r1) := span isDigit s in
  match d with
  | [] => None
  | _ :: _ =>
    let (num, r2) :=
      match r1 with
      | c :: r' =>
        if N.eqb c dot then
          let (f, r'') := span isDigit r' in
          match f with
          | [] => (d, r1)
          | _ :: _ => (d ++ dot :: f, r'')
          end
        else (d, r1)
      | [] => (d, r1)
      end in
    let unit := dropWhile isSpace r2 in
    if existsb isLineTerminator unit then None else Some (num, unit)
  end.

(** [s.match(/(\d+)SUFFIX/)]: group 1 of the leftmost match, for the two
    unanchored expressions of [parseTimeInMinutes]. *)
Fixpoint match_digits_before (suffix s : jsstring) : option jsstring :=
  match s with
  | [] => None
  | _ :: s' =>
    let (d, r) := span isDigit s in
    if truthy d && startsWith r suffix then Some d
    else match_digits_before suffix s'
  end.

(** Value of a run of decimal digits, most significant first. *)
Definition digits_value (s : jsstring) : Z :=
  fold_left (fun acc c => 10 * acc + (Z.of_N c - 48)) s 0.

(** [parseInt(s)] on a run of digits. *)
Definition parseInt (s : jsstring) : Z := digits_value (fst (span isDigit s)).

(** [Math.round(x)] of an exact rational: the nearest integer, a tie going
    up. *)
Definition Math_round (x : Q) : Z := Qfloor (x + (1 # 2)).

Fixpoint uint_chars (u : Decimal.uint) : jsstring :=
  match u with
  | Decimal.Nil => []
  | Decimal.D0 u' => 48%N :: uint_chars u'
  | Decimal.D1 u' => 49%N :: uint_chars u'
  | Decimal.D2 u' => 50%N :: uint_chars u'
  | Decimal.D3 u' => 51%N :: uint_chars u'
  | Decimal.D4 u' => 52%N :: uint_chars u'
  | Decimal.D5 u' => 53%N :: uint_chars u'
  | Decimal.D6 u' => 54%N :: uint_chars u'
  | Decimal.D7 u' => 55%N :: uint_chars u'
  | Decimal.D8 u' => 56%N :: uint_chars u'
  | Decimal.D9 u' => 57%N :: uint_chars u'
  end.

(** Decimal digits of a natural number, ["0"] for zero. *)
Definition nat_digits (z : Z) : jsstring := uint_chars (N.to_uint (Z.to_N z)).

(** The template-literal rendering [`${x}`] of an exact rational that is a
    whole number of hundredths (the engine prints integers this way):
    sign, integer part, and the fraction without its trailing zero. *)
Definition Number_toString (x : Q) : jsstring :=
  let h := Qfloor (Qabs x * 100) in
  let ip := h / 100 in
  let fp := h mod 100 in
  (if Qlt_le_dec x 0 then if Z.eqb h 0 then [] else [45%N] else [])
  ++ nat_digits ip
  ++ (if Z.eqb fp 0 then []
      else dot :: nat_digits (fp / 10)
           ++ (if Z.eqb (fp mod 10) 0 then [] else nat_digits (fp mod 10))).

End JS.
Import JS.

(* ================================================================== *)
(** * IEEE-754 doubles                                                  *)
(* ================================================================== *)

(** The numbers of [scaleIngredientAmount] and [combineQuantities]: the
    binary64 format, with the operations of [SpecFloat] (rounding to the
    nearest double, a tie going to the even mantissa). *)
Module Double.

Definition double := spec_float.
Definition prec : Z := 53.
Definition emax : Z := 1024.

(** [x * y], [x / y] and [x + y] *)
Definition mul : double -> double -> double := SFmul prec emax.
Definition div : double -> double -> double := SFdiv prec emax.
Definition add : double -> double -> double := SFadd prec emax.

(** The double of an integer. *)
Definition of_Z (z : Z) : double := binary_normalize prec emax z 0 false.

(** The double nearest to the quotient [n / d] of two positive integers
    ([n] may be 0). *)
Definition of_ratio (n d : Z) : double :=
  match n with
  | Zpos _ =>
    let '(mz, ez, lz) := SFdiv_core_binary prec emax n 0 d 0 in
    binary_round_aux prec emax false mz ez lz
  | _ => S754_zero false
  end.

(** [parseFloat(s)] on group 1 of [match_numeric] (digits, then possibly
    a point and digits): the double nearest to the decimal number. *)
Definition parseFloat (s : jsstring) : double :=
  let (ip, rest) := span isDigit s in
  match rest with
  | c :: fp =>
    if N.eqb c dot then
      let f := fst (span isDigit fp) in
      of_ratio (digits_value (ip ++ f)) (10 ^ Z.of_nat (length f))
    else of_ratio (digits_value ip) 1
  | [] => of_ratio (digits_value ip) 1
  end.

(** [Math.round(x)]: the integer nearest to the exact value of [x], a tie
    going up; a result of zero keeps the sign of [x]; NaN and the
    infinities are returned as they are. *)
Definition Math_round (x : double) : double :=
  match x with
  | S754_finite s m e =>
    if 0 <=? e then x
    else
      let n := (2 * cond_Zopp s (Zpos m) + 2 ^ (- e)) / 2 ^ (- e + 1) in
      match n with
      | Z0 => S754_zero s
      | _ => of_Z n
      end
  | _ => x
  end.

(** [Math.round(x * 100) / 100] *)
Definition round2 (x : double) : double :=
  div (Math_round (mul x (of_Z 100))) (of_Z 100).

(** The same double (a double has one representation). *)
Definition eqb (x y : double) : bool :=
  match x, y with
  | S754_finite s m e, S754_finite s' m' e' =>
    Bool.eqb s s' && Pos.eqb m m' && Z.eqb e e'
  | S754_zero s, S754_zero s' => Bool.eqb s s'
  | S754_infinity s, S754_infinity s' => Bool.eqb s s'
  | S754_nan, S754_nan => true
  | _, _ => false
  end.

(** The double nearest to [s * 10^ex]. *)
Definition of_decimal (s ex : Z) : double :=
  if 0 <=? ex then of_ratio (s * 10 ^ ex) 1 else of_ratio s (10 ^ (- ex)).

(** The least [j] from the given one on with [den <= num * 10^j]. *)
Fixpoint scale_up (fuel : nat) (num den j : Z) : Z :=
  match fuel with
  | O => j
  | S fuel' => if den <=? num * 10 ^ j then j else scale_up fuel' num den (j + 1)
  end.

(** The [n] with [10^(n-1) <= num / den < 10^n], for a positive double
    [num / den]. *)
Definition decimal_exponent (num den : Z) : Z :=
  if den <=? num then Z.of_nat (length (nat_digits (num / den)))
  else 1 - scale_up 400 num den 1.

(** The digits of [Number::toString]: with [k] digits, from [k] on, the
    two numbers [s * 10^(n-k)] next to [num / den] are tried, and one that
    reads back as [x] is taken, the nearer one of two (the even one in a
    tie).  Seventeen digits are always enough. *)
Fixpoint shortest (fuel : nat) (x : double) (num den n k : Z) : Z * Z :=
  let t := k - n in
  let N := if 0 <=? t then num * 10 ^ t else num in
  let D := if 0 <=? t then den else den * 10 ^ (- t) in
  let lo := N / D in
  let hi := lo + 1 in
  let ex := n - k in
  let lo_ok := eqb (of_decimal lo ex) x in
  let hi_ok := eqb (of_decimal hi ex) x in
  let pick :=
    if lo_ok && hi_ok then
      match 2 * N ?= (2 * lo + 1) * D with
      | Lt => Some lo
      | Gt => Some hi
      | Eq => Some (if Z.even lo then lo else hi)
      end
    else if lo_ok then Some lo
    else if hi_ok then Some hi
    else None in
  match pick, fuel with
  | Some s, _ => (s, ex)
  | None, S fuel' => shortest fuel' x num den n (k + 1)
  | None, O => (lo, ex)
  end.

Fixpoint strip_zeros (fuel : nat) (s ex : Z) : Z * Z :=
  match fuel with
  | O => (s, ex)
  | S fuel' =>
    if s mod 10 =? 0 then strip_zeros fuel' (s / 10) (ex + 1) else (s, ex)
  end.

Definition zeros (n : Z) : jsstring := repeat 48%N (Z.to_nat n).

(** The digits [ds] with the decimal point after the first [n] of them,
    in the notation of [Number::toString]. *)
Definition format (ds : jsstring) (n : Z) : jsstring :=
  let k := Z.of_nat (length ds) in
  if (k <=? n) && (n <=? 21) then ds ++ zeros (n - k)
  else if (0 <? n) && (n <=? 21) then
    firstn (Z.to_nat n) ds ++ dot :: skipn (Z.to_nat n) ds
  else if (-6 <? n) && (n <=? 0) then js "0." ++ zeros (- n) ++ ds
  else
    let e := n - 1 in
    let sign := if 0 <=? e then 43%N else 45%N in
    match ds with
    | [] => []
    | d :: rest =>
      (d :: match rest with [] => [] | _ :: _ => dot :: rest end)
      ++ 101%N :: sign :: nat_digits (Z.abs e)
    end.

(** The template-literal rendering [`${x}`] of a double. *)
Definition Number_toString (x : double) : jsstring :=
  match x with
  | S754_nan => js "NaN"
  | S754_zero _ => js "0"
  | S754_infinity s => (if s then [45%N] else []) ++ js "Infinity"
  | S754_finite s m e =>
    let num := if 0 <=? e then Zpos m * 2 ^ e else Zpos m in
    let den := if 0 <=? e then 1 else 2 ^ (- e) in
    let n := decimal_exponent num den in
    let (s0, ex0) := shortest 16 (S754_finite false m e) num den n 1 in
    let (s1, ex1) := strip_zeros 20 s0 ex0 in
    let ds := nat_digits s1 in
    (if s then [45%N] else []) ++ format ds (Z.of_nat (length ds) + ex1)
  end.

End Double.

(* ================================================================== *)
(** * Data model ([src/types])                                          *)
(* ================================================================== *)

Inductive RecipeCategory :=
| Seafood | Breakfast | Seasoning | Dessert | Beverage
| MeatDish | SemiPrepared | Soup | Staple | Vegetarian.

Inductive DifficultyLevel := Easy | Medium | Hard.

Inductive CookingMethod :=
| StirFry | Boil | Steam | Roast | DeepFry | Braise | Stew | PanFry
| Toss | Marinate | RedCook | Brine.

Inductive SkillLevel := Beginner | Intermediate | Advanced.

Inductive BudgetLevel := Economy | MidRange | Premium.

Inductive DietaryRestriction :=
| VegetarianOnly | Vegan | GlutenFree | LowSalt | LowSugar | LowFat
| HighProtein | NoNuts | NoSeafood | NoDairy.

Inductive MealType := BreakfastMeal | Lunch | Dinner | Snack | LateNight.

(** The occasions of a meal: 日常, 聚餐, 节日, 招待客人, 特殊场合. *)
Inductive Occasion := Everyday | Gathering | Festival | Entertaining | SpecialOccasion.

Inductive DayOfWeek := Mon | Tue | Wed | Thu | Fri | Sat | Sun.

Inductive DishRole := MainDish | SideDish | SoupDish | StapleDish | Appetizer | DessertDish.

Inductive DishPriority := Required | Recommended | Optional.

Inductive ShoppingCategory :=
| Vegetables | Fruits | Meat | SeafoodGoods | EggsDairy | Condiments
| Staples | Snacks | Beverages | Frozen | Canned | Other.

Inductive ShoppingPriority := High | Normal | Low.

(** The string each category stands for. *)
Definition category_name (c : RecipeCategory) : jsstring :=
  match c with
  | Seafood      => [0x6C34; 0x4EA7]%N          (* 水产 *)
  | Breakfast    => [0x65E9; 0x9910]%N          (* 早餐 *)
  | Seasoning    => [0x8C03; 0x5473; 0x6599]%N  (* 调味料 *)
  | Dessert      => [0x751C; 0x54C1]%N          (* 甜品 *)
  | Beverage     => [0x996E; 0x54C1]%N          (* 饮品 *)
  | MeatDish     => [0x8364; 0x83DC]%N          (* 荤菜 *)
  | SemiPrepared => [0x534A; 0x6210; 0x54C1]%N  (* 半成品 *)
  | Soup         => [0x6C64; 0x7FB9]%N          (* 汤羹 *)
  | Staple       => [0x4E3B; 0x98DF]%N          (* 主食 *)
  | Vegetarian   => [0x7D20; 0x83DC]%N          (* 素菜 *)
  end.

Definition category_eqb (a b : RecipeCategory) : bool :=
  match a, b with
  | Seafood, Seafood | Breakfast, Breakfast | Seasoning, Seasoning
  | Dessert, Dessert | Beverage, Beverage | MeatDish, MeatDish
  | SemiPrepared, SemiPrepared | Soup, Soup | Staple, Staple
  | Vegetarian, Vegetarian => true
  | _, _ => false
  end.

Definition difficulty_eqb (a b : DifficultyLevel) : bool :=
  match a, b with
  | Easy, Easy | Medium, Medium | Hard, Hard => true
  | _, _ => false
  end.

Record Ingredient := {
  ing_name : jsstring;
  amount : jsstring;
  ing_notes : option jsstring
}.

Record CookingStep := {
  stepNumber : Z;
  instruction : jsstring
}.

Record NutritionalInfo := {
  calories : option Q;
  protein : option jsstring;
  carbs : option jsstring;
  fat : option jsstring
}.

(** The tips, the variations, the image, the source and the two dates of
    a recipe are left out: no function of the engine reads them. *)
Record Recipe := {
  id : jsstring;
  name : jsstring;
  description : option jsstring;
  category : RecipeCategory;
  difficulty : DifficultyLevel;
  servings : Z;
  prepTime : jsstring;
  cookTime : jsstring;
  totalTime : jsstring;
  ingredients : list Ingredient;
  steps : list CookingStep;
  tags : option (list jsstring);
  cookingMethods : option (list CookingMethod);
  nutritionalInfo : option NutritionalInfo
}.

(** The identifier of an item (from the clock and a random draw), its
    unit (never set) and its alternatives are left out. *)
Record ShoppingItem := {
  item_name : jsstring;
  item_category : ShoppingCategory;
  quantity : jsstring;
  estimatedPrice : option Z;
  priority : ShoppingPriority;
  item_notes : option jsstring;
  recipeIds : list jsstring;
  recipeNames : list jsstring;
  isPurchased : bool
}.

Record ShoppingSection := {
  sec_category : ShoppingCategory;
  items : list ShoppingItem;
  sec_totalEstimatedCost : Z
}.

Record ShoppingList := {
  sections : list ShoppingSection;
  totalItems : Z;
  totalEstimatedCost : option Z
}.

Record ShoppingListRequest := {
  slr_numberOfPeople : Z;
  consolidateItems : option bool;
  includePriceEstimates : option bool;
  excludeCategories : option (list ShoppingCategory)
}.

(** The time constraints and the nutritional goals, which the engine does
    not read, are left out. *)
Record MealPlanPreferences := {
  numberOfPeople : Z;
  dietaryRestrictions : option (list DietaryRestriction);
  allergies : option (list jsstring);
  preferredCategories : option (list jsstring);
  excludedCategories : option (list jsstring);
  budgetLevel : option BudgetLevel;
  cookingSkillLevel : option SkillLevel
}.

Record PlannedMeal := {
  mealType : MealType;
  meal_recipe : Recipe;
  meal_servings : Z
}.

Record DailyMealPlan := {
  day : DayOfWeek;
  date : jsstring;
  meals : list PlannedMeal;
  totalCalories : Q
}.

Record WeeklyMealPlan := {
  startDate : jsstring;
  endDate : jsstring;
  preferences : MealPlanPreferences;
  dailyPlans : list DailyMealPlan
}.

(** The seasonal preference, which the engine does not read, is left
    out. *)
Record CombinationPreferences := {
  cp_numberOfPeople : Z;
  occasion : option Occasion;
  cp_budgetLevel : option BudgetLevel;
  cp_dietaryRestrictions : option (list jsstring);
  preferredFlavors : option (list jsstring);
  cookingTime : option jsstring;
  skillLevel : option SkillLevel;
  nutritionalBalanceWanted : option bool
}.

Record CombinationRequest := {
  cr_preferences : CombinationPreferences;
  excludeRecipeIds : option (list jsstring);
  includeRecipeIds : option (list jsstring);
  maxDishes : option Z;
  minDishes : option Z
}.

Record RecommendedDish := {
  dish_recipe : Recipe;
  role : DishRole;
  dish_priority : DishPriority;
  preparationOrder : Z;
  servingOrder : Z
}.

Record NutritionalBalance := {
  hasProtein : bool;
  hasVegetables : bool;
  hasCarbs : bool;
  isBalanced : bool
}.

Record DishCombination := {
  dishes : list RecommendedDish;
  comb_servings : Z;
  nutritionalBalance : NutritionalBalance;
  flavorProfile : list jsstring
}.

(** A score that is [NaN] in JavaScript is [None]. *)
Record CombinationAnalysis := {
  nutritionalScore : Z;
  flavorHarmony : Z;
  difficultyBalance : Z;
  timeEfficiency : option Q;
  overallScore : option Z
}.

(** The [details] of an error response: a literal text, or the message of
    the exception that the handler caught. *)
Inductive Details :=
| Literal (text : jsstring)
| ThrownMessage.

(** Tool responses ([MCPResponse] of [src/types/index.ts]). *)
Inductive MCPResponse (T : Type) :=
| Success (message : jsstring) (data : T)
| Failure (error : jsstring) (details : Details).
Arguments Success {T} _ _.
Arguments Failure {T} _ _.

(* ================================================================== *)
(** * The random source and the small monad of drawing computations     *)
(* ================================================================== *)

Module Rand.

Definition source := nat -> Q.

(** A computation that may call [Math.random()] and may throw: from the
    number of calls made so far to a value ([None] when it throws) and the
    number of calls made when it ends. *)
Definition M (A : Type) := source -> nat -> option A * nat.

Definition ret {A} (a : A) : M A := fun _ k => (Some a, k).

Definition bind {A B} (m : M A) (f : A -> M B) : M B :=
  fun rnd k =>
    match m rnd k with
    | (Some a, k') => f a rnd k'
    | (None, k') => (None, k')
    end.

Definition throw {A} : M A := fun _ k => (None, k).

(** [Math.floor(Math.random() * n)] *)
Definition randomIndex (n : nat) : M Z :=
  fun rnd k => (Some (Qfloor (rnd k * inject_Z (Z.of_nat n))), S k).

(** [const x = xs[i]] followed by a property read of [x]: the element, or
    a [TypeError] when the index is outside the array. *)
Definition at_index {A} (xs : list A) (i : Z) : M A :=
  if i <? 0 then throw
  else match nth_error xs (Z.to_nat i) with
       | Some x => ret x
       | None => throw
       end.

(** All values of the source lie in the half-open unit interval, as
    [Math.random] promises. *)
Definition unit_interval (rnd : source) : Prop :=
  forall k, (0 <= rnd k)%Q /\ (rnd k < 1)%Q.

End Rand.
Import Rand.

Notation "x <- m ;; f" := (bind m (fun x => f))
  (at level 61, m at next level, right associativity).

(* ================================================================== *)
(** * [src/utils/recipeUtils.ts]                                        *)
(* ================================================================== *)

Module RecipeUtils.

Definition specialCases : list jsstring :=
  [ [0x9002; 0x91CF]%N     (* 适量 *)
  ; [0x5C11; 0x8BB8]%N     (* 少许 *)
  ; [0x4E00; 0x70B9]%N     (* 一点 *)
  ; [0x82E5; 0x5E72]%N ].  (* 若干 *)

(** The part of [scaleIngredientAmount] after the numeric case. *)
Definition scaleSpecial (amount : jsstring) : jsstring :=
  if existsb (fun special => includes amount special) specialCases
  then amount   (* not scaled *)
  else amount.  (* returned as it is when it cannot be parsed *)

Definition scaleIngredientAmount (amount : jsstring) (scaleFactor : Double.double)
  : jsstring :=
  match match_numeric amount with
  | Some (numStr, unit) =>
    if truthy numStr then
      let originalNum := Double.parseFloat numStr in
      let scaledNum := Double.mul originalNum scaleFactor in
      let roundedNum := Double.round2 scaledNum in
      Double.Number_toString roundedNum ++ unit
    else scaleSpecial amount
  | None => scaleSpecial amount
  end.

Definition scaleRecipeIngredients (recipe : Recipe) (targetServings : Z) : Recipe :=
  let scaleFactor :=
    Double.div (Double.of_Z targetServings) (Double.of_Z (servings recipe)) in
  let scaledIngredients :=
    map (fun ingredient =>
           {| ing_name := ing_name ingredient;
              amount := scaleIngredientAmount (amount ingredient) scaleFactor;
              ing_notes := ing_notes ingredient |})
        (ingredients recipe) in
  {| id := id recipe;
     name := name recipe;
     description := description recipe;
     category := category recipe;
     difficulty := difficulty recipe;
     servings := targetServings;
     prepTime := prepTime recipe;
     cookTime := cookTime recipe;
     totalTime := totalTime recipe;
     ingredients := scaledIngredients;
     steps := steps recipe;
     tags := tags recipe;
     cookingMethods := cookingMethods recipe;
     nutritionalInfo := nutritionalInfo recipe |}.

End RecipeUtils.


(* ================================================================== *)
(** * Arrays and insertion-ordered maps                                 *)
(* ================================================================== *)

Module Arrays.

Section Sort.
Context {A : Type}.
Variable cmp : A -> A -> Z.

Fixpoint sort_insert (x : A) (l : list A) : list A :=
  match l with
  | [] => [x]
  | y :: l' => if cmp x y <=? 0 then x :: l else y :: sort_insert x l'
  end.

(** [arr.sort(cmp)]: the stable sort of the language standard.  An
    element stays in front of the later elements it compares equal to. *)
Definition js_sort (l : list A) : list A := fold_right sort_insert [] l.
End Sort.

(** A [Map]: its entries in insertion order. *)
Section InsertionMap.
Context {K V : Type}.
Variable eqb : K -> K -> bool.

Fixpoint map_get (m : list (K * V)) (k : K) : option V :=
  match m with
  | [] => None
  | (k', v) :: m' => if eqb k k' then Some v else map_get m' k
  end.

Definition map_has (m : list (K * V)) (k : K) : bool :=
  match map_get m k with Some _ => true | None => false end.

(** [m.set(k, v)]: a new key goes last, a known key keeps its place. *)
Fixpoint map_set (m : list (K * V)) (k : K) (v : V) : list (K * V) :=
  match m with
  | [] => [(k, v)]
  | (k', v') :: m' =>
    if eqb k k' then (k, v) :: m' else (k', v') :: map_set m' k v
  end.

Definition map_values (m : list (K * V)) : list V := map snd m.
End InsertionMap.

End Arrays.
Import Arrays.

(* ================================================================== *)
(** * [src/utils/shoppingListUtils.ts]                                  *)
(* ================================================================== *)

Module ShoppingListUtils.

Definition shopping_category_eqb (a b : ShoppingCategory) : bool :=
  match a, b with
  | Vegetables, Vegetables | Fruits, Fruits | Meat, Meat
  | SeafoodGoods, SeafoodGoods | EggsDairy, EggsDairy
  | Condiments, Condiments | Staples, Staples | Snacks, Snacks
  | Beverages, Beverages | Frozen, Frozen | Canned, Canned
  | Other, Other => true
  | _, _ => false
  end.

(** The keyword table of [categorizeIngredient], in the order in which
    [Object.entries] lists it. *)
Definition categoryKeywords : list (ShoppingCategory * list jsstring) :=
  [ (Vegetables,
      (* 白菜 萝卜 土豆 番茄 黄瓜 茄子 豆角 菠菜 韭菜 芹菜 洋葱 大蒜 生姜 *)
      [[0x767D; 0x83DC]; [0x841D; 0x535C]; [0x571F; 0x8C46];
       [0x756A; 0x8304]; [0x9EC4; 0x74DC]; [0x8304; 0x5B50];
       [0x8C46; 0x89D2]; [0x83E0; 0x83DC]; [0x97ED; 0x83DC];
       [0x82B9; 0x83DC]; [0x6D0B; 0x8471]; [0x5927; 0x849C]; [0x751F; 0x59DC]]%N)
  ; (Fruits,
      (* 苹果 香蕉 橙子 梨 葡萄 草莓 西瓜 柠檬 *)
      [[0x82F9; 0x679C]; [0x9999; 0x8549]; [0x6A59; 0x5B50]; [0x68A8];
       [0x8461; 0x8404]; [0x8349; 0x8393]; [0x897F; 0x74DC]; [0x67E0; 0x6AAC]]%N)
  ; (Meat,
      (* 猪肉 牛肉 羊肉 鸡肉 鸭肉 排骨 肉丝 肉片 *)
      [[0x732A; 0x8089]; [0x725B; 0x8089]; [0x7F8A; 0x8089];
       [0x9E21; 0x8089]; [0x9E2D; 0x8089]; [0x6392; 0x9AA8];
       [0x8089; 0x4E1D]; [0x8089; 0x7247]]%N)
  ; (SeafoodGoods,
      (* 鱼 虾 蟹 贝 鱿鱼 带鱼 黄鱼 鲈鱼 *)
      [[0x9C7C]; [0x867E]; [0x87F9]; [0x8D1D]; [0x9C7F; 0x9C7C];
       [0x5E26; 0x9C7C]; [0x9EC4; 0x9C7C]; [0x9C88; 0x9C7C]]%N)
  ; (EggsDairy,
      (* 鸡蛋 鸭蛋 牛奶 酸奶 奶酪 黄油 *)
      [[0x9E21; 0x86CB]; [0x9E2D; 0x86CB]; [0x725B; 0x5976];
       [0x9178; 0x5976]; [0x5976; 0x916A]; [0x9EC4; 0x6CB9]]%N)
  ; (Staples,
      (* 大米 面粉 面条 馒头 面包 土豆 *)
      [[0x5927; 0x7C73]; [0x9762; 0x7C89]; [0x9762; 0x6761];
       [0x9992; 0x5934]; [0x9762; 0x5305]; [0x571F; 0x8C46]]%N)
  ; (Condiments,
      (* 盐 糖 醋 酱油 料酒 胡椒 八角 桂皮 花椒 辣椒 *)
      [[0x76D0]; [0x7CD6]; [0x918B]; [0x9171; 0x6CB9]; [0x6599; 0x9152];
       [0x80E1; 0x6912]; [0x516B; 0x89D2]; [0x6842; 0x76AE];
       [0x82B1; 0x6912]; [0x8FA3; 0x6912]]%N)
  ; (Frozen, [[0x51B7; 0x51BB]; [0x901F; 0x51BB]]%N)     (* 冷冻 速冻 *)
  ; (Canned, [[0x7F50; 0x88C5]; [0x7F50; 0x5934]]%N)     (* 罐装 罐头 *)
  ; (Beverages,
      (* 茶 咖啡 果汁 汽水 *)
      [[0x8336]; [0x5496; 0x5561]; [0x679C; 0x6C41]; [0x6C7D; 0x6C34]]%N)
  ; (Snacks,
      (* 饼干 薯片 坚果 *)
      [[0x997C; 0x5E72]; [0x85AF; 0x7247]; [0x575A; 0x679C]]%N)
  ; (Other, [])
  ].

(** The first category one of whose keywords the name contains. *)
Fixpoint firstCategory (table : list (ShoppingCategory * list jsstring))
    (ingredientName : jsstring) : ShoppingCategory :=
  match table with
  | [] => Other
  | (category, keywords) :: table' =>
    if existsb (fun keyword => includes ingredientName keyword) keywords
    then category
    else firstCategory table' ingredientName
  end.

Definition categorizeIngredient (ingredientName : jsstring) : ShoppingCategory :=
  firstCategory categoryKeywords ingredientName.

Definition scaleIngredientAmount (amount : jsstring) (scaleFactor : Double.double)
  : jsstring :=
  match match_numeric amount with
  | Some (numStr, unit) =>
    if truthy numStr then
      let originalNum := Double.parseFloat numStr in
      let scaledNum := Double.mul originalNum scaleFactor in
      let roundedNum := Double.round2 scaledNum in
      Double.Number_toString roundedNum ++ unit
    else amount
  | None => amount
  end.

Definition plus_sign : jsstring := js " + ".

Definition combineQuantities (qty1 qty2 : jsstring) : jsstring :=
  match match_numeric qty1, match_numeric qty2 with
  | Some (num1, unit1), Some (num2, unit2) =>
    if truthy num1 && truthy num2 && str_eqb unit1 unit2 then
      let sum := Double.add (Double.parseFloat num1) (Double.parseFloat num2) in
      Double.Number_toString (Double.round2 sum) ++ unit1
    else qty1 ++ plus_sign ++ qty2
  | _, _ => qty1 ++ plus_sign ++ qty2
  end.

Definition priceRange (category : ShoppingCategory) : Z * Z :=
  match category with
  | Vegetables => (2, 8)
  | Fruits => (5, 15)
  | Meat => (15, 40)
  | SeafoodGoods => (20, 60)
  | EggsDairy => (3, 12)
  | Staples => (2, 10)
  | Condiments => (1, 8)
  | Frozen => (8, 25)
  | Canned => (5, 15)
  | Beverages => (3, 12)
  | Snacks => (5, 20)
  | Other => (2, 15)
  end.

Definition estimatePrice (_ingredientName : jsstring) (category : ShoppingCategory)
  : option Z :=
  let (min, max) := priceRange category in
  Some (Math_round (inject_Z (min + max) / 2)).

(* 盐 油 米 面 蛋 奶 *)
Definition highPriorityItems : list jsstring :=
  [[0x76D0]; [0x6CB9]; [0x7C73]; [0x9762]; [0x86CB]; [0x5976]]%N.

Definition determinePriority (ingredientName : jsstring) (category : ShoppingCategory)
  : ShoppingPriority :=
  if existsb (fun item => includes ingredientName item) highPriorityItems then High
  else if shopping_category_eqb category Snacks || shopping_category_eqb category Beverages
       then Low
       else Normal.

(** The key of an ingredient in the map of [consolidateIngredients]. *)
Definition itemKey (shouldConsolidate : bool) (recipe : Recipe) (ingredient : Ingredient)
  : jsstring :=
  if shouldConsolidate then ing_name ingredient
  else ing_name ingredient ++ js "_" ++ id recipe.

Definition set_quantity (q : jsstring) (ids names : list jsstring) (it : ShoppingItem)
  : ShoppingItem :=
  {| item_name := item_name it;
     item_category := item_category it;
     quantity := q;
     estimatedPrice := estimatedPrice it;
     priority := priority it;
     item_notes := item_notes it;
     recipeIds := ids;
     recipeNames := names;
     isPurchased := isPurchased it |}.

(** The body of the inner [forEach] of [consolidateIngredients]. *)
Definition addIngredient (numberOfPeople : Z) (shouldConsolidate : bool)
    (recipe : Recipe) (ingredientMap : list (jsstring * ShoppingItem))
    (ingredient : Ingredient) : list (jsstring * ShoppingItem) :=
  let scaleFactor :=
    Double.div (Double.of_Z numberOfPeople) (Double.of_Z (servings recipe)) in
  let scaledAmount := scaleIngredientAmount (amount ingredient) scaleFactor in
  let category := categorizeIngredient (ing_name ingredient) in
  let key := itemKey shouldConsolidate recipe ingredient in
  match map_get str_eqb ingredientMap key with
  | Some existingItem =>
    map_set str_eqb ingredientMap key
      (set_quantity
         (if shouldConsolidate
          then combineQuantities (quantity existingItem) scaledAmount
          else scaledAmount)
         (recipeIds existingItem ++ [id recipe])
         (recipeNames existingItem ++ [name recipe])
         existingItem)
  | None =>
    map_set str_eqb ingredientMap key
      {| item_name := ing_name ingredient;
         item_category := category;
         quantity := scaledAmount;
         estimatedPrice := estimatePrice (ing_name ingredient) category;
         priority := determinePriority (ing_name ingredient) category;
         item_notes := ing_notes ingredient;
         recipeIds := [id recipe];
         recipeNames := [name recipe];
         isPurchased := false |}
  end.

Definition addRecipe (numberOfPeople : Z) (shouldConsolidate : bool)
    (ingredientMap : list (jsstring * ShoppingItem)) (recipe : Recipe)
  : list (jsstring * ShoppingItem) :=
  fold_left (addIngredient numberOfPeople shouldConsolidate recipe)
            (ingredients recipe) ingredientMap.

(** [shouldConsolidate] is [None] when the argument is [undefined], and the
    default [true] applies. *)
Definition consolidateIngredients (recipes : list Recipe) (numberOfPeople : Z)
    (shouldConsolidate : option bool) : list ShoppingItem :=
  let consolidate := match shouldConsolidate with Some b => b | None => true end in
  map_values (fold_left (addRecipe numberOfPeople consolidate) recipes []).

Definition categoryOrder : list ShoppingCategory :=
  [Vegetables; Fruits; Meat; SeafoodGoods; EggsDairy; Staples; Condiments;
   Frozen; Canned; Beverages; Snacks; Other].

(** [categoryOrder.indexOf(c)] *)
Fixpoint indexOf (l : list ShoppingCategory) (c : ShoppingCategory) : Z :=
  match l with
  | [] => -1
  | x :: l' =>
    if shopping_category_eqb x c then 0
    else let i := indexOf l' c in if i <? 0 then -1 else i + 1
  end.

Definition price_or_zero (p : option Z) : Z :=
  match p with Some v => v | None => 0 end.

Section Collation.
(** [a.localeCompare(b, 'zh-CN')], the collation of the platform. *)
Variable localeCompare : jsstring -> jsstring -> Z.

Definition pushItem (categoryMap : list (ShoppingCategory * list ShoppingItem))
    (item : ShoppingItem) : list (ShoppingCategory * list ShoppingItem) :=
  let categoryMap1 :=
    if negb (map_has shopping_category_eqb categoryMap (item_category item))
    then map_set shopping_category_eqb categoryMap (item_category item) []
    else categoryMap in
  match map_get shopping_category_eqb categoryMap1 (item_category item) with
  | Some its =>
    map_set shopping_category_eqb categoryMap1 (item_category item) (its ++ [item])
  | None => categoryMap1
  end.

Definition makeSection (entry : ShoppingCategory * list ShoppingItem)
  : ShoppingSection :=
  let (category, its) := entry in
  let total :=
    fold_left (fun sum item => sum + price_or_zero (estimatedPrice item)) its 0 in
  {| sec_category := category;
     items := js_sort (fun a b => localeCompare (item_name a) (item_name b)) its;
     sec_totalEstimatedCost := total |}.

Definition groupItemsByCategory (its : list ShoppingItem) : list ShoppingSection :=
  let categoryMap := fold_left pushItem its [] in
  let sects := map makeSection categoryMap in
  js_sort (fun a b => indexOf categoryOrder (sec_category a)
                      - indexOf categoryOrder (sec_category b))
          sects.

Definition calculateTotalCost (sects : list ShoppingSection) : Z :=
  fold_left (fun total section => total + sec_totalEstimatedCost section) sects 0.

(** The identifier, the name, the two time stamps and the fixed texts of
    the list are left out: they come from the clock and from a random
    draw of their own and no function reads them. *)
Definition generateShoppingListFromRecipes (recipes : list Recipe)
    (request : ShoppingListRequest) : ShoppingList :=
  let consolidatedItems :=
    consolidateIngredients recipes (slr_numberOfPeople request)
                           (consolidateItems request) in
  let sects := groupItemsByCategory consolidatedItems in
  let filteredSections :=
    match excludeCategories request with
    | Some excluded =>
      filter (fun section =>
                negb (existsb (shopping_category_eqb (sec_category section)) excluded))
             sects
    | None => sects
    end in
  {| sections := filteredSections;
     totalItems :=
       fold_left (fun sum section => sum + Z.of_nat (length (items section)))
                 filteredSections 0;
     totalEstimatedCost :=
       match includePriceEstimates request with
       | Some true => Some (calculateTotalCost filteredSections)
       | _ => None
       end |}.

Definition generateShoppingListFromMealPlan (mealPlan : WeeklyMealPlan)
    (request : ShoppingListRequest) : ShoppingList :=
  let allRecipes :=
    flat_map (fun d => map meal_recipe (meals d)) (dailyPlans mealPlan) in
  generateShoppingListFromRecipes allRecipes request.
End Collation.

End ShoppingListUtils.

(* ================================================================== *)
(** * Duration strings (the private helper of every module)             *)
(* ================================================================== *)

Module Durations.

Definition hours_word : jsstring := [0x5C0F; 0x65F6]%N.    (* 小时 *)
Definition minutes_word : jsstring := [0x5206; 0x949F]%N.  (* 分钟 *)

Definition parseTimeInMinutes (timeStr : jsstring) : Z :=
  let hourMatch := match_digits_before hours_word timeStr in
  let minuteMatch := match_digits_before minutes_word timeStr in
  let totalMinutes := 0 in
  let totalMinutes :=
    match hourMatch with
    | Some h => if truthy h then totalMinutes + parseInt h * 60 else totalMinutes
    | None => totalMinutes
    end in
  let totalMinutes :=
    match minuteMatch with
    | Some m => if truthy m then totalMinutes + parseInt m else totalMinutes
    | None => totalMinutes
    end in
  totalMinutes.

End Durations.
Import Durations.

(* ================================================================== *)
(** * [src/utils/mealPlanUtils.ts]                                      *)
(* ================================================================== *)

Module MealPlanUtils.

Definition restriction_eqb (a b : DietaryRestriction) : bool :=
  match a, b with
  | VegetarianOnly, VegetarianOnly | Vegan, Vegan | GlutenFree, GlutenFree
  | LowSalt, LowSalt | LowSugar, LowSugar | LowFat, LowFat
  | HighProtein, HighProtein | NoNuts, NoNuts | NoSeafood, NoSeafood
  | NoDairy, NoDairy => true
  | _, _ => false
  end.

Definition skillMap (skill : SkillLevel) : list DifficultyLevel :=
  match skill with
  | Beginner => [Easy]
  | Intermediate => [Easy; Medium]
  | Advanced => [Easy; Medium; Hard]
  end.

Definition nonempty {A} (l : list A) : bool :=
  match l with [] => false | _ :: _ => true end.

(** [xs.length === 0] *)
Definition len_is_zero {A} (l : list A) : bool := negb (nonempty l).

Definition filterRecipesByPreferences (recipes : list Recipe)
    (preferences : MealPlanPreferences) : list Recipe :=
  let filtered := recipes in
  (* dietary restrictions *)
  let filtered :=
    match dietaryRestrictions preferences with
    | Some restrictions =>
      if nonempty restrictions then
        filter (fun recipe =>
                  if existsb (restriction_eqb VegetarianOnly) restrictions
                     && category_eqb (category recipe) MeatDish then false
                  else if existsb (restriction_eqb NoSeafood) restrictions
                          && category_eqb (category recipe) Seafood then false
                  else true)
               filtered
      else filtered
    | None => filtered
    end in
  (* excluded categories *)
  let filtered :=
    match excludedCategories preferences with
    | Some excluded =>
      if nonempty excluded then
        filter (fun recipe => negb (arr_includes excluded (category_name (category recipe))))
               filtered
      else filtered
    | None => filtered
    end in
  (* preferred categories: used only when some recipe has one *)
  let filtered :=
    match preferredCategories preferences with
    | Some wanted =>
      if nonempty wanted then
        let preferred :=
          filter (fun recipe => arr_includes wanted (category_name (category recipe)))
                 filtered in
        if nonempty preferred then preferred else filtered
      else filtered
    | None => filtered
    end in
  (* cooking skill level *)
  match cookingSkillLevel preferences with
  | Some skill =>
    let allowedDifficulties := skillMap skill in
    filter (fun recipe => existsb (difficulty_eqb (difficulty recipe)) allowedDifficulties)
           filtered
  | None => filtered
  end.

(** [recipes[Math.floor(Math.random() * recipes.length)]].  Every caller
    reads a property of the result before it returns, so an index outside
    the array ends the caller with a [TypeError]. *)
Definition selectRandomRecipe (recipes : list Recipe) : M Recipe :=
  i <- randomIndex (length recipes) ;; at_index recipes i.

Definition calories_or_zero (recipe : Recipe) : Q :=
  match nutritionalInfo recipe with
  | Some info => match calories info with Some c => c | None => 0%Q end
  | None => 0%Q
  end.

Definition calculateDailyCalories (meals : list PlannedMeal) : Q :=
  fold_left
    (fun total meal =>
       let recipeCalories := calories_or_zero (meal_recipe meal) in
       let scaledCalories :=
         (recipeCalories / inject_Z (servings (meal_recipe meal))
          * inject_Z (meal_servings meal))%Q in
       (total + scaledCalories)%Q)
    meals 0%Q.

Definition has_tag (recipe : Recipe) (tag : jsstring) : bool :=
  match tags recipe with
  | Some ts => arr_includes ts tag
  | None => false
  end.

(** One slot of a day: a meal is added when some recipe is eligible. *)
Definition planSlot (eligible : list Recipe) (slot : MealType) (people : Z)
    (meals : list PlannedMeal) : M (list PlannedMeal) :=
  if nonempty eligible then
    recipe <- selectRandomRecipe eligible ;;
    ret (meals ++ [ {| mealType := slot; meal_recipe := recipe;
                       meal_servings := people |} ])
  else ret meals.

(** The fixed notes of the meals and of the day are left out. *)
Definition generateDailyMealPlan (recipes : list Recipe)
    (preferences : MealPlanPreferences) (day : DayOfWeek) (date : jsstring)
  : M DailyMealPlan :=
  let meals := [] in
  let breakfastRecipes :=
    filter (fun r => category_eqb (category r) Breakfast
                     || has_tag r (category_name Breakfast)) recipes in
  meals <- planSlot breakfastRecipes BreakfastMeal (numberOfPeople preferences) meals ;;
  let lunchRecipes :=
    filter (fun r => existsb (category_eqb (category r))
                             [MeatDish; Vegetarian; Staple; Soup]) recipes in
  meals <- planSlot lunchRecipes Lunch (numberOfPeople preferences) meals ;;
  let dinnerRecipes :=
    filter (fun r => existsb (category_eqb (category r))
                             [MeatDish; Vegetarian; Seafood; Soup]) recipes in
  meals <- planSlot dinnerRecipes Dinner (numberOfPeople preferences) meals ;;
  ret {| day := day; date := date; meals := meals;
         totalCalories := calculateDailyCalories meals |}.

Definition daysOfWeek : list DayOfWeek := [Mon; Tue; Wed; Thu; Fri; Sat; Sun].

Section Dates.
(** The platform's [Date]: [new Date(s)] as a day number ([None] for an
    Invalid Date), the day that [getNextMonday()] reads off the clock,
    and the date part of [toISOString()]. *)
Variable parseDate : jsstring -> option Z.
Variable nextMonday : Z.
Variable isoDate : Z -> jsstring.

(** The loop [for (let i = 0; i < 7; i++)], from day [i] on. *)
Fixpoint dailyLoop (suitableRecipes : list Recipe)
    (preferences : MealPlanPreferences) (start : Z) (i : Z)
    (days : list DayOfWeek) (dailyPlans : list DailyMealPlan)
  : M (list DailyMealPlan) :=
  match days with
  | [] => ret dailyPlans
  | d :: days' =>
    dailyPlan <- generateDailyMealPlan suitableRecipes preferences d
                                       (isoDate (start + i)) ;;
    dailyLoop suitableRecipes preferences start (i + 1) days'
              (dailyPlans ++ [dailyPlan])
  end.

(** An Invalid Date makes the first [toISOString()] throw a
    [RangeError], before the first daily plan.  The identifier, the name
    and the two time stamps of the plan are left out. *)
Definition generateWeeklyMealPlan (recipes : list Recipe)
    (preferences : MealPlanPreferences) (startDate : option jsstring)
  : M WeeklyMealPlan :=
  let start :=
    match startDate with
    | Some s => if truthy s then parseDate s else Some nextMonday
    | None => Some nextMonday
    end in
  let suitableRecipes := filterRecipesByPreferences recipes preferences in
  match start with
  | None => throw
  | Some start =>
    dailyPlans <- dailyLoop suitableRecipes preferences start 0 daysOfWeek [] ;;
    ret {| startDate := isoDate start;
           endDate := isoDate (start + 6);
           preferences := preferences;
           dailyPlans := dailyPlans |}
  end.
End Dates.

Definition validateMealPlanPreferences (preferences : MealPlanPreferences)
  : bool * list jsstring :=
  let errors := [] in
  let errors :=
    if numberOfPeople preferences <=? 0
    then errors ++ [js "Number of people must be greater than 0"] else errors in
  let errors :=
    if 20 <? numberOfPeople preferences
    then errors ++ [js "Number of people cannot exceed 20"] else errors in
  (negb (nonempty errors), errors).

(** [new Set(xs)]: the distinct elements, each at its first place. *)
Fixpoint distinct {A} (eqb : A -> A -> bool) (seen xs : list A) : list A :=
  match xs with
  | [] => seen
  | x :: xs' => distinct eqb (if existsb (eqb x) seen then seen else seen ++ [x]) xs'
  end.

Record MealPlanStats := {
  totalRecipes : Z;
  uniqueRecipes : Z;
  categoriesUsed : list RecipeCategory;
  averageCaloriesPerDay : Q;
  totalEstimatedCookTime : Z
}.

Definition calculateMealPlanStats (mealPlan : WeeklyMealPlan) : MealPlanStats :=
  let allRecipes :=
    flat_map (fun d => map meal_recipe (meals d)) (dailyPlans mealPlan) in
  let uniqueRecipeIds := distinct str_eqb [] (map id allRecipes) in
  let categoriesUsed := distinct category_eqb [] (map category allRecipes) in
  let totalCalories :=
    fold_left (fun sum d => (sum + totalCalories d)%Q) (dailyPlans mealPlan) 0%Q in
  {| totalRecipes := Z.of_nat (length allRecipes);
     uniqueRecipes := Z.of_nat (length uniqueRecipeIds);
     categoriesUsed := categoriesUsed;
     averageCaloriesPerDay :=
       (totalCalories / inject_Z (Z.of_nat (length (dailyPlans mealPlan))))%Q;
     totalEstimatedCookTime :=
       fold_left (fun total recipe =>
                    total + parseTimeInMinutes (prepTime recipe)
                    + parseTimeInMinutes (cookTime recipe))
                 allRecipes 0 |}.

End MealPlanUtils.

(* ================================================================== *)
(** * [src/utils/dishCombinationUtils.ts]                               *)
(* ================================================================== *)

Module DishCombinationUtils.

Import MealPlanUtils.

Definition vegetarian_only : jsstring := [0x7D20; 0x98DF]%N.       (* 素食 *)
Definition no_seafood : jsstring := [0x65E0; 0x6D77; 0x9C9C]%N.    (* 无海鲜 *)
Definition no_nuts : jsstring := [0x65E0; 0x575A; 0x679C]%N.       (* 无坚果 *)
Definition peanut : jsstring := [0x82B1; 0x751F]%N.                (* 花生 *)
Definition walnut : jsstring := [0x6838; 0x6843]%N.                (* 核桃 *)
Definition almond : jsstring := [0x674F; 0x4EC1]%N.                (* 杏仁 *)

(** The callback of [dietaryRestrictions.some]: the restriction rules the
    recipe out. *)
Definition violates (recipe : Recipe) (restriction : jsstring) : bool :=
  if str_eqb restriction vegetarian_only && category_eqb (category recipe) MeatDish
  then true
  else if str_eqb restriction no_seafood && category_eqb (category recipe) Seafood
  then true
  else if str_eqb restriction no_nuts
          && existsb (fun ing => includes (ing_name ing) peanut
                                 || includes (ing_name ing) walnut
                                 || includes (ing_name ing) almond)
                     (ingredients recipe)
  then true
  else false.

Definition filterRecipesByPreferences (recipes : list Recipe)
    (preferences : CombinationPreferences) : list Recipe :=
  let filtered := recipes in
  let filtered :=
    match cp_dietaryRestrictions preferences with
    | Some restrictions =>
      if nonempty restrictions then
        filter (fun recipe => negb (existsb (violates recipe) restrictions)) filtered
      else filtered
    | None => filtered
    end in
  let filtered :=
    match skillLevel preferences with
    | Some skill =>
      let allowedDifficulties := skillMap skill in
      filter (fun recipe => existsb (difficulty_eqb (difficulty recipe)) allowedDifficulties)
             filtered
    | None => filtered
    end in
  match cookingTime preferences with
  | Some limit =>
    if truthy limit then
      let maxMinutes := parseTimeInMinutes limit in
      filter (fun recipe =>
                let recipeTime := parseTimeInMinutes (prepTime recipe)
                                  + parseTimeInMinutes (cookTime recipe) in
                recipeTime <=? maxMinutes)
             filtered
    else filtered
  | None => filtered
  end.

Definition categoryPriority : list RecipeCategory :=
  [MeatDish; Vegetarian; Soup; Staple; Seafood].

Definition len {A} (l : list A) : Z := Z.of_nat (length l).

Definition remove_id (selected : Recipe) (availableRecipes : list Recipe) : list Recipe :=
  filter (fun r => negb (str_eqb (id r) (id selected))) availableRecipes.

(** The state of the two loops: the selected recipes, the categories in
    use, the recipes still available. *)
Definition Selection : Type := list Recipe * list RecipeCategory * list Recipe.

(** The loop [for (const category of categoryPriority)]. *)
Fixpoint categoryLoop (maxDishes : Z) (categories : list RecipeCategory)
    (st : Selection) : M Selection :=
  match categories with
  | [] => ret st
  | cat :: categories' =>
    let '(selectedRecipes, usedCategories, availableRecipes) := st in
    if maxDishes <=? len selectedRecipes then ret st                    (* break *)
    else if existsb (category_eqb cat) usedCategories
    then categoryLoop maxDishes categories' st                          (* continue *)
    else
      let categoryRecipes :=
        filter (fun r => category_eqb (category r) cat) availableRecipes in
      if nonempty categoryRecipes then
        selected <- selectRandomRecipe categoryRecipes ;;
        categoryLoop maxDishes categories'
          (selectedRecipes ++ [selected],
           usedCategories ++ [cat],
           remove_id selected availableRecipes)
      else categoryLoop maxDishes categories' st
  end.

(** The loop [while (selectedRecipes.length < bound &&
    availableRecipes.length > 0)].  Every turn takes the selected recipe out
    of the available ones, so the number of available recipes bounds the
    number of turns; [fuel] is that bound. *)
Fixpoint fillLoop (fuel : nat) (bound : Z)
    (selectedRecipes availableRecipes : list Recipe) : M (list Recipe * list Recipe) :=
  match fuel with
  | O => ret (selectedRecipes, availableRecipes)
  | S fuel' =>
    if (len selectedRecipes <? bound) && nonempty availableRecipes then
      selected <- selectRandomRecipe availableRecipes ;;
      fillLoop fuel' bound (selectedRecipes ++ [selected])
               (remove_id selected availableRecipes)
    else ret (selectedRecipes, availableRecipes)
  end.

(** The statements of [selectDishesForCombination] before its loops: the
    selected and the available recipes once the two lists of identifiers
    are applied. *)
Definition initialSelection (recipes : list Recipe)
    (includeIds excludeIds : option (list jsstring)) : list Recipe * list Recipe :=
  let availableRecipes := recipes in
  let availableRecipes :=
    match excludeIds with
    | Some ex =>
      if nonempty ex
      then filter (fun recipe => negb (arr_includes ex (id recipe))) availableRecipes
      else availableRecipes
    | None => availableRecipes
    end in
  let selectedRecipes := [] in
  match includeIds with
  | Some inc =>
    if nonempty inc then
      let requiredRecipes := filter (fun recipe => arr_includes inc (id recipe)) recipes in
      (selectedRecipes ++ requiredRecipes,
       filter (fun recipe => negb (arr_includes inc (id recipe))) availableRecipes)
    else (selectedRecipes, availableRecipes)
  | None => (selectedRecipes, availableRecipes)
  end.

(** The selection, with the recipes left available at the end. *)
Definition selectDishes (recipes : list Recipe) (maxDishes minDishes : Z)
    (includeIds excludeIds : option (list jsstring)) : M (list Recipe * list Recipe) :=
  let '(selectedRecipes, availableRecipes) :=
    initialSelection recipes includeIds excludeIds in
  let remainingSlots :=
    Z.min (maxDishes - len selectedRecipes) (Z.max 0 (minDishes - len selectedRecipes)) in
  let usedCategories := distinct category_eqb [] (map category selectedRecipes) in
  st <- categoryLoop maxDishes categoryPriority
                     (selectedRecipes, usedCategories, availableRecipes) ;;
  let '(selectedRecipes, _, availableRecipes) := st in
  fillLoop (length availableRecipes) (Z.max minDishes remainingSlots)
           selectedRecipes availableRecipes.

Definition selectDishesForCombination (recipes : list Recipe)
    (_preferences : CombinationPreferences) (maxDishes minDishes : Z)
    (includeIds excludeIds : option (list jsstring)) : M (list Recipe) :=
  r <- selectDishes recipes maxDishes minDishes includeIds excludeIds ;;
  ret (fst r).

Definition determineDishRole (recipe : Recipe) : DishRole :=
  match category recipe with
  | MeatDish => MainDish
  | Seafood => MainDish
  | Vegetarian => SideDish
  | Soup => SoupDish
  | Staple => StapleDish
  | Dessert => DessertDish
  | _ => SideDish
  end.

Definition determineDishPriority (role : DishRole) (preferences : CombinationPreferences)
  : DishPriority :=
  match role with
  | MainDish | StapleDish => Required
  | SoupDish => if 2 <? cp_numberOfPeople preferences then Recommended else Optional
  | _ => Optional
  end.

Definition getServingOrder (role : DishRole) : Z :=
  match role with
  | Appetizer => 1
  | SoupDish => 2
  | MainDish => 3
  | SideDish => 4
  | StapleDish => 5
  | DessertDish => 6
  end.

(** The body of the [forEach] of [assignDishRoles], from index [index] on.
    The sentence [reason], picked by a random draw of its own, is left
    out. *)
Fixpoint assignFrom (index : Z) (recipes : list Recipe)
    (preferences : CombinationPreferences) : list RecommendedDish :=
  match recipes with
  | [] => []
  | recipe :: recipes' =>
    let role := determineDishRole recipe in
    {| dish_recipe := recipe;
       role := role;
       dish_priority := determineDishPriority role preferences;
       preparationOrder := index + 1;
       servingOrder := getServingOrder role |}
    :: assignFrom (index + 1) recipes' preferences
  end.

Definition assignDishRoles (recipes : list Recipe)
    (preferences : CombinationPreferences) : list RecommendedDish :=
  js_sort (fun a b => preparationOrder a - preparationOrder b)
          (assignFrom 0 recipes preferences).

Definition eggs_dairy : jsstring := [0x86CB; 0x5976]%N.  (* 蛋奶 *)

Definition analyzeNutritionalBalance (dishes : list RecommendedDish)
  : NutritionalBalance :=
  let categories := map (fun dish => category_name (category (dish_recipe dish))) dishes in
  let hasProtein :=
    existsb (fun cat => arr_includes
                          [category_name MeatDish; category_name Seafood; eggs_dairy] cat)
            categories in
  let hasVegetables := arr_includes categories (category_name Vegetarian) in
  let hasCarbs := arr_includes categories (category_name Staple) in
  {| hasProtein := hasProtein;
     hasVegetables := hasVegetables;
     hasCarbs := hasCarbs;
     isBalanced := hasProtein && hasVegetables && hasCarbs |}.

(* 酸 甜 苦 辣 咸 鲜 香 清淡 浓郁 *)
Definition flavorTags : list jsstring :=
  [[0x9178]; [0x751C]; [0x82E6]; [0x8FA3]; [0x54B8]; [0x9C9C]; [0x9999];
   [0x6E05; 0x6DE1]; [0x6D53; 0x90C1]]%N.

Definition aromatic : jsstring := [0x9999]%N.          (* 香 *)
Definition light : jsstring := [0x6E05; 0x6DE1]%N.     (* 清淡 *)
Definition rich : jsstring := [0x6D53; 0x90C1]%N.      (* 浓郁 *)

(** [flavors.add(x)] on a [Set] of strings kept in insertion order. *)
Definition set_add (flavors : list jsstring) (x : jsstring) : list jsstring :=
  if arr_includes flavors x then flavors else flavors ++ [x].

Definition addTagFlavor (flavors : list jsstring) (tag : jsstring) : list jsstring :=
  if arr_includes flavorTags tag then set_add flavors tag else flavors.

Definition addMethodFlavor (flavors : list jsstring) (method : CookingMethod)
  : list jsstring :=
  match method with
  | StirFry => set_add flavors aromatic
  | Steam => set_add flavors light
  | Stew => set_add flavors rich
  | _ => flavors
  end.

Definition addDishFlavors (flavors : list jsstring) (dish : RecommendedDish)
  : list jsstring :=
  let flavors :=
    match tags (dish_recipe dish) with
    | Some ts => fold_left addTagFlavor ts flavors
    | None => flavors
    end in
  match cookingMethods (dish_recipe dish) with
  | Some ms => fold_left addMethodFlavor ms flavors
  | None => flavors
  end.

Definition analyzeFlavorProfile (dishes : list RecommendedDish) : list jsstring :=
  fold_left addDishFlavors dishes [].

(** [x || d] on an optional number: the default also replaces zero. *)
Definition or_default (x : option Z) (d : Z) : Z :=
  match x with
  | Some v => if v =? 0 then d else v
  | None => d
  end.

(** The fields of the combination that name, describe and date it, the
    total times, the overall difficulty, the tips, the alternatives and the
    cost estimate are left out: they are computed from the dishes after the
    selection and nothing below reads them. *)
Definition generateDishCombination (recipes : list Recipe)
    (request : CombinationRequest) : M DishCombination :=
  let preferences := cr_preferences request in
  let suitableRecipes := filterRecipesByPreferences recipes preferences in
  selectedDishes <-
    selectDishesForCombination suitableRecipes preferences
      (or_default (maxDishes request) 6) (or_default (minDishes request) 3)
      (includeRecipeIds request) (excludeRecipeIds request) ;;
  let recommendedDishes := assignDishRoles selectedDishes preferences in
  ret {| dishes := recommendedDishes;
         comb_servings := cp_numberOfPeople preferences;
         nutritionalBalance := analyzeNutritionalBalance recommendedDishes;
         flavorProfile := analyzeFlavorProfile recommendedDishes |}.

End DishCombinationUtils.

(* ================================================================== *)
(** * [src/tools/recommendMealPlan.ts]                                  *)
(* ================================================================== *)

Module RecommendMealPlan.

Import MealPlanUtils ShoppingListUtils.

Record Input := {
  in_preferences : MealPlanPreferences;
  in_startDate : option jsstring;
  planDuration : option Z;
  includeShoppingList : option bool;
  consolidateIngredients : option bool
}.

Record MealPlanResponse := {
  mealPlan : WeeklyMealPlan;
  statistics : MealPlanStats;
  shoppingList : option ShoppingList
}.

Definition in_range (lo hi : Z) (x : option Z) : bool :=
  match x with
  | Some v => (lo <=? v) && (v <=? hi)
  | None => true
  end.

(** What [RecommendMealPlanInput.parse] checks beyond the types. *)
Definition schema_ok (input : Input) : bool :=
  in_range 1 20 (Some (numberOfPeople (in_preferences input)))
  && in_range 1 14 (planDuration input).

Definition default {A} (x : option A) (d : A) : A :=
  match x with Some v => v | None => d end.

Definition number (z : Z) : jsstring := Number_toString (inject_Z z).

(** [errors.join(', ')] *)
Fixpoint join (sep : jsstring) (l : list jsstring) : jsstring :=
  match l with
  | [] => []
  | [x] => x
  | x :: l' => x ++ sep ++ join sep l'
  end.

Section Platform.
Variable parseDate : jsstring -> option Z.
Variable nextMonday : Z.
Variable isoDate : Z -> jsstring.
Variable localeCompare : jsstring -> jsstring -> Z.

(** The handler, on the recipes that [recipeDataManager.getAllRecipes()]
    returns.  The budget estimate and the fixed recommendations of the
    response are left out. *)
Definition handleRecommendMealPlan (allRecipes : list Recipe) (input : Input)
  : source -> nat -> MCPResponse MealPlanResponse * nat :=
  fun rnd k =>
  if negb (schema_ok input) then
    (Failure (js "Failed to generate meal plan") ThrownMessage, k)
  else
    let preferences := in_preferences input in
    let planDuration := default (planDuration input) 7 in
    let includeShoppingList := default (includeShoppingList input) true in
    let consolidateIngredients := default (consolidateIngredients input) true in
    let validation := validateMealPlanPreferences preferences in
    if negb (fst validation) then
      (Failure (js "Invalid meal plan preferences")
               (Literal (join (js ", ") (snd validation))), k)
    else if len_is_zero allRecipes then
      (Failure (js "No recipes available") (Literal (js "Recipe database is empty")), k)
    else
      match generateWeeklyMealPlan parseDate nextMonday isoDate
              allRecipes preferences (in_startDate input) rnd k with
      | (None, k') => (Failure (js "Failed to generate meal plan") ThrownMessage, k')
      | (Some mealPlan, k') =>
        let statistics := calculateMealPlanStats mealPlan in
        let shoppingList :=
          if includeShoppingList then
            Some (generateShoppingListFromMealPlan localeCompare mealPlan
                    {| slr_numberOfPeople := numberOfPeople preferences;
                       consolidateItems := Some consolidateIngredients;
                       includePriceEstimates :=
                         Some (match budgetLevel preferences with
                               | Some _ => true | None => false end);
                       excludeCategories := None |})
          else None in
        (Success (js "Generated " ++ number planDuration
                  ++ js "-day meal plan for " ++ number (numberOfPeople preferences)
                  ++ js " people with " ++ number (totalRecipes statistics)
                  ++ js " meals")
                 {| mealPlan := mealPlan;
                    statistics := statistics;
                    shoppingList := shoppingList |},
         k')
      end.
End Platform.

End RecommendMealPlan.

(* ================================================================== *)
(** * [src/tools/recommendDishCombination.ts]                           *)
(* ================================================================== *)

Module RecommendDishCombination.

Import MealPlanUtils DishCombinationUtils.

Record Input := {
  in_preferences : CombinationPreferences;
  in_excludeRecipeIds : option (list jsstring);
  in_includeRecipeIds : option (list jsstring);
  in_maxDishes : option Z;
  in_minDishes : option Z;
  includeAnalysis : option bool
}.

Record DishCombinationResponse := {
  combination : DishCombination;
  analysis : option CombinationAnalysis
}.

(** What [RecommendDishCombinationInput.parse] checks beyond the types. *)
Definition schema_ok (input : Input) : bool :=
  RecommendMealPlan.in_range 1 20 (Some (cp_numberOfPeople (in_preferences input)))
  && RecommendMealPlan.in_range 2 10 (in_maxDishes input)
  && RecommendMealPlan.in_range 2 8 (in_minDishes input).

Definition score (b : bool) (points : Z) : Z := if b then points else 0.

(** [Math.max(1, Math.min(10, x))] *)
Definition clamp_1_10 (x : Q) : Q := Qmax 1 (Qmin 10 x).

(** The scores of [analyzeCombination]; the sentences [strengths] and
    [improvements] are left out.  Without a dish the average cooking time
    is 0/0, and the two scores that depend on it are [NaN]. *)
Definition analyzeCombination (combination : DishCombination) : CombinationAnalysis :=
  let nutritionalBalance := nutritionalBalance combination in
  let nutritionalScore := 0 in
  let nutritionalScore := nutritionalScore + score (hasProtein nutritionalBalance) 3 in
  let nutritionalScore := nutritionalScore + score (hasVegetables nutritionalBalance) 3 in
  let nutritionalScore := nutritionalScore + score (hasCarbs nutritionalBalance) 2 in
  let nutritionalScore := nutritionalScore + score (isBalanced nutritionalBalance) 2 in
  let flavorHarmony := Z.min 10 (len (flavorProfile combination) * 2) in
  let difficulties := map (fun d => difficulty (dish_recipe d)) (dishes combination) in
  let difficultyVariety := len (distinct difficulty_eqb [] difficulties) in
  let difficultyBalance := Z.max 1 (11 - difficultyVariety * 2) in
  let totalCook :=
    fold_left (fun sum dish => sum + parseTimeInMinutes (cookTime (dish_recipe dish)))
              (dishes combination) 0 in
  let timeEfficiency :=
    match dishes combination with
    | [] => None
    | _ :: _ =>
      let avgCookTime := (inject_Z totalCook / inject_Z (len (dishes combination)))%Q in
      Some (clamp_1_10 (10 - avgCookTime / 10))
    end in
  let overallScore :=
    match timeEfficiency with
    | Some te =>
      Some (Math_round
              ((inject_Z nutritionalScore + inject_Z flavorHarmony
                + inject_Z difficultyBalance + te) / 4))
    | None => None
    end in
  {| nutritionalScore := nutritionalScore;
     flavorHarmony := flavorHarmony;
     difficultyBalance := difficultyBalance;
     timeEfficiency := timeEfficiency;
     overallScore := overallScore |}.

(** The handler, on the recipes that [recipeDataManager.getAllRecipes()]
    returns.  The cooking plan and the alternative combinations of the
    response, fixed texts, are left out. *)
Definition handleRecommendDishCombination (allRecipes : list Recipe) (input : Input)
  : source -> nat -> MCPResponse DishCombinationResponse * nat :=
  fun rnd k =>
  if negb (schema_ok input) then
    (Failure (js "Failed to generate dish combination") ThrownMessage, k)
  else
    let preferences := in_preferences input in
    let maxDishes := RecommendMealPlan.default (in_maxDishes input) 6 in
    let minDishes := RecommendMealPlan.default (in_minDishes input) 3 in
    let includeAnalysis := RecommendMealPlan.default (includeAnalysis input) true in
    if maxDishes <? minDishes then
      (Failure (js "Invalid dish count constraints")
               (Literal (js "Minimum dishes cannot be greater than maximum dishes")), k)
    else if len_is_zero allRecipes then
      (Failure (js "No recipes available") (Literal (js "Recipe database is empty")), k)
    else
      let combinationRequest :=
        {| cr_preferences := preferences;
           excludeRecipeIds := in_excludeRecipeIds input;
           includeRecipeIds := in_includeRecipeIds input;
           maxDishes := Some maxDishes;
           minDishes := Some minDishes |} in
      match generateDishCombination allRecipes combinationRequest rnd k with
      | (None, k') =>
        (Failure (js "Failed to generate dish combination") ThrownMessage, k')
      | (Some combination, k') =>
        (Success (js "Generated " ++ RecommendMealPlan.number (len (dishes combination))
                  ++ js "-dish combination for "
                  ++ RecommendMealPlan.number (cp_numberOfPeople preferences)
                  ++ js " people")
                 {| combination := combination;
                    analysis :=
                      if includeAnalysis then Some (analyzeCombination combination)
                      else None |},
         k')
      end.

End RecommendDishCombination.

(* ================================================================== *)
(** * Vocabulary of the statements                                      *)
(* ================================================================== *)

(** A run of digits. *)
Definition is_digits (d : jsstring) : Prop := d <> [] /\ forallb isDigit d = true.

Definition starts_with (p : char16 -> bool) (r : jsstring) : bool :=
  match r with c :: _ => p c | [] => false end.

(** The rest starts with a point and a digit: a fraction follows. *)
Definition starts_fraction (r : jsstring) : bool :=
  match r with
  | c :: c' :: _ => N.eqb c dot && isDigit c'
  | _ => false
  end.

Definition one_line (u : jsstring) : Prop := existsb isLineTerminator u = false.

(** ** The anchored expression, as a grammar

    [NumericAmount a num unit]: the amount [a] is a decimal number [num]
    (digits, or digits, a point and digits, as long as possible) followed
    by a rest whose leading white space is skipped and whose remainder
    [unit] holds no line terminator. *)
Inductive NumericAmount : jsstring -> jsstring -> jsstring -> Prop :=
| NA_integer (d r : jsstring) :
    is_digits d ->
    starts_with isDigit r = false -> starts_fraction r = false ->
    one_line (dropWhile isSpace r) ->
    NumericAmount (d ++ r) d (dropWhile isSpace r)
| NA_fraction (d f r : jsstring) :
    is_digits d -> is_digits f ->
    starts_with isDigit r = false ->
    one_line (dropWhile isSpace r) ->
    NumericAmount (d ++ dot :: f ++ r) (d ++ dot :: f) (dropWhile isSpace r).

(** The number that a decimal text (digits, then possibly a point and
    digits) denotes. *)
Definition decimal_value (s : jsstring) : Q :=
  let (ip, rest) := span isDigit s in
  match rest with
  | c :: fp =>
    if N.eqb c dot then
      let f := fst (span isDigit fp) in
      (inject_Z (digits_value ip)
       + inject_Z (digits_value f) / inject_Z (10 ^ Z.of_nat (length f)))%Q
    else inject_Z (digits_value ip)
  | [] => inject_Z (digits_value ip)
  end.

(** [q] is [x] rounded to two decimals: a whole number of hundredths
    nearest to [x] (either neighbour at a tie). *)
Definition rounded_to_2_decimals (x q : Q) : Prop :=
  exists k : Z,
    q = (inject_Z k / 100)%Q /\
    (inject_Z k - (1 # 2) <= x * 100)%Q /\ (x * 100 <= inject_Z k + (1 # 2))%Q.

(** A decimal number as the anchored expression reads it. *)
Definition is_decimal (num : jsstring) : Prop :=
  is_digits num \/
  exists d f, num = d ++ dot :: f /\ is_digits d /\ is_digits f.

(** What [scaleRecipeIngredients] leaves alone. *)
Definition same_but_amounts (R R' : Recipe) : Prop :=
  id R' = id R /\ name R' = name R /\ description R' = description R /\
  category R' = category R /\ difficulty R' = difficulty R /\
  prepTime R' = prepTime R /\ cookTime R' = cookTime R /\
  totalTime R' = totalTime R /\ steps R' = steps R /\ tags R' = tags R /\
  cookingMethods R' = cookingMethods R /\ nutritionalInfo R' = nutritionalInfo R /\
  map ing_name (ingredients R') = map ing_name (ingredients R) /\
  map ing_notes (ingredients R') = map ing_notes (ingredients R).

(** ** Sample data for the concrete instances *)

(** The start date is absent or empty (next Monday is taken), or it is a
    date the platform can read. *)
Definition valid_start (parseDate : jsstring -> option Z)
    (startDate : option jsstring) : Prop :=
  match startDate with
  | Some s => truthy s = true -> parseDate s <> None
  | None => True
  end.

(** Every meal holds one of the given recipes. *)
Definition meals_from (recipes : list Recipe) (meals : list PlannedMeal) : Prop :=
  Forall (fun m => In (meal_recipe m) recipes) meals.

Module Samples.

Definition ingredient (n a : string) : Ingredient :=
  {| ing_name := js n; amount := js a; ing_notes := None |}.

Definition recipe (rid : string) (cat : RecipeCategory) (serv : Z)
    (ings : list Ingredient) : Recipe :=
  {| id := js rid; name := js rid; description := None; category := cat;
     difficulty := Easy; servings := serv; prepTime := js "10min";
     cookTime := js "20min"; totalTime := js "30min"; ingredients := ings;
     steps := []; tags := None; cookingMethods := None;
     nutritionalInfo := None |}.

Definition pork : Recipe := recipe "pork" MeatDish 2 [ingredient "rice" "200g"].
Definition greens : Recipe := recipe "greens" Vegetarian 2 [ingredient "rice" "100g"].
Definition broth : Recipe := recipe "broth" Soup 4 [ingredient "rice" "2 cups"].
Definition noodles : Recipe := recipe "noodles" Staple 2 [ingredient "flour" "300g"].
Definition carp : Recipe := recipe "carp" Seafood 2 [ingredient "carp" "1"].

(** Two servings with 0.15 g of salt; scaled to three servings the exact
    product is 0.225. *)
Definition salted : Recipe := recipe "salted" Seasoning 2 [ingredient "salt" "0.15g"].

(** An amount halfway between 0.04 and 0.05. *)
Definition pinched : Recipe := recipe "pinched" Seasoning 2 [ingredient "salt" "0.045g"].

(** An amount just below 0.225. *)
Definition brined : Recipe :=
  recipe "brined" Seasoning 2 [ingredient "salt" "0.22499999999999999999g"].

(** Three recipes for four that bring rice in grams: ten thousand million
    million grams, one gram, one gram. *)
Definition silo : Recipe :=
  recipe "silo" Staple 4 [ingredient "rice" "10000000000000000g"].
Definition grain : Recipe := recipe "grain" Staple 4 [ingredient "rice" "1g"].
Definition kernel : Recipe := recipe "kernel" Staple 4 [ingredient "rice" "1g"].

(** A source of random numbers that always answers 0. *)
Definition zeros : source := fun _ => 0%Q.

Definition diners : CombinationPreferences :=
  {| cp_numberOfPeople := 2; occasion := None; cp_budgetLevel := None;
     cp_dietaryRestrictions := None; preferredFlavors := None;
     cookingTime := None; skillLevel := None; nutritionalBalanceWanted := None |}.

Definition vegetarians : MealPlanPreferences :=
  {| numberOfPeople := 2; dietaryRestrictions := Some [VegetarianOnly];
     allergies := None; preferredCategories := None; excludedCategories := None;
     budgetLevel := None; cookingSkillLevel := None |}.

Definition everyone : MealPlanPreferences :=
  {| numberOfPeople := 2; dietaryRestrictions := None;
     allergies := None; preferredCategories := None; excludedCategories := None;
     budgetLevel := None; cookingSkillLevel := None |}.

(** A three-day plan is asked for. *)
Definition vegetarian_week : RecommendMealPlan.Input :=
  {| RecommendMealPlan.in_preferences := vegetarians;
     RecommendMealPlan.in_startDate := None;
     RecommendMealPlan.planDuration := Some 3;
     RecommendMealPlan.includeShoppingList := None;
     RecommendMealPlan.consolidateIngredients := None |}.

(** A platform for the samples: every date string is day 0, next Monday is
    day 0, a day prints as the empty string, all names collate equal. *)
Definition anyDate : jsstring -> option Z := fun _ => Some 0.
Definition blankDate : Z -> jsstring := fun _ => [].
Definition flatCollation : jsstring -> jsstring -> Z := fun _ _ => 0.

Definition three_not_two : RecommendDishCombination.Input :=
  {| RecommendDishCombination.in_preferences := diners;
     RecommendDishCombination.in_excludeRecipeIds := None;
     RecommendDishCombination.in_includeRecipeIds := None;
     RecommendDishCombination.in_maxDishes := Some 2;
     RecommendDishCombination.in_minDishes := Some 3;
     RecommendDishCombination.includeAnalysis := None |}.

(** Three recipes must be included, two dishes are the maximum. *)
Definition three_required : RecommendDishCombination.Input :=
  {| RecommendDishCombination.in_preferences := diners;
     RecommendDishCombination.in_excludeRecipeIds := None;
     RecommendDishCombination.in_includeRecipeIds :=
       Some [js "pork"; js "greens"; js "broth"];
     RecommendDishCombination.in_maxDishes := Some 2;
     RecommendDishCombination.in_minDishes := Some 2;
     RecommendDishCombination.includeAnalysis := None |}.

(** Any three to six dishes, by default. *)
Definition any_three_to_six : RecommendDishCombination.Input :=
  {| RecommendDishCombination.in_preferences := diners;
     RecommendDishCombination.in_excludeRecipeIds := None;
     RecommendDishCombination.in_includeRecipeIds := None;
     RecommendDishCombination.in_maxDishes := None;
     RecommendDishCombination.in_minDishes := None;
     RecommendDishCombination.includeAnalysis := None |}.

Definition five_recipes : list Recipe := [pork; greens; broth; noodles; carp].

(** A shopping list for four, consolidated by default. *)
Definition shopping_for_four : ShoppingListRequest :=
  {| slr_numberOfPeople := 4; consolidateItems := None;
     includePriceEstimates := Some true; excludeCategories := None |}.

Definition plain_request : CombinationRequest :=
  {| cr_preferences := diners; excludeRecipeIds := None; includeRecipeIds := None;
     maxDishes := None; minDishes := None |}.

(** The pork must be included and is also on the list of exclusions. *)
Definition pork_in_and_out : CombinationRequest :=
  {| cr_preferences := diners; excludeRecipeIds := Some [js "pork"];
     includeRecipeIds := Some [js "pork"]; maxDishes := None; minDishes := None |}.

Definition vegetarian_diners : CombinationPreferences :=
  {| cp_numberOfPeople := 2; occasion := None; cp_budgetLevel := None;
     cp_dietaryRestrictions := Some [DishCombinationUtils.vegetarian_only];
     preferredFlavors := None; cookingTime := None; skillLevel := None;
     nutritionalBalanceWanted := None |}.

(** Vegetarians ask for the pork. *)
Definition pork_for_vegetarians : CombinationRequest :=
  {| cr_preferences := vegetarian_diners; excludeRecipeIds := None;
     includeRecipeIds := Some [js "pork"]; maxDishes := None; minDishes := None |}.

(** The pork and the greens as a combination, with the fields that
    [generateDishCombination] derives from the dishes. *)
Definition pork_and_greens : DishCombination :=
  let ds := DishCombinationUtils.assignDishRoles [pork; greens] diners in
  {| dishes := ds;
     comb_servings := 2;
     nutritionalBalance := DishCombinationUtils.analyzeNutritionalBalance ds;
     flavorProfile := DishCombinationUtils.analyzeFlavorProfile ds |}.

End Samples.

(** ** Vocabulary of the scores *)

(** The flavor that a cooking method stands for. *)
Definition method_flavor (m : CookingMethod) : option jsstring :=
  match m with
  | StirFry => Some DishCombinationUtils.aromatic
  | Steam => Some DishCombinationUtils.light
  | Stew => Some DishCombinationUtils.rich
  | _ => None
  end.

(** The dish shows the flavor [f]: by a tag that is a flavor descriptor, or
    by a cooking method that stands for it. *)
Definition dish_has_flavor (dish : RecommendedDish) (f : jsstring) : Prop :=
  (exists ts, tags (dish_recipe dish) = Some ts /\ In f ts
              /\ In f DishCombinationUtils.flavorTags)
  \/ (exists ms m, cookingMethods (dish_recipe dish) = Some ms /\ In m ms
                   /\ method_flavor m = Some f).

(** The average cooking time of the dishes, in minutes. *)
Definition averageCookMinutes (dishes : list RecommendedDish) : Q :=
  let total :=
    fold_right Z.add 0
      (map (fun d => parseTimeInMinutes (cookTime (dish_recipe d))) dishes) in
  (inject_Z total / inject_Z (Z.of_nat (length dishes)))%Q.

(** [n] is the integer nearest to [x], a tie going up. *)
Definition nearest_integer (x : Q) (n : Z) : Prop :=
  (inject_Z n - (1 # 2) <= x)%Q /\ (x < inject_Z n + (1 # 2))%Q.

(** ** Vocabulary of the selection *)

(** The picks of the two loops of [selectDishesForCombination], as a step
    relation on the pair of the selected and the available recipes: while
    fewer than [B] recipes are selected, an available recipe moves to the
    end of the selection and every recipe with its identifier leaves the
    available ones. *)
Inductive Picks (B : Z)
  : list Recipe * list Recipe -> list Recipe * list Recipe -> Prop :=
| picks_done (st : list Recipe * list Recipe) : Picks B st st
| picks_more (sel avail : list Recipe) (selected : Recipe)
             (st' : list Recipe * list Recipe) :
    DishCombinationUtils.len sel < B ->
    In selected avail ->
    Picks B (sel ++ [selected], DishCombinationUtils.remove_id selected avail) st' ->
    Picks B (sel, avail) st'.

(** No available recipe carries the identifier of a selected one. *)
Definition apart (st : list Recipe * list Recipe) : Prop :=
  forall r, In r (snd st) -> ~ In (id r) (map id (fst st)).

(** The recipes of the "must include" list among the given ones. *)
Definition must_include (includeIds : option (list jsstring)) (recipes : list Recipe)
  : list Recipe :=
  match includeIds with
  | Some inc => filter (fun r => arr_includes inc (id r)) recipes
  | None => []
  end.

(** The identifier is on the "must exclude" list. *)
Definition excluded (excludeIds : option (list jsstring)) (r : Recipe) : Prop :=
  match excludeIds with
  | Some ex => In (id r) ex
  | None => False
  end.

(** The recipes of the dishes, in order. *)
Definition dish_recipes (c : DishCombination) : list Recipe :=
  map dish_recipe (dishes c).

(** ** Vocabulary of the consolidation *)

(** The comparison puts any two elements in some order. *)
Definition total_comparison {A} (cmp : A -> A -> Z) : Prop :=
  forall a b, cmp a b <= 0 \/ cmp b a <= 0.

(** [a] may stand in front of [b] in a sorted array. *)
Definition before {A} (cmp : A -> A -> Z) (a b : A) : Prop := cmp a b <= 0.

(** The names of all ingredients of the recipes, in order. *)
Definition ingredient_names (recipes : list Recipe) : list jsstring :=
  flat_map (fun r => map ing_name (ingredients r)) recipes.

(** The category, the price estimate, the priority and the purchase flag
    of the item are the ones its name gives. *)
Definition item_of_its_name (it : ShoppingItem) : Prop :=
  item_category it = ShoppingListUtils.categorizeIngredient (item_name it)
  /\ estimatedPrice it
     = ShoppingListUtils.estimatePrice (item_name it) (item_category it)
  /\ priority it
     = ShoppingListUtils.determinePriority (item_name it) (item_category it)
  /\ isPurchased it = false.

(** Two sections with one category, the same names of items, as many
    items, and one total. *)
Definition same_section (s1 s2 : ShoppingSection) : Prop :=
  sec_category s1 = sec_category s2
  /\ (forall n, In n (map item_name (items s1)) <-> In n (map item_name (items s2)))
  /\ length (items s1) = length (items s2)
  /\ sec_totalEstimatedCost s1 = sec_totalEstimatedCost s2.

(** Two lists of items with the same names, each name once, each item the
    one its name gives. *)
Definition same_items (items1 items2 : list ShoppingItem) : Prop :=
  NoDup (map item_name items1) /\ NoDup (map item_name items2)
  /\ (forall n, In n (map item_name items1) <-> In n (map item_name items2))
  /\ Forall item_of_its_name items1 /\ Forall item_of_its_name items2.

(** The scaled amounts that the recipes bring under the name [n], in the
    order of the recipes and of their ingredients. *)
Definition contributions (people : Z) (recipes : list Recipe) (n : jsstring)
  : list jsstring :=
  flat_map
    (fun r =>
       map (fun ing =>
              ShoppingListUtils.scaleIngredientAmount
                (amount ing)
                (Double.div (Double.of_Z people) (Double.of_Z (servings r))))
           (filter (fun ing => str_eqb (ing_name ing) n) (ingredients r)))
    recipes.

(** The quantity [q0] (if any) combined with the amounts [cs], one after
    the other. *)
Fixpoint extend (q0 : option jsstring) (cs : list jsstring) : option jsstring :=
  match cs with
  | [] => q0
  | c :: cs' =>
    extend (Some (match q0 with
                  | Some q => ShoppingListUtils.combineQuantities q c
                  | None => c
                  end)) cs'
  end.

(** The quantity of the item is the combination, from left to right, of
    the amounts that the recipes bring under its name. *)
Definition quantity_in_order (people : Z) (recipes : list Recipe)
    (it : ShoppingItem) : Prop :=
  Some (quantity it) = extend None (contributions people recipes (item_name it)).

(** Consolidation is asked for, or left to its default. *)
Definition consolidating (request : ShoppingListRequest) : Prop :=
  consolidateItems request <> Some false.

(** An entry of the map of [consolidateIngredients] when consolidation is
    on: the key is the name of the item, and the item is the one its name
    gives. *)
Definition entry_ok (e : jsstring * ShoppingItem) : Prop :=
  item_name (snd e) = fst e /\ item_of_its_name (snd e).

(** The item is of the category [c]. *)
Definition cat_is (c : ShoppingCategory) (it : ShoppingItem) : bool :=
  ShoppingListUtils.shopping_category_eqb (item_category it) c.

(** The comparison of two categories by their place in [categoryOrder]. *)
Definition byCategoryOrder (c1 c2 : ShoppingCategory) : Z :=
  ShoppingListUtils.indexOf ShoppingListUtils.categoryOrder c1
  - ShoppingListUtils.indexOf ShoppingListUtils.categoryOrder c2.

(** The comparison of two items by their names. *)
Definition byName (localeCompare : jsstring -> jsstring -> Z)
    (a b : ShoppingItem) : Z :=
  localeCompare (item_name a) (item_name b).

(* ================================================================== *)
(** * Further functions of the engine                                   *)
(* ================================================================== *)

From Stdlib Require DecimalFacts DecimalPos DecimalN.

(** ** Durations as text

    [formatTimeFromMinutes] and [calculateTotalTime] of
    [src/utils/recipeUtils.ts]; the tools and [dishCombinationUtils.ts]
    carry private copies of the first.  Every caller passes a whole number
    of minutes: a sum of parsed durations or a result of [Math.round]. *)

Module TimeText.

Definition formatTimeFromMinutes (minutes : Z) : jsstring :=
  if minutes <? 60 then RecommendMealPlan.number minutes ++ minutes_word
  else
    let hours := minutes / 60 in               (* Math.floor(minutes / 60) *)
    let remainingMinutes := Z.rem minutes 60 in
    if remainingMinutes =? 0 then RecommendMealPlan.number hours ++ hours_word
    else RecommendMealPlan.number hours ++ hours_word
         ++ RecommendMealPlan.number remainingMinutes ++ minutes_word.

Definition calculateTotalTime (prepTime cookTime : jsstring) : jsstring :=
  let prepMinutes := parseTimeInMinutes prepTime in
  let cookMinutes := parseTimeInMinutes cookTime in
  let totalMinutes := prepMinutes + cookMinutes in
  formatTimeFromMinutes totalMinutes.

End TimeText.

(** One step of reading a decimal number, digit by digit. *)
Definition digit_step (acc : Z) (c : char16) : Z := 10 * acc + (Z.of_N c - 48).

(** ** The summary fields of a combination
       ([src/utils/dishCombinationUtils.ts])

    The functions that [generateDishCombination] calls on the dishes it
    has selected, for the fields of the combination that the selection
    itself does not read. *)

Module CombinationSummary.

Import DishCombinationUtils TimeText.

Definition calculateTotalPrepTime (dishes : list RecommendedDish) : jsstring :=
  let totalMinutes :=
    fold_left (fun sum dish => sum + parseTimeInMinutes (prepTime (dish_recipe dish)))
              dishes 0 in
  formatTimeFromMinutes totalMinutes.

(** [Math.max(...xs)]; [None] is [-Infinity], the value for no argument. *)
Definition Math_max_of (xs : list Z) : option Z :=
  match xs with
  | [] => None
  | x :: xs' => Some (fold_left Z.max xs' x)
  end.

(** The estimate counts 60% of the total, for dishes cooked side by side,
    and at least the longest dish.  Without a dish the longest time is
    [-Infinity] and the estimate is the 60% of nothing. *)
Definition calculateTotalCookTime (dishes : list RecommendedDish) : jsstring :=
  let cookTimes :=
    map (fun dish => parseTimeInMinutes (cookTime (dish_recipe dish))) dishes in
  let maxCookTime := Math_max_of cookTimes in
  let totalCookTime := fold_left (fun sum time => sum + time) cookTimes 0 in
  let estimatedTime :=
    match maxCookTime with
    | Some longest => Qmax (inject_Z longest) (inject_Z totalCookTime * (6 # 10))
    | None => (inject_Z totalCookTime * (6 # 10))%Q
    end in
  formatTimeFromMinutes (Math_round estimatedTime).

Definition difficultyScores (d : DifficultyLevel) : Z :=
  match d with Easy => 1 | Medium => 2 | Hard => 3 end.

(** Without a dish the average is 0/0, [NaN]; no comparison with [NaN]
    holds, and the last [return] is taken. *)
Definition calculateOverallDifficulty (dishes : list RecommendedDish)
  : DifficultyLevel :=
  match dishes with
  | [] => Hard
  | _ :: _ =>
    let total :=
      fold_left (fun sum dish => sum + difficultyScores (difficulty (dish_recipe dish)))
                dishes 0 in
    let avgScore := (inject_Z total / inject_Z (len dishes))%Q in
    if Qle_bool avgScore (13 # 10) then Easy
    else if Qle_bool avgScore (23 # 10) then Medium
    else Hard
  end.

(** [costRanges[budgetLevel] || costRanges['中等']] *)
Definition costRanges (budgetLevel : option BudgetLevel) : Z * Z :=
  match budgetLevel with
  | Some Economy => (20, 40)
  | Some MidRange => (40, 80)
  | Some Premium => (80, 150)
  | None => (40, 80)
  end.

Definition yuan : jsstring := [0x5143]%N.   (* 元 *)

(** The text of a price range: [`${low}-${high}元`]. *)
Definition printRange (low high : Z) : jsstring :=
  RecommendMealPlan.number low ++ js "-" ++ RecommendMealPlan.number high ++ yuan.

Definition estimateCombinationCost (dishes : list RecommendedDish)
    (budgetLevel : option BudgetLevel) : jsstring :=
  let dishCount := len dishes in
  let (min, max) := costRanges budgetLevel in
  let estimatedCost := min + (dishCount - 3) * 10 in
  printRange (Z.max min estimatedCost) (Z.min max (estimatedCost + 20)).

End CombinationSummary.

(** ** Vocabulary of the summaries *)

(** The sum of the numbers [f x], over the list. *)
Definition sum_of {A} (f : A -> Z) (l : list A) : Z :=
  fold_right Z.add 0 (map f l).

Definition prepMinutes (dish : RecommendedDish) : Z :=
  parseTimeInMinutes (prepTime (dish_recipe dish)).

Definition cookMinutes (dish : RecommendedDish) : Z :=
  parseTimeInMinutes (cookTime (dish_recipe dish)).

(** [a] is at most as hard as [b]. *)
Definition no_harder (a b : DifficultyLevel) : Prop :=
  CombinationSummary.difficultyScores a <= CombinationSummary.difficultyScores b.

(** ** Vocabulary of the two preference filters *)

(** The preferences of a combination name the restriction [x]. *)
Definition restricted (p : CombinationPreferences) (x : jsstring) : Prop :=
  exists rs, cp_dietaryRestrictions p = Some rs /\ In x rs.

(** No ingredient of the recipe has a peanut, a walnut or an almond in its
    name. *)
Definition nut_free (r : Recipe) : Prop :=
  forall ing, In ing (ingredients r) ->
    includes (ing_name ing) DishCombinationUtils.peanut = false
    /\ includes (ing_name ing) DishCombinationUtils.walnut = false
    /\ includes (ing_name ing) DishCombinationUtils.almond = false.

(** The difficulty of the recipe is within the skill, when one is given. *)
Definition within_skill (skill : option SkillLevel) (r : Recipe) : Prop :=
  match skill with
  | Some Beginner => difficulty r = Easy
  | Some Intermediate => difficulty r <> Hard
  | Some Advanced => True
  | None => True
  end.

(** The recipe keeps within the preferences of a combination: the three
    restrictions that the filter knows, the skill, and the time limit (a
    limit that is the empty string is no limit). *)
Definition acceptable (p : CombinationPreferences) (r : Recipe) : Prop :=
  (restricted p DishCombinationUtils.vegetarian_only -> category r <> MeatDish)
  /\ (restricted p DishCombinationUtils.no_seafood -> category r <> Seafood)
  /\ (restricted p DishCombinationUtils.no_nuts -> nut_free r)
  /\ within_skill (skillLevel p) r
  /\ (forall limit, cookingTime p = Some limit -> limit <> [] ->
        parseTimeInMinutes (prepTime r) + parseTimeInMinutes (cookTime r)
        <= parseTimeInMinutes limit).

(** The recipe passes the restrictions and the excluded categories of a
    meal plan: no meat dish for vegetarians, no seafood dish when seafood
    is ruled out, no category that is excluded by name. *)
Definition allowed_in_plan (p : MealPlanPreferences) (r : Recipe) : Prop :=
  (forall rs, dietaryRestrictions p = Some rs -> In VegetarianOnly rs ->
              category r <> MeatDish)
  /\ (forall rs, dietaryRestrictions p = Some rs -> In NoSeafood rs ->
                 category r <> Seafood)
  /\ (forall ex, excludedCategories p = Some ex ->
                 ~ In (category_name (category r)) ex).

(** The category of the recipe is one of the preferred ones. *)
Definition preferred_in_plan (p : MealPlanPreferences) (r : Recipe) : Prop :=
  exists wanted, preferredCategories p = Some wanted
                 /\ In (category_name (category r)) wanted.

(** The four steps of [MealPlanUtils.filterRecipesByPreferences], each on
    the list that the step before has left. *)
Definition restrictionStep (p : MealPlanPreferences) (filtered : list Recipe)
  : list Recipe :=
  match dietaryRestrictions p with
  | Some restrictions =>
    if MealPlanUtils.nonempty restrictions then
      filter (fun recipe =>
                if existsb (MealPlanUtils.restriction_eqb VegetarianOnly) restrictions
                   && category_eqb (category recipe) MeatDish then false
                else if existsb (MealPlanUtils.restriction_eqb NoSeafood) restrictions
                        && category_eqb (category recipe) Seafood then false
                else true)
             filtered
    else filtered
  | None => filtered
  end.

Definition exclusionStep (p : MealPlanPreferences) (filtered : list Recipe)
  : list Recipe :=
  match excludedCategories p with
  | Some excluded =>
    if MealPlanUtils.nonempty excluded then
      filter (fun recipe => negb (arr_includes excluded (category_name (category recipe))))
             filtered
    else filtered
  | None => filtered
  end.

Definition preferenceStep (p : MealPlanPreferences) (filtered : list Recipe)
  : list Recipe :=
  match preferredCategories p with
  | Some wanted =>
    if MealPlanUtils.nonempty wanted then
      let preferred :=
        filter (fun recipe => arr_includes wanted (category_name (category recipe)))
               filtered in
      if MealPlanUtils.nonempty preferred then preferred else filtered
    else filtered
  | None => filtered
  end.

Definition skillStep (p : MealPlanPreferences) (filtered : list Recipe)
  : list Recipe :=
  match cookingSkillLevel p with
  | Some skill =>
    filter (fun recipe => existsb (difficulty_eqb (difficulty recipe))
                                  (MealPlanUtils.skillMap skill))
           filtered
  | None => filtered
  end.

(** The preferences with another list of dietary restrictions. *)
Definition with_restrictions (p : MealPlanPreferences)
    (rs : option (list DietaryRestriction)) : MealPlanPreferences :=
  {| numberOfPeople := numberOfPeople p;
     dietaryRestrictions := rs;
     allergies := allergies p;
     preferredCategories := preferredCategories p;
     excludedCategories := excludedCategories p;
     budgetLevel := budgetLevel p;
     cookingSkillLevel := cookingSkillLevel p |}.

(** ** Vocabulary of the weekly plan *)

(** The three meals of a day, in the order in which they are planned. *)
Definition mealsOfADay : list MealType := [BreakfastMeal; Lunch; Dinner].

(** The recipe may be planned for the meal: a breakfast is of the category
    or carries the tag of breakfasts, a lunch is a meat dish, a vegetarian
    dish, a staple or a soup, a dinner is a meat dish, a vegetarian dish,
    seafood or a soup; nothing is planned for the other meals. *)
Definition eligible_for (slot : MealType) (r : Recipe) : bool :=
  match slot with
  | BreakfastMeal =>
    category_eqb (category r) Breakfast
    || MealPlanUtils.has_tag r (category_name Breakfast)
  | Lunch => existsb (category_eqb (category r)) [MeatDish; Vegetarian; Staple; Soup]
  | Dinner => existsb (category_eqb (category r)) [MeatDish; Vegetarian; Seafood; Soup]
  | Snack | LateNight => false
  end.

(** Some recipe of the list may be planned for the meal. *)
Definition served (recipes : list Recipe) (slot : MealType) : bool :=
  existsb (eligible_for slot) recipes.

(** The recipes of all meals of a plan, day by day. *)
Definition planned_recipes (plan : WeeklyMealPlan) : list Recipe :=
  flat_map (fun d => map meal_recipe (meals d)) (dailyPlans plan).

(** ** Vocabulary of the shopping list *)

(** The items of a shopping list, section by section. *)
Definition listed_items (L : ShoppingList) : list ShoppingItem :=
  flat_map items (sections L).

(** The request does not exclude the category of the item. *)
Definition wanted_item (request : ShoppingListRequest) (it : ShoppingItem) : bool :=
  match excludeCategories request with
  | Some excluded =>
    negb (existsb (ShoppingListUtils.shopping_category_eqb (item_category it)) excluded)
  | None => true
  end.

(** The price estimate of an item, nothing when it has none. *)
Definition price_of (it : ShoppingItem) : Z :=
  ShoppingListUtils.price_or_zero (estimatedPrice it).

(** The ingredient lines of the recipes, each with its recipe, in the
    order in which [consolidateIngredients] visits them. *)
Definition ingredient_lines (recipes : list Recipe) : list (Recipe * Ingredient) :=
  flat_map (fun r => map (pair r) (ingredients r)) recipes.

(** The lines that fall under one key of the map of items. *)
Definition lines_under (shouldConsolidate : bool) (key : jsstring)
    (lines : list (Recipe * Ingredient)) : list (Recipe * Ingredient) :=
  filter (fun line =>
            str_eqb (ShoppingListUtils.itemKey shouldConsolidate (fst line) (snd line))
                    key)
         lines.

(** The amount of a line, scaled for the number of people. *)
Definition scaled_amount (people : Z) (line : Recipe * Ingredient) : jsstring :=
  ShoppingListUtils.scaleIngredientAmount
    (amount (snd line))
    (Double.div (Double.of_Z people) (Double.of_Z (servings (fst line)))).

(** What an item records of the lines [first :: rest] that fell under its
    key: the name of the first ingredient, the identifiers and the names
    of the recipes of all lines, and, without consolidation, the amount of
    the last line alone. *)
Definition records (people : Z) (shouldConsolidate : bool) (it : ShoppingItem)
    (first : Recipe * Ingredient) (rest : list (Recipe * Ingredient)) : Prop :=
  item_name it = ing_name (snd first)
  /\ recipeIds it = map (fun line => id (fst line)) (first :: rest)
  /\ recipeNames it = map (fun line => name (fst line)) (first :: rest)
  /\ (shouldConsolidate = false -> quantity it = scaled_amount people (last rest first)).

(** Every entry of the map of items records the lines that fell under its
    key, and a key without an entry has no line. *)
Definition recorded (people : Z) (shouldConsolidate : bool)
    (m : list (jsstring * ShoppingItem)) (lines : list (Recipe * Ingredient)) : Prop :=
  NoDup (map fst m)
  /\ forall key,
      match map_get str_eqb m key with
      | Some it => exists first rest,
                     lines_under shouldConsolidate key lines = first :: rest
                     /\ records people shouldConsolidate it first rest
      | None => lines_under shouldConsolidate key lines = []
      end.

(** ** The queries and checks of [src/utils/recipeUtils.ts] *)

Module RecipeChecks.

Import MealPlanUtils.

Definition filterRecipesByCategory (recipes : list Recipe) (category0 : RecipeCategory)
  : list Recipe :=
  filter (fun recipe => category_eqb (category recipe) category0) recipes.

(** [tolerance] is [None] when the argument is left out, and the default 2
    applies. *)
Definition getRecipesForServings (recipes : list Recipe) (targetServings : Z)
    (tolerance : option Z) : list Recipe :=
  let tolerance := RecommendMealPlan.default tolerance 2 in
  filter (fun recipe => Z.abs (servings recipe - targetServings) <=? tolerance) recipes.

(** A [Record<DifficultyLevel, number>] holds a number under every level:
    a function of the level.  [distribution[k]++] adds one under [k]. *)
Definition getRecipeDifficultyDistribution (recipes : list Recipe)
  : DifficultyLevel -> Z :=
  fold_left
    (fun distribution recipe =>
       fun k => if difficulty_eqb k (difficulty recipe)
                then distribution k + 1 else distribution k)
    recipes (fun _ => 0).

Definition getRecipeCategoryDistribution (recipes : list Recipe)
  : RecipeCategory -> Z :=
  fold_left
    (fun distribution recipe =>
       fun k => if category_eqb k (category recipe)
                then distribution k + 1 else distribution k)
    recipes (fun _ => 0).

(** [s.trim()]: white space and line terminators leave both ends. *)
Definition trim (s : jsstring) : jsstring :=
  List.rev (dropWhile isSpace (List.rev (dropWhile isSpace s))).

(** The loop over the sorted step numbers, from index [i] on: it ends at
    the first number that is not its index plus one. *)
Fixpoint outOfSequence (i : Z) (stepNumbers : list Z) : bool :=
  match stepNumbers with
  | [] => false
  | x :: rest => if negb (x =? i + 1) then true else outOfSequence (i + 1) rest
  end.

Definition validateRecipe (recipe : Recipe) : bool * list jsstring :=
  let errors := [] in
  let errors :=
    if negb (truthy (trim (name recipe)))
    then errors ++ [js "Recipe name is required"] else errors in
  let errors :=
    if len_is_zero (ingredients recipe)
    then errors ++ [js "Recipe must have at least one ingredient"] else errors in
  let errors :=
    if len_is_zero (steps recipe)
    then errors ++ [js "Recipe must have at least one cooking step"] else errors in
  let errors :=
    if servings recipe <=? 0
    then errors ++ [js "Recipe servings must be greater than 0"] else errors in
  let stepNumbers := js_sort (fun a b => a - b) (map stepNumber (steps recipe)) in
  let errors :=
    if outOfSequence 0 stepNumbers
    then errors ++ [js "Recipe steps must be numbered sequentially starting from 1"]
    else errors in
  (len_is_zero errors, errors).

End RecipeChecks.

(** All categories and all levels of difficulty. *)
Definition allCategories : list RecipeCategory :=
  [Seafood; Breakfast; Seasoning; Dessert; Beverage; MeatDish; SemiPrepared; Soup;
   Staple; Vegetarian].

Definition allDifficulties : list DifficultyLevel := [Easy; Medium; Hard].

(** The numbers from [i + 1] on, [n] of them. *)
Fixpoint countFrom (i : Z) (n : nat) : list Z :=
  match n with
  | O => []
  | S n' => (i + 1) :: countFrom (i + 1) n'
  end.

(** ** The recipe data manager ([src/data/recipeData.ts])

    The state of a [RecipeDataManager] is its array [recipes]; a method
    that changes it returns the new state.  The time stamp that
    [updateRecipe] writes is left out with the two dates of a recipe. *)

Module RecipeData.

Definition Manager := list Recipe.

Definition getAllRecipes (this : Manager) : list Recipe := this.

Definition getRecipeById (this : Manager) (id0 : jsstring) : option Recipe :=
  find (fun recipe => str_eqb (id recipe) id0) this.

Definition getRecipesByCategory (this : Manager) (category0 : jsstring) : list Recipe :=
  filter (fun recipe => str_eqb (category_name (category recipe)) category0) this.

(** [xs.findIndex(p)]: the first index, or -1. *)
Fixpoint findIndex (p : Recipe -> bool) (xs : list Recipe) : Z :=
  match xs with
  | [] => -1
  | x :: xs' =>
    if p x then 0
    else let i := findIndex p xs' in if i <? 0 then -1 else i + 1
  end.

(** [xs[i] = x] for an index inside the array. *)
Fixpoint set_at (i : nat) (x : Recipe) (xs : list Recipe) : list Recipe :=
  match xs, i with
  | [], _ => []
  | _ :: xs', O => x :: xs'
  | y :: xs', S i' => y :: set_at i' x xs'
  end.

(** [xs.splice(i, 1)] for an index inside the array. *)
Fixpoint remove_at (i : nat) (xs : list Recipe) : list Recipe :=
  match xs, i with
  | [], _ => []
  | _ :: xs', O => xs'
  | y :: xs', S i' => y :: remove_at i' xs'
  end.

(** [addRecipe] throws ([None]) when the identifier is taken. *)
Definition addRecipe (this : Manager) (recipe : Recipe) : option Manager :=
  let existingIndex := findIndex (fun r => str_eqb (id r) (id recipe)) this in
  if negb (existingIndex =? -1) then None
  else Some (this ++ [recipe]).

(** A [Partial<Recipe>]: a field is absent ([None]) or present.  An
    identifier in it is overwritten by the one of the call and is left
    out. *)
Record RecipePatch := {
  new_name : option jsstring;
  new_description : option (option jsstring);
  new_category : option RecipeCategory;
  new_difficulty : option DifficultyLevel;
  new_servings : option Z;
  new_prepTime : option jsstring;
  new_cookTime : option jsstring;
  new_totalTime : option jsstring;
  new_ingredients : option (list Ingredient);
  new_steps : option (list CookingStep);
  new_tags : option (option (list jsstring));
  new_cookingMethods : option (option (list CookingMethod));
  new_nutritionalInfo : option (option NutritionalInfo)
}.

(** [{ ...old, ...updatedRecipe, id }] *)
Definition patched (old : Recipe) (updatedRecipe : RecipePatch) (id0 : jsstring)
  : Recipe :=
  {| id := id0;
     name := RecommendMealPlan.default (new_name updatedRecipe) (name old);
     description :=
       RecommendMealPlan.default (new_description updatedRecipe) (description old);
     category := RecommendMealPlan.default (new_category updatedRecipe) (category old);
     difficulty :=
       RecommendMealPlan.default (new_difficulty updatedRecipe) (difficulty old);
     servings := RecommendMealPlan.default (new_servings updatedRecipe) (servings old);
     prepTime := RecommendMealPlan.default (new_prepTime updatedRecipe) (prepTime old);
     cookTime := RecommendMealPlan.default (new_cookTime updatedRecipe) (cookTime old);
     totalTime :=
       RecommendMealPlan.default (new_totalTime updatedRecipe) (totalTime old);
     ingredients :=
       RecommendMealPlan.default (new_ingredients updatedRecipe) (ingredients old);
     steps := RecommendMealPlan.default (new_steps updatedRecipe) (steps old);
     tags := RecommendMealPlan.default (new_tags updatedRecipe) (tags old);
     cookingMethods :=
       RecommendMealPlan.default (new_cookingMethods updatedRecipe)
                                 (cookingMethods old);
     nutritionalInfo :=
       RecommendMealPlan.default (new_nutritionalInfo updatedRecipe)
                                 (nutritionalInfo old) |}.

(** The new state and the result: the updated recipe, or [null]. *)
Definition updateRecipe (this : Manager) (id0 : jsstring) (updatedRecipe : RecipePatch)
  : Manager * option Recipe :=
  let index := findIndex (fun recipe => str_eqb (id recipe) id0) this in
  if index =? -1 then (this, None)
  else
    match nth_error this (Z.to_nat index) with
    | Some old =>
      let updated := patched old updatedRecipe id0 in
      (set_at (Z.to_nat index) updated this, Some updated)
    | None => (this, None)   (* not reached: the index was found *)
    end.

Definition deleteRecipe (this : Manager) (id0 : jsstring) : Manager * bool :=
  let index := findIndex (fun recipe => str_eqb (id recipe) id0) this in
  if index =? -1 then (this, false)
  else (remove_at (Z.to_nat index) this, true).

(** [getRecipesForServings] of the manager; [tolerance] is [None] when
    the argument is left out. *)
Definition getRecipesForServings (this : Manager) (targetServings : Z)
    (tolerance : option Z) : list Recipe :=
  let tolerance := RecommendMealPlan.default tolerance 2 in
  filter (fun recipe => Z.abs (servings recipe - targetServings) <=? tolerance) this.

(** The names of the levels of difficulty. *)
Definition difficulty_name (d : DifficultyLevel) : jsstring :=
  match d with
  | Easy => [0x7B80; 0x5355]%N     (* 简单 *)
  | Medium => [0x4E2D; 0x7B49]%N   (* 中等 *)
  | Hard => [0x56F0; 0x96BE]%N     (* 困难 *)
  end.

(** The argument of [getRecipesByCriteria]; every field is optional. *)
Record Criteria := {
  by_categories : option (list jsstring);
  by_difficulty : option jsstring;
  by_maxPrepTime : option Q;
  by_maxCookTime : option Q;
  by_tags : option (list jsstring)
}.

(** A number is falsy exactly when it is 0 (or [NaN], which is no
    rational). *)
Definition number_truthy (x : Q) : bool := negb (Qeq_bool x 0).

Definition getRecipesByCriteria (this : Manager) (criteria : Criteria) : list Recipe :=
  filter (fun recipe =>
    if match by_categories criteria with
       | Some categories =>
         MealPlanUtils.nonempty categories
         && negb (arr_includes categories (category_name (category recipe)))
       | None => false
       end
    then false
    else if match by_difficulty criteria with
            | Some difficulty0 =>
              truthy difficulty0
              && negb (str_eqb (difficulty_name (difficulty recipe)) difficulty0)
            | None => false
            end
    then false
    else if match by_maxPrepTime criteria with
            | Some maxPrepTime =>
              number_truthy maxPrepTime
              && (let prepMinutes := parseTimeInMinutes (prepTime recipe) in
                  negb (Qle_bool (inject_Z prepMinutes) maxPrepTime))
            | None => false
            end
    then false
    else if match by_maxCookTime criteria with
            | Some maxCookTime =>
              number_truthy maxCookTime
              && (let cookMinutes := parseTimeInMinutes (cookTime recipe) in
                  negb (Qle_bool (inject_Z cookMinutes) maxCookTime))
            | None => false
            end
    then false
    else if match by_tags criteria with
            | Some tags0 =>
              MealPlanUtils.nonempty tags0
              && match tags recipe with
                 | None => true
                 | Some recipeTags =>
                   negb (existsb (fun tag => arr_includes recipeTags tag) tags0)
                 end
            | None => false
            end
    then false
    else true) this.

End RecipeData.

(** A recipe meets the criteria: each criterion that is given, and is
    neither an empty list, an empty string nor 0, holds of it. *)
Definition meets (criteria : RecipeData.Criteria) (r : Recipe) : Prop :=
  (forall cs, RecipeData.by_categories criteria = Some cs -> cs <> [] ->
              In (category_name (category r)) cs)
  /\ (forall d, RecipeData.by_difficulty criteria = Some d -> d <> [] ->
                RecipeData.difficulty_name (difficulty r) = d)
  /\ (forall m, RecipeData.by_maxPrepTime criteria = Some m -> ~ m == 0 ->
                inject_Z (parseTimeInMinutes (prepTime r)) <= m)%Q
  /\ (forall m, RecipeData.by_maxCookTime criteria = Some m -> ~ m == 0 ->
                inject_Z (parseTimeInMinutes (cookTime r)) <= m)%Q
  /\ (forall ts, RecipeData.by_tags criteria = Some ts -> ts <> [] ->
                 exists t rt, In t ts /\ tags r = Some rt /\ In t rt).

(** A call that changes the state of the manager. *)
Inductive Call :=
| CallAdd (recipe : Recipe)
| CallUpdate (id0 : jsstring) (updatedRecipe : RecipeData.RecipePatch)
| CallDelete (id0 : jsstring).

(** The state after a call; a call of [addRecipe] that throws leaves the
    state as it was. *)
Definition after (this : RecipeData.Manager) (call : Call) : RecipeData.Manager :=
  match call with
  | CallAdd recipe =>
    match RecipeData.addRecipe this recipe with
    | Some this' => this'
    | None => this
    end
  | CallUpdate id0 updatedRecipe => fst (RecipeData.updateRecipe this id0 updatedRecipe)
  | CallDelete id0 => fst (RecipeData.deleteRecipe this id0)
  end.


(** ** The tool [get_all_recipes] ([src/tools/getAllRecipes.ts])

    [page] and [limit] are whole numbers here.  The time of a recipe's
    [dateAdded] is a function of the platform; it is [None] where
    [getTime()] gives [NaN]. *)

Module GetAllRecipes.

Import RecommendMealPlan.

Inductive SortBy :=
| ByName | ByCategory | ByDifficulty | ByPrepTime | ByCookTime | ByDateAdded.

Inductive SortOrder := Asc | Desc.

Record Input := {
  in_page : option Z;
  in_limit : option Z;
  sortBy : option SortBy;
  sortOrder : option SortOrder;
  includeDetails : option bool
}.

Record PaginatedResponse := {
  items : list Recipe;
  totalCount : Z;
  page : Z;
  limit : Z;
  totalPages : Z;
  hasNext : bool;
  hasPrevious : bool
}.

(** What [GetAllRecipesInput.parse] checks beyond the types. *)
Definition schema_ok (input : Input) : bool :=
  match in_page input with Some p => 1 <=? p | None => true end
  && in_range 1 100 (in_limit input).

(** [xs.slice(start, end)] for [0 <= start <= end]. *)
Definition slice {A} (start end_ : Z) (xs : list A) : list A :=
  firstn (Z.to_nat (end_ - start)) (skipn (Z.to_nat start) xs).

Definition difficultyOrder (d : DifficultyLevel) : Z :=
  match d with Easy => 1 | Medium => 2 | Hard => 3 end.

Section Platform.
Variable localeCompare : jsstring -> jsstring -> Z.
Variable addedTime : Recipe -> option Z.

(** A comparison that is [NaN] counts as 0 in [sort]. *)
Definition sortRecipes (recipes : list Recipe) (sortBy : SortBy) (sortOrder : SortOrder)
  : list Recipe :=
  js_sort (fun a b =>
    let comparison :=
      match sortBy with
      | ByName => localeCompare (name a) (name b)
      | ByCategory =>
        localeCompare (category_name (category a)) (category_name (category b))
      | ByDifficulty => difficultyOrder (difficulty a) - difficultyOrder (difficulty b)
      | ByPrepTime => parseTimeInMinutes (prepTime a) - parseTimeInMinutes (prepTime b)
      | ByCookTime => parseTimeInMinutes (cookTime a) - parseTimeInMinutes (cookTime b)
      | ByDateAdded =>
        match addedTime a, addedTime b with
        | Some ta, Some tb => ta - tb
        | _, _ => 0
        end
      end in
    match sortOrder with Desc => - comparison | Asc => comparison end) recipes.

(** The summary view of a recipe. *)
Definition summary (recipe : Recipe) : Recipe :=
  {| id := id recipe; name := name recipe; description := description recipe;
     category := category recipe; difficulty := difficulty recipe;
     servings := servings recipe; prepTime := prepTime recipe;
     cookTime := cookTime recipe; totalTime := totalTime recipe;
     ingredients := slice 0 3 (ingredients recipe);
     steps := [];
     tags := tags recipe; cookingMethods := cookingMethods recipe;
     nutritionalInfo := nutritionalInfo recipe |}.

(** The handler, on the recipes that [recipeDataManager.getAllRecipes()]
    returns. *)
Definition handleGetAllRecipes (allRecipes : list Recipe) (input : Input)
  : MCPResponse PaginatedResponse :=
  if negb (schema_ok input) then
    Failure (js "Failed to retrieve recipes") ThrownMessage
  else
    let page := default (in_page input) 1 in
    let limit := default (in_limit input) 20 in
    let sortBy := default (sortBy input) ByName in
    let sortOrder := default (sortOrder input) Asc in
    let includeDetails := default (includeDetails input) true in
    let recipes := allRecipes in
    let recipes := sortRecipes recipes sortBy sortOrder in
    let totalCount := Z.of_nat (length recipes) in
    let totalPages := Qceiling (inject_Z totalCount / inject_Z limit) in
    let startIndex := (page - 1) * limit in
    let endIndex := startIndex + limit in
    let paginatedRecipes := slice startIndex endIndex recipes in
    let resultRecipes :=
      if includeDetails then paginatedRecipes else map summary paginatedRecipes in
    Success (js "Retrieved " ++ number (Z.of_nat (length resultRecipes))
             ++ js " recipes (page " ++ number page ++ js " of "
             ++ number totalPages ++ js ")")
            {| items := resultRecipes;
               totalCount := totalCount;
               page := page;
               limit := limit;
               totalPages := totalPages;
               hasNext := page <? totalPages;
               hasPrevious := 1 <? page |}.

End Platform.

(** The request for another page. *)
Definition on_page (input : Input) (p : Z) : Input :=
  {| in_page := Some p; in_limit := in_limit input; sortBy := sortBy input;
     sortOrder := sortOrder input; includeDetails := includeDetails input |}.

(** The recipes as the answer shows them. *)
Definition shown (input : Input) (recipes : list Recipe) : list Recipe :=
  if default (includeDetails input) true then recipes else map summary recipes.

End GetAllRecipes.
(* ================================================================== *)
(** * Properties of strings and numbers                                 *)
(* ================================================================== *)

Lemma NoDup_snoc {A} (l : list A) (x : A) :
  NoDup l -> ~ In x l -> NoDup (l ++ [x]).
Proof.
  intros N Hx. induction N as [| y l Hy Hl IH]; simpl.
  - constructor; [intros [] | constructor].
  - constructor.
    + rewrite in_app_iff. simpl. intros [H | [H | []]]; [auto |].
      subst. apply Hx. now left.
    + apply IH. intros H. apply Hx. now right.
Qed.

Lemma str_eqb_eq (a b : jsstring) : str_eqb a b = true <-> a = b.
Proof.
  unfold str_eqb. destruct (list_eq_dec N.eq_dec a b); split; congruence.
Qed.

Lemma str_eqb_refl (a : jsstring) : str_eqb a a = true.
Proof. apply str_eqb_eq. reflexivity. Qed.

Lemma str_eqb_neq (a b : jsstring) : str_eqb a b = false <-> a <> b.
Proof.
  unfold str_eqb. destruct (list_eq_dec N.eq_dec a b); split; congruence.
Qed.

Lemma arr_includes_In (arr : list jsstring) (x : jsstring) :
  arr_includes arr x = true <-> In x arr.
Proof.
  unfold arr_includes. rewrite existsb_exists. split.
  - intros [y [Hy He]]. apply str_eqb_eq in He. subst. exact Hy.
  - intros H. exists x. split; [exact H | apply str_eqb_refl].
Qed.


Lemma span_digits (d r : jsstring) :
  forallb isDigit d = true -> starts_with isDigit r = false ->
  span isDigit (d ++ r) = (d, r).
Proof.
  induction d as [| c d IH]; simpl; intros Hd Hr.
  - destruct r as [| c r]; simpl in *; [reflexivity | now rewrite Hr].
  - apply andb_prop in Hd. destruct Hd as [Hc Hd]. rewrite Hc, (IH Hd Hr). reflexivity.
Qed.

Lemma span_sound (p : char16 -> bool) (s a b : jsstring) :
  span p s = (a, b) ->
  s = a ++ b /\ forallb p a = true /\ starts_with p b = false.
Proof.
  revert a b. induction s as [| c s IH]; simpl; intros a b H.
  - inversion H. auto.
  - destruct (p c) eqn:Hc.
    + destruct (span p s) as [a' b'] eqn:E. inversion H; subst.
      destruct (IH a' b eq_refl) as [H1 [H2 H3]].
      simpl. rewrite Hc, H2. subst s. auto.
    + inversion H; subst. simpl. auto.
Qed.

Lemma space_not_digit (c : char16) : isSpace c = true -> isDigit c = false.
Proof.
  unfold isSpace, isDigit. intros H.
  repeat (apply orb_prop in H; destruct H as [H | H]);
    try (apply andb_prop in H; destruct H as [H1 H2]);
    repeat match goal with
           | H : N.eqb _ _ = true |- _ => apply N.eqb_eq in H; subst
           | H : N.leb _ _ = true |- _ => apply N.leb_le in H
           end;
    try reflexivity;
    apply andb_false_iff; (left; apply N.leb_gt; lia) || (right; apply N.leb_gt; lia).
Qed.

Lemma space_not_dot (c : char16) : isSpace c = true -> N.eqb c dot = false.
Proof.
  intros H. destruct (N.eqb c dot) eqn:E; [| reflexivity].
  apply N.eqb_eq in E. subst. discriminate H.
Qed.

Lemma dropWhile_app_all (p : char16 -> bool) (ws u : jsstring) :
  forallb p ws = true -> dropWhile p (ws ++ u) = dropWhile p u.
Proof.
  induction ws as [| c ws IH]; simpl; intros H; [reflexivity |].
  apply andb_prop in H. destruct H as [Hc H]. now rewrite Hc, IH.
Qed.

Lemma dropWhile_id (p : char16 -> bool) (u : jsstring) :
  starts_with p u = false -> dropWhile p u = u.
Proof. destruct u as [| c u]; simpl; intros H; [reflexivity | now rewrite H]. Qed.


Lemma match_numeric_complete (a num unit : jsstring) :
  NumericAmount a num unit -> match_numeric a = Some (num, unit).
Proof.
  intros H. destruct H as [d r [Hne Hd] Hr Hf Hu | d f r [Hne Hd] [Hfne Hfd] Hr Hu];
    unfold match_numeric.
  - rewrite (span_digits d r Hd Hr).
    destruct d as [| c d]; [congruence |].
    destruct r as [| c' r].
    + simpl in *. reflexivity.
    + destruct (N.eqb c' dot) eqn:Edot.
      * destruct (span isDigit r) as [f r''] eqn:Ef.
        destruct f as [| cf f].
        -- unfold one_line in Hu. now rewrite Hu.
        -- exfalso. apply span_sound in Ef. destruct Ef as [E1 [E2 _]].
           subst r. simpl in Hf, E2. rewrite Edot in Hf.
           apply andb_prop in E2. destruct E2 as [E2 _]. rewrite E2 in Hf. discriminate.
      * unfold one_line in Hu. now rewrite Hu.
  - assert (Hs : span isDigit (d ++ dot :: f ++ r) = (d, dot :: f ++ r)).
    { apply span_digits; [exact Hd | reflexivity]. }
    rewrite Hs. destruct d as [| c d]; [congruence |].
    rewrite N.eqb_refl. rewrite (span_digits f r Hfd Hr).
    destruct f as [| cf f]; [congruence |].
    unfold one_line in Hu. now rewrite Hu.
Qed.

Lemma match_numeric_sound (a num unit : jsstring) :
  match_numeric a = Some (num, unit) -> NumericAmount a num unit.
Proof.
  unfold match_numeric. destruct (span isDigit a) as [d r1] eqn:Ed.
  apply span_sound in Ed. destruct Ed as [Ea [Hd Hr1]].
  destruct d as [| c d]; [discriminate |].
  assert (Hdig : is_digits (c :: d)) by (split; [discriminate | exact Hd]).
  destruct r1 as [| c1 r'].
  - destruct (existsb isLineTerminator (dropWhile isSpace [])) eqn:Hu; [discriminate |].
    intros H. inversion H; subst. apply (NA_integer (c :: d) []); auto.
  - destruct (N.eqb c1 dot) eqn:Edot.
    + destruct (span isDigit r') as [f r''] eqn:Ef.
      apply span_sound in Ef. destruct Ef as [Er' [Hf Hr'']].
      destruct f as [| cf f].
      * destruct (existsb isLineTerminator (dropWhile isSpace (c1 :: r'))) eqn:Hu;
          [discriminate |].
        intros H. inversion H; subst a num unit.
        apply (NA_integer (c :: d) (c1 :: r')); auto.
        simpl. rewrite Edot. simpl in Er'. subst r'.
        destruct r'' as [| c2 r2]; [reflexivity |]. simpl in Hr''. now rewrite Hr''.
      * destruct (existsb isLineTerminator (dropWhile isSpace r'')) eqn:Hu; [discriminate |].
        intros H. inversion H; subst a num unit.
        apply N.eqb_eq in Edot. subst c1 r'.
        apply (NA_fraction (c :: d) (cf :: f) r''); auto.
        split; [discriminate | exact Hf].
    + destruct (existsb isLineTerminator (dropWhile isSpace (c1 :: r'))) eqn:Hu;
        [discriminate |].
      intros H. inversion H; subst a num unit.
      apply (NA_integer (c :: d) (c1 :: r')); auto.
      simpl. rewrite Edot. destruct r'; reflexivity.
Qed.

Lemma match_numeric_truthy (a num unit : jsstring) :
  match_numeric a = Some (num, unit) -> truthy num = true.
Proof.
  intros H. apply match_numeric_sound in H.
  destruct H as [d r [Hne _] _ _ _ | d f r [Hne _] _ _ _];
    destruct d; try congruence; reflexivity.
Qed.

(** ** Doubles *)

Lemma Double_add_comm (x y : Double.double) : Double.add x y = Double.add y x.
Proof.
  unfold Double.add, SFadd.
  destruct x as [sx | sx | | sx mx ex], y as [sy | sy | | sy my ey];
    try reflexivity; try (destruct sx, sy; reflexivity).
  now rewrite (Z.min_comm ex ey), Z.add_comm.
Qed.

(** No character of a printed double is white space. *)
Lemma uint_chars_plain (u : Decimal.uint) :
  Forall (fun c => isSpace c = false) (uint_chars u).
Proof. induction u; cbn [uint_chars]; constructor; auto. Qed.

Lemma nat_digits_plain (z : Z) : Forall (fun c => isSpace c = false) (nat_digits z).
Proof. apply uint_chars_plain. Qed.

Lemma zeros_plain (n : Z) : Forall (fun c => isSpace c = false) (Double.zeros n).
Proof.
  unfold Double.zeros. induction (Z.to_nat n) as [| k IH]; cbn [repeat];
    constructor; auto.
Qed.

Lemma format_plain (ds : jsstring) (n : Z) :
  Forall (fun c => isSpace c = false) ds ->
  Forall (fun c => isSpace c = false) (Double.format ds n).
Proof.
  intros H. unfold Double.format. cbv zeta.
  destruct (_ && _).
  - apply Forall_app. split; [exact H | apply zeros_plain].
  - destruct (_ && _).
    + rewrite <- (firstn_skipn (Z.to_nat n) ds) in H.
      apply Forall_app in H. destruct H as [H1 H2].
      apply Forall_app. split; [exact H1 |]. constructor; [reflexivity | exact H2].
    + destruct (_ && _).
      * apply Forall_app. split; [repeat constructor |].
        apply Forall_app. split; [apply zeros_plain | exact H].
      * destruct ds as [| d rest]; [constructor |].
        inversion H as [| ? ? Hd Hrest]; subst.
        apply Forall_app. split.
        -- constructor; [exact Hd |].
           destruct rest; [constructor |]. constructor; [reflexivity | exact Hrest].
        -- constructor; [reflexivity |].
           constructor; [now destruct (0 <=? n - 1) |]. apply nat_digits_plain.
Qed.

Lemma Number_toString_plain (x : Double.double) :
  Forall (fun c => isSpace c = false) (Double.Number_toString x).
Proof.
  destruct x as [s | s | | s m e]; cbn [Double.Number_toString].
  - repeat constructor.
  - destruct s; repeat constructor.
  - repeat constructor.
  - cbv zeta. destruct (Double.shortest _ _ _ _ _ _) as [s0 ex0].
    destruct (Double.strip_zeros _ _ _) as [s1 ex1].
    apply Forall_app. split; [destruct s; repeat constructor |].
    apply format_plain, nat_digits_plain.
Qed.

(* ================================================================== *)
(** * Scaling a recipe                                                  *)
(* ================================================================== *)

Lemma scaleIngredientAmount_numeric (a num unit : jsstring) (f : Double.double) :
  NumericAmount a num unit ->
  RecipeUtils.scaleIngredientAmount a f
  = Double.Number_toString (Double.round2 (Double.mul (Double.parseFloat num) f))
    ++ unit.
Proof.
  intros H. apply match_numeric_complete in H.
  unfold RecipeUtils.scaleIngredientAmount. rewrite H.
  now rewrite (match_numeric_truthy _ _ _ H).
Qed.

Lemma scaleIngredientAmount_other (a : jsstring) (f : Double.double) :
  (forall num unit, ~ NumericAmount a num unit) ->
  RecipeUtils.scaleIngredientAmount a f = a.
Proof.
  intros H. unfold RecipeUtils.scaleIngredientAmount.
  destruct (match_numeric a) as [[num unit] |] eqn:E.
  - exfalso. apply (H num unit). now apply match_numeric_sound.
  - unfold RecipeUtils.scaleSpecial. now destruct (existsb _ _).
Qed.

Lemma specialCases_not_numeric (a : jsstring) :
  In a RecipeUtils.specialCases -> forall num unit, ~ NumericAmount a num unit.
Proof.
  intros Ha num unit H. apply match_numeric_complete in H.
  simpl in Ha.
  repeat (destruct Ha as [Ha | Ha]; [subst a; discriminate H |]).
  exact Ha.
Qed.

(** The two private copies of [scaleIngredientAmount] compute the same
    function. *)
Lemma scaleIngredientAmount_copies (a : jsstring) (f : Double.double) :
  ShoppingListUtils.scaleIngredientAmount a f = RecipeUtils.scaleIngredientAmount a f.
Proof.
  unfold ShoppingListUtils.scaleIngredientAmount, RecipeUtils.scaleIngredientAmount,
    RecipeUtils.scaleSpecial.
  destruct (match_numeric a) as [[num unit] |]; [destruct (truthy num) |];
    try reflexivity; now destruct (existsb _ _).
Qed.

Lemma scaleRecipe_same_but_amounts (R : Recipe) (t : Z) :
  same_but_amounts R (RecipeUtils.scaleRecipeIngredients R t).
Proof.
  unfold same_but_amounts, RecipeUtils.scaleRecipeIngredients.
  cbn [id name description category difficulty prepTime cookTime totalTime steps
       tags cookingMethods nutritionalInfo ingredients].
  rewrite !map_map. cbn [ing_name ing_notes]. repeat split; reflexivity.
Qed.

Lemma Forall2_one {A B} (P : A -> B -> Prop) (a : A) (b : B) :
  Forall2 P [a] [b] -> P a b.
Proof. intros H. now inversion H. Qed.



Lemma spaced_amount_is_numeric (num ws unit : jsstring) :
  is_decimal num -> ws <> [] -> forallb isSpace ws = true ->
  starts_with isSpace unit = false -> one_line unit ->
  NumericAmount (num ++ ws ++ unit) num unit.
Proof.
  intros Hnum Hne Hws Hu Hl.
  assert (Hdrop : dropWhile isSpace (ws ++ unit) = unit).
  { rewrite dropWhile_app_all by exact Hws. now apply dropWhile_id. }
  destruct ws as [| c ws]; [congruence |].
  simpl in Hws. apply andb_prop in Hws. destruct Hws as [Hc Hws].
  assert (Hd : starts_with isDigit ((c :: ws) ++ unit) = false)
    by (simpl; now apply space_not_digit).
  destruct Hnum as [Hd1 | [d [f [E [Hd1 Hf1]]]]].
  - rewrite <- Hdrop at 2. apply NA_integer; auto.
    + simpl. rewrite (space_not_dot c Hc). now destruct (ws ++ unit).
    + now rewrite Hdrop.
  - subst num. rewrite <- Hdrop at 2.
    replace ((d ++ dot :: f) ++ (c :: ws) ++ unit)
      with (d ++ dot :: f ++ ((c :: ws) ++ unit))
      by (rewrite <- app_assoc; reflexivity).
    apply NA_fraction; auto. now rewrite Hdrop.
Qed.

(** A text that ends in white space is not a printed double. *)
Lemma printed_number_differs (x : Double.double) (num ws : jsstring) :
  ws <> [] -> forallb isSpace ws = true -> Double.Number_toString x <> num ++ ws.
Proof.
  intros Hne Hws E.
  pose proof (Number_toString_plain x) as P. rewrite E in P.
  apply Forall_app in P. destruct P as [_ P].
  destruct ws as [| c ws]; [congruence |].
  inversion P as [| ? ? Hc _]; subst.
  cbn [forallb] in Hws. apply andb_prop in Hws. destruct Hws as [Hs _]. congruence.
Qed.




(* ================================================================== *)
(** * Combining two quantities                                          *)
(* ================================================================== *)

Lemma combineQuantities_same_unit (q1 q2 n1 n2 u : jsstring) :
  NumericAmount q1 n1 u -> NumericAmount q2 n2 u ->
  ShoppingListUtils.combineQuantities q1 q2
  = Double.Number_toString
      (Double.round2 (Double.add (Double.parseFloat n1) (Double.parseFloat n2)))
    ++ u.
Proof.
  intros H1 H2. apply match_numeric_complete in H1, H2.
  unfold ShoppingListUtils.combineQuantities. rewrite H1, H2.
  rewrite (match_numeric_truthy _ _ _ H1), (match_numeric_truthy _ _ _ H2).
  now rewrite str_eqb_refl.
Qed.

Lemma combineQuantities_otherwise (q1 q2 : jsstring) :
  (forall n1 u1 n2 u2,
      NumericAmount q1 n1 u1 -> NumericAmount q2 n2 u2 -> u1 <> u2) ->
  ShoppingListUtils.combineQuantities q1 q2 = q1 ++ js " + " ++ q2.
Proof.
  intros H. unfold ShoppingListUtils.combineQuantities.
  destruct (match_numeric q1) as [[n1 u1] |] eqn:E1; [| reflexivity].
  destruct (match_numeric q2) as [[n2 u2] |] eqn:E2; [| reflexivity].
  apply match_numeric_sound in E1, E2.
  pose proof (H _ _ _ _ E1 E2) as Hne.
  apply str_eqb_neq in Hne. rewrite Hne.
  now rewrite !andb_false_r.
Qed.

Lemma map_get_set_eq {V} (m : list (jsstring * V)) (k : jsstring) (v : V) :
  map_get str_eqb (map_set str_eqb m k v) k = Some v.
Proof.
  induction m as [| [k' v'] m IH]; simpl.
  - now rewrite str_eqb_refl.
  - destruct (str_eqb k k') eqn:E; simpl.
    + now rewrite str_eqb_refl.
    + now rewrite E.
Qed.

(** When the key of an ingredient is already in the map and consolidation
    is on, the quantity of the item becomes the combination of the old
    quantity and the scaled amount. *)
Lemma addIngredient_combines (people : Z) (recipe : Recipe)
    (m : list (jsstring * ShoppingItem)) (ing : Ingredient) (old : ShoppingItem) :
  map_get str_eqb m (ing_name ing) = Some old ->
  exists it,
    map_get str_eqb (ShoppingListUtils.addIngredient people true recipe m ing)
            (ing_name ing) = Some it /\
    quantity it
    = ShoppingListUtils.combineQuantities
        (quantity old)
        (ShoppingListUtils.scaleIngredientAmount
           (amount ing)
           (Double.div (Double.of_Z people) (Double.of_Z (servings recipe)))).
Proof.
  intros H. unfold ShoppingListUtils.addIngredient. cbv zeta.
  change (ShoppingListUtils.itemKey true recipe ing) with (ing_name ing).
  rewrite H. rewrite map_get_set_eq. eexists. split; reflexivity.
Qed.




(* ================================================================== *)
(** * The scores of a combination                                       *)
(* ================================================================== *)

Section SetsAsLists.

Import MealPlanUtils DishCombinationUtils.

Lemma set_add_In (fl : list jsstring) (x f : jsstring) :
  In f (set_add fl x) <-> In f fl \/ f = x.
Proof.
  unfold set_add. destruct (arr_includes fl x) eqn:E.
  - apply arr_includes_In in E. split; [auto |]. intros [H | H]; subst; auto.
  - rewrite in_app_iff. simpl. intuition.
Qed.

Lemma set_add_NoDup (fl : list jsstring) (x : jsstring) :
  NoDup fl -> NoDup (set_add fl x).
Proof.
  intros H. unfold set_add. destruct (arr_includes fl x) eqn:E; [exact H |].
  apply NoDup_snoc; [exact H |].
  intros Hin. apply arr_includes_In in Hin. congruence.
Qed.

Lemma tags_flavors (ts fl : list jsstring) (f : jsstring) :
  In f (fold_left addTagFlavor ts fl)
  <-> In f fl \/ (In f ts /\ In f flavorTags).
Proof.
  revert fl. induction ts as [| t ts IH]; intros fl; cbn [fold_left].
  - split; [auto | intros [H | [[] _]]; exact H].
  - rewrite IH. unfold addTagFlavor.
    assert (Hc : In f (t :: ts) <-> t = f \/ In f ts) by (simpl; tauto).
    rewrite Hc. clear Hc.
    destruct (arr_includes flavorTags t) eqn:E.
    + apply arr_includes_In in E. rewrite set_add_In.
      intuition (subst; auto).
    + assert (Ht : ~ In t flavorTags).
      { intros Hin. apply arr_includes_In in Hin. congruence. }
      intuition (subst; tauto).
Qed.

Lemma tags_flavors_NoDup (ts fl : list jsstring) :
  NoDup fl -> NoDup (fold_left addTagFlavor ts fl).
Proof.
  revert fl. induction ts as [| t ts IH]; intros fl H; simpl; [exact H |].
  apply IH. unfold addTagFlavor. destruct (arr_includes flavorTags t); [| exact H].
  now apply set_add_NoDup.
Qed.

Lemma method_flavor_step (m : CookingMethod) (fl : list jsstring) (f : jsstring) :
  In f (addMethodFlavor fl m) <-> In f fl \/ method_flavor m = Some f.
Proof.
  destruct m; simpl; rewrite ?set_add_In; intuition congruence.
Qed.

Lemma method_flavors (ms : list CookingMethod) (fl : list jsstring) (f : jsstring) :
  In f (fold_left addMethodFlavor ms fl)
  <-> In f fl \/ (exists m, In m ms /\ method_flavor m = Some f).
Proof.
  revert fl. induction ms as [| m ms IH]; intros fl; cbn [fold_left].
  - split; [auto | intros [H | [m [[] _]]]; exact H].
  - rewrite IH, method_flavor_step. split.
    + intros [[H | H] | [m' [H1 H2]]]; auto; right;
        [exists m | exists m']; split; simpl; auto.
    + intros [H | [m' [[H1 | H1] H2]]]; auto; [subst; auto |].
      right. exists m'. auto.
Qed.

Lemma method_flavors_NoDup (ms : list CookingMethod) (fl : list jsstring) :
  NoDup fl -> NoDup (fold_left addMethodFlavor ms fl).
Proof.
  revert fl. induction ms as [| m ms IH]; intros fl H; simpl; [exact H |].
  apply IH. destruct m; simpl; auto using set_add_NoDup.
Qed.

Lemma dish_flavors (d : RecommendedDish) (fl : list jsstring) (f : jsstring) :
  In f (addDishFlavors fl d) <-> In f fl \/ dish_has_flavor d f.
Proof.
  unfold addDishFlavors, dish_has_flavor.
  destruct (cookingMethods (dish_recipe d)) as [ms |];
    destruct (tags (dish_recipe d)) as [ts |];
    rewrite ?method_flavors, ?tags_flavors; split.
  - intros [[H | H] | [m H]]; auto.
    + right. left. exists ts. intuition.
    + right. right. exists ms, m. intuition.
  - intros [H | [[ts' [E H]] | [ms' [m [E H]]]]]; auto.
    + inversion E; subst. left. right. intuition.
    + inversion E; subst. right. exists m. intuition.
  - intros [H | [m H]]; auto. right. right. exists ms, m. intuition.
  - intros [H | [[ts' [E H]] | [ms' [m [E H]]]]]; auto; [discriminate |].
    inversion E; subst. right. exists m. intuition.
  - intros [H | H]; auto. right. left. exists ts. intuition.
  - intros [H | [[ts' [E H]] | [ms' [m [E H]]]]]; auto; [| discriminate].
    inversion E; subst. right. intuition.
  - auto.
  - intros [H | [[ts' [E H]] | [ms' [m [E H]]]]]; auto; discriminate.
Qed.

Lemma dish_flavors_NoDup (d : RecommendedDish) (fl : list jsstring) :
  NoDup fl -> NoDup (addDishFlavors fl d).
Proof.
  intros H. unfold addDishFlavors.
  destruct (cookingMethods (dish_recipe d)); destruct (tags (dish_recipe d));
    auto using method_flavors_NoDup, tags_flavors_NoDup.
Qed.

Lemma flavors_from (dishes : list RecommendedDish) (fl : list jsstring) (f : jsstring) :
  In f (fold_left addDishFlavors dishes fl)
  <-> In f fl \/ exists d, In d dishes /\ dish_has_flavor d f.
Proof.
  revert fl. induction dishes as [| d ds IH]; intros fl; simpl.
  - split; [auto | intros [H | [d [[] _]]]; exact H].
  - rewrite IH, dish_flavors. split.
    + intros [[H | H] | [d' [H1 H2]]]; auto; right; [exists d | exists d']; auto.
    + intros [H | [d' [[H1 | H1] H2]]]; auto; [subst; auto |].
      right. exists d'. auto.
Qed.

Lemma flavors_from_NoDup (dishes : list RecommendedDish) (fl : list jsstring) :
  NoDup fl -> NoDup (fold_left addDishFlavors dishes fl).
Proof.
  revert fl. induction dishes as [| d ds IH]; intros fl H; simpl; [exact H |].
  apply IH. now apply dish_flavors_NoDup.
Qed.

(** [distinct] with a test that decides equality lists every element once. *)
Lemma distinct_spec {A} (eqb : A -> A -> bool)
    (eqb_eq : forall a b, eqb a b = true <-> a = b) (xs seen : list A) :
  NoDup seen ->
  NoDup (distinct eqb seen xs)
  /\ forall x, In x (distinct eqb seen xs) <-> In x seen \/ In x xs.
Proof.
  revert seen. induction xs as [| y xs IH]; intros seen H; simpl.
  - split; [exact H | intuition].
  - destruct (existsb (eqb y) seen) eqn:E.
    + destruct (IH seen H) as [N I]. split; [exact N |].
      intros x. rewrite I.
      apply existsb_exists in E. destruct E as [z [Hz Hyz]].
      apply eqb_eq in Hyz. subst z.
      split; [intuition | intros [H1 | [H1 | H1]]; subst; auto].
    + assert (Hy : ~ In y seen).
      { intros Hin.
        assert (existsb (eqb y) seen = true)
          by (apply existsb_exists; exists y; split; [exact Hin | now apply eqb_eq]).
        congruence. }
      assert (N' : NoDup (seen ++ [y])) by now apply NoDup_snoc.
      destruct (IH _ N') as [N I]. split; [exact N |].
      intros x. rewrite I, in_app_iff. simpl. intuition.
Qed.

Lemma difficulty_eqb_eq (a b : DifficultyLevel) : difficulty_eqb a b = true <-> a = b.
Proof. destruct a, b; simpl; split; congruence. Qed.

Lemma fold_left_sum {A} (f : A -> Z) (l : list A) (acc : Z) :
  fold_left (fun sum x => sum + f x) l acc = acc + fold_right Z.add 0 (map f l).
Proof.
  revert acc. induction l as [| x l IH]; intros acc; simpl; [lia |].
  rewrite IH. lia.
Qed.

End SetsAsLists.

Lemma Math_round_nearest (x : Q) : nearest_integer x (Math_round x).
Proof.
  unfold nearest_integer, Math_round.
  pose proof (Qfloor_le (x + (1 # 2))) as L1.
  pose proof (Qlt_floor (x + (1 # 2))) as L2.
  rewrite inject_Z_plus in L2. simpl (inject_Z 1) in L2.
  split.
  - apply Qplus_le_l with (z := (1 # 2)%Q). ring_simplify.
    ring_simplify in L1. exact L1.
  - apply Qplus_lt_l with (z := (1 # 2)%Q).
    eapply Qlt_le_trans; [exact L2 |]. ring_simplify. apply Qle_refl.
Qed.

(** The combination that [generateDishCombination] returns carries the
    balance and the flavor profile of its own dishes. *)
Lemma generated_combination_fields (recipes : list Recipe) (request : CombinationRequest)
    (rnd : source) (k k' : nat) (c : DishCombination) :
  DishCombinationUtils.generateDishCombination recipes request rnd k = (Some c, k') ->
  flavorProfile c = DishCombinationUtils.analyzeFlavorProfile (dishes c)
  /\ nutritionalBalance c = DishCombinationUtils.analyzeNutritionalBalance (dishes c).
Proof.
  unfold DishCombinationUtils.generateDishCombination, bind, ret.
  destruct (DishCombinationUtils.selectDishesForCombination _ _ _ _ _ _ rnd k)
    as [[sel |] k1]; intros H; inversion H; subst. split; reflexivity.
Qed.



(* ================================================================== *)
(** * The dish-count check of the combination handler                   *)
(* ================================================================== *)

(** C4.  A request whose minimum number of dishes is above its maximum
    (after the defaults 3 and 6) is answered with an error response, with
    the error "Invalid dish count constraints" when the input passes the
    schema; no recipe is drawn (the count of random draws is unchanged)
    and neither the catalog nor the random source is looked at. *)
Theorem minDishes_above_maxDishes_is_rejected
    (allRecipes : list Recipe) (input : RecommendDishCombination.Input)
    (rnd : source) (k : nat) :
  RecommendMealPlan.default (RecommendDishCombination.in_maxDishes input) 6
  < RecommendMealPlan.default (RecommendDishCombination.in_minDishes input) 3 ->
  (exists error details,
      RecommendDishCombination.handleRecommendDishCombination allRecipes input rnd k
      = (Failure error details, k)
      /\ (RecommendDishCombination.schema_ok input = true ->
          error = js "Invalid dish count constraints"
          /\ details
             = Literal (js "Minimum dishes cannot be greater than maximum dishes")))
  /\ (forall allRecipes' rnd',
         RecommendDishCombination.handleRecommendDishCombination allRecipes' input rnd' k
         = RecommendDishCombination.handleRecommendDishCombination allRecipes input rnd k).
Proof.
  intros H. apply Z.ltb_lt in H.
  unfold RecommendDishCombination.handleRecommendDishCombination.
  destruct (RecommendDishCombination.schema_ok input) eqn:E; simpl; rewrite ?H.
  - split; [| reflexivity]. do 2 eexists. split; [reflexivity | auto].
  - split; [| reflexivity]. do 2 eexists. split; [reflexivity | discriminate].
Qed.

Lemma minDishes_above_maxDishes_is_rejected_witness :
  RecommendMealPlan.default
    (RecommendDishCombination.in_maxDishes Samples.three_not_two) 6
  < RecommendMealPlan.default
      (RecommendDishCombination.in_minDishes Samples.three_not_two) 3
  /\ exists error details,
      RecommendDishCombination.handleRecommendDishCombination
        [Samples.pork; Samples.greens] Samples.three_not_two Samples.zeros 0%nat
      = (Failure error details, 0%nat)
      /\ (RecommendDishCombination.schema_ok Samples.three_not_two = true ->
          error = js "Invalid dish count constraints"
          /\ details
             = Literal (js "Minimum dishes cannot be greater than maximum dishes")).
Proof.
  split; [reflexivity |].
  exact (proj1 (minDishes_above_maxDishes_is_rejected
                  [Samples.pork; Samples.greens] Samples.three_not_two
                  Samples.zeros 0%nat eq_refl)).
Defined.

(* ================================================================== *)
(** * Random picks                                                      *)
(* ================================================================== *)

Section RandomPicks.

Import MealPlanUtils.

Lemma randomIndex_in_range (rnd : source) (k n : nat) :
  unit_interval rnd -> (0 < n)%nat ->
  0 <= Qfloor (rnd k * inject_Z (Z.of_nat n)) < Z.of_nat n.
Proof.
  intros U Hn. destruct (U k) as [U0 U1].
  assert (Hpos : (0 < inject_Z (Z.of_nat n))%Q).
  { change 0%Q with (inject_Z 0). rewrite <- Zlt_Qlt. lia. }
  split.
  - change 0 with (Qfloor 0). apply Qfloor_resp_le.
    apply Qmult_le_0_compat; [exact U0 | now apply Qlt_le_weak].
  - rewrite Zlt_Qlt. eapply Qle_lt_trans; [apply Qfloor_le |].
    rewrite <- (Qmult_1_l (inject_Z (Z.of_nat n))) at 2.
    apply Qmult_lt_compat_r; assumption.
Qed.

Lemma selectRandomRecipe_In (l : list Recipe) (rnd : source) (k k' : nat) (r : Recipe) :
  selectRandomRecipe l rnd k = (Some r, k') -> In r l /\ k' = S k.
Proof.
  unfold selectRandomRecipe, bind, randomIndex, at_index, throw, ret.
  destruct (Qfloor _ <? 0); [discriminate |].
  destruct (nth_error l _) as [x |] eqn:E; intros H; inversion H; subst.
  split; [eapply nth_error_In; exact E | reflexivity].
Qed.

Lemma selectRandomRecipe_total (l : list Recipe) (rnd : source) (k : nat) :
  unit_interval rnd -> l <> [] ->
  exists r, selectRandomRecipe l rnd k = (Some r, S k).
Proof.
  intros U Hl.
  assert (Hn : (0 < length l)%nat) by (destruct l; [congruence | simpl; lia]).
  pose proof (randomIndex_in_range rnd k (length l) U Hn) as [H0 H1].
  unfold selectRandomRecipe, bind, randomIndex, at_index, throw, ret.
  destruct (Qfloor _ <? 0) eqn:E; [apply Z.ltb_lt in E; lia |].
  destruct (nth_error l _) as [x |] eqn:E'; [now exists x |].
  apply nth_error_None in E'. lia.
Qed.

Lemma nonempty_spec {A} (l : list A) : nonempty l = true <-> l <> [].
Proof. destruct l; simpl; split; congruence. Qed.

End RandomPicks.

(* ================================================================== *)
(** * The weekly plan                                                   *)
(* ================================================================== *)

Section WeeklyPlan.

Import MealPlanUtils.

Variable parseDate : jsstring -> option Z.
Variable nextMonday : Z.
Variable isoDate : Z -> jsstring.

Lemma planSlot_sound (eligible recipes : list Recipe) (slot : MealType) (people : Z)
    (meals meals' : list PlannedMeal) (rnd : source) (k k' : nat) :
  incl eligible recipes -> meals_from recipes meals ->
  planSlot eligible slot people meals rnd k = (Some meals', k') ->
  meals_from recipes meals'.
Proof.
  intros Hi Hm. unfold planSlot, bind, ret.
  destruct (nonempty eligible); [| intros H; inversion H; subst; exact Hm].
  destruct (selectRandomRecipe eligible rnd k) as [[r |] k1] eqn:E; [| discriminate].
  intros H. inversion H; subst.
  apply selectRandomRecipe_In in E. destruct E as [E _].
  unfold meals_from. rewrite Forall_app. split; [exact Hm |].
  constructor; [| constructor]. simpl. now apply Hi.
Qed.

Lemma planSlot_total (eligible : list Recipe) (slot : MealType) (people : Z)
    (meals : list PlannedMeal) (rnd : source) (k : nat) :
  unit_interval rnd ->
  exists meals' k', planSlot eligible slot people meals rnd k = (Some meals', k').
Proof.
  intros U. unfold planSlot, bind, ret.
  destruct (nonempty eligible) eqn:E; [| now do 2 eexists].
  apply nonempty_spec in E.
  destruct (selectRandomRecipe_total eligible rnd k U E) as [r Hr].
  rewrite Hr. now do 2 eexists.
Qed.

Lemma generateDailyMealPlan_sound (recipes : list Recipe)
    (prefs : MealPlanPreferences) (d : DayOfWeek) (date : jsstring)
    (rnd : source) (k k' : nat) (plan : DailyMealPlan) :
  generateDailyMealPlan recipes prefs d date rnd k = (Some plan, k') ->
  meals_from recipes (meals plan).
Proof.
  unfold generateDailyMealPlan.
  set (bs := filter _ recipes). set (ls := filter _ recipes). set (ds := filter _ recipes).
  assert (Hb : incl bs recipes) by apply incl_filter.
  assert (Hl : incl ls recipes) by apply incl_filter.
  assert (Hd : incl ds recipes) by apply incl_filter.
  unfold bind at 1.
  destruct (planSlot bs _ _ [] rnd k) as [[m1 |] k1] eqn:E1; [| discriminate].
  unfold bind at 1.
  destruct (planSlot ls _ _ m1 rnd k1) as [[m2 |] k2] eqn:E2; [| discriminate].
  unfold bind at 1.
  destruct (planSlot ds _ _ m2 rnd k2) as [[m3 |] k3] eqn:E3; [| discriminate].
  unfold ret. intros H. inversion H; subst. simpl.
  eapply planSlot_sound; [exact Hd | | exact E3].
  eapply planSlot_sound; [exact Hl | | exact E2].
  eapply planSlot_sound; [exact Hb | constructor | exact E1].
Qed.

Lemma generateDailyMealPlan_total (recipes : list Recipe)
    (prefs : MealPlanPreferences) (d : DayOfWeek) (date : jsstring)
    (rnd : source) (k : nat) :
  unit_interval rnd ->
  exists plan k', generateDailyMealPlan recipes prefs d date rnd k = (Some plan, k').
Proof.
  intros U. unfold generateDailyMealPlan.
  set (bs := filter _ recipes). set (ls := filter _ recipes). set (ds := filter _ recipes).
  unfold bind at 1.
  destruct (planSlot_total bs BreakfastMeal (numberOfPeople prefs) [] rnd k U)
    as [m1 [k1 E1]]. rewrite E1.
  unfold bind at 1.
  destruct (planSlot_total ls Lunch (numberOfPeople prefs) m1 rnd k1 U)
    as [m2 [k2 E2]]. rewrite E2.
  unfold bind at 1.
  destruct (planSlot_total ds Dinner (numberOfPeople prefs) m2 rnd k2 U)
    as [m3 [k3 E3]]. rewrite E3.
  unfold ret. now do 2 eexists.
Qed.

Lemma dailyLoop_sound (recipes : list Recipe) (prefs : MealPlanPreferences)
    (start : Z) (days : list DayOfWeek) :
  forall (i : Z) (acc plans : list DailyMealPlan) (rnd : source) (k k' : nat),
    Forall (fun p => meals_from recipes (meals p)) acc ->
    dailyLoop isoDate recipes prefs start i days acc rnd k = (Some plans, k') ->
    length plans = (length acc + length days)%nat
    /\ Forall (fun p => meals_from recipes (meals p)) plans.
Proof.
  induction days as [| d days IH]; intros i acc plans rnd k k' Hacc; simpl.
  - unfold ret. intros H. inversion H; subst. split; [lia | exact Hacc].
  - unfold bind at 1.
    destruct (generateDailyMealPlan recipes prefs d _ rnd k) as [[p |] k1] eqn:E;
      [| discriminate].
    intros H. apply IH in H.
    + destruct H as [H1 H2]. split; [| exact H2].
      rewrite H1, length_app. simpl. lia.
    + rewrite Forall_app. split; [exact Hacc |].
      constructor; [| constructor]. eapply generateDailyMealPlan_sound. exact E.
Qed.

Lemma dailyLoop_total (recipes : list Recipe) (prefs : MealPlanPreferences)
    (start : Z) (days : list DayOfWeek) (rnd : source) :
  unit_interval rnd ->
  forall (i : Z) (acc : list DailyMealPlan) (k : nat),
  exists plans k',
    dailyLoop isoDate recipes prefs start i days acc rnd k = (Some plans, k').
Proof.
  intros U. induction days as [| d days IH]; intros i acc k; simpl.
  - unfold ret. now do 2 eexists.
  - unfold bind at 1.
    destruct (generateDailyMealPlan_total recipes prefs d (isoDate (start + i)) rnd k U)
      as [p [k1 E]]. rewrite E. apply IH.
Qed.

Lemma generateWeeklyMealPlan_sound (recipes : list Recipe)
    (prefs : MealPlanPreferences) (startDate : option jsstring)
    (rnd : source) (k k' : nat) (plan : WeeklyMealPlan) :
  generateWeeklyMealPlan parseDate nextMonday isoDate recipes prefs startDate rnd k
  = (Some plan, k') ->
  length (dailyPlans plan) = 7%nat
  /\ preferences plan = prefs
  /\ forall d m,
      In d (dailyPlans plan) -> In m (meals d) ->
      In (meal_recipe m) (filterRecipesByPreferences recipes (preferences plan)).
Proof.
  unfold generateWeeklyMealPlan.
  destruct (match startDate with
            | Some s => if truthy s then parseDate s else Some nextMonday
            | None => Some nextMonday
            end) as [start |]; [| discriminate].
  unfold bind.
  destruct (dailyLoop isoDate _ prefs start 0 daysOfWeek [] rnd k)
    as [[plans |] k1] eqn:E; [| discriminate].
  unfold ret. intros H. inversion H; subst. simpl.
  apply dailyLoop_sound in E; [| constructor].
  destruct E as [E1 E2]. split; [exact E1 |]. split; [reflexivity |].
  intros d m Hd Hm. rewrite Forall_forall in E2.
  specialize (E2 d Hd). unfold meals_from in E2. rewrite Forall_forall in E2.
  now apply E2.
Qed.

Lemma generateWeeklyMealPlan_total (recipes : list Recipe)
    (prefs : MealPlanPreferences) (startDate : option jsstring)
    (rnd : source) (k : nat) :
  unit_interval rnd -> valid_start parseDate startDate ->
  exists plan k',
    generateWeeklyMealPlan parseDate nextMonday isoDate recipes prefs startDate rnd k
    = (Some plan, k').
Proof.
  intros U V. unfold generateWeeklyMealPlan.
  assert (S : exists start,
             match startDate with
             | Some s => if truthy s then parseDate s else Some nextMonday
             | None => Some nextMonday
             end = Some start).
  { destruct startDate as [s |]; [| now eexists]. simpl in V.
    destruct (truthy s); [| now eexists].
    destruct (parseDate s) as [z |]; [now eexists | now elim V]. }
  destruct S as [start S]. rewrite S. unfold bind.
  destruct (dailyLoop_total (filterRecipesByPreferences recipes prefs) prefs start
              daysOfWeek rnd U 0 [] k) as [plans [k1 E]].
  rewrite E. unfold ret. now do 2 eexists.
Qed.

End WeeklyPlan.

Section MealPlanHandler.

Import MealPlanUtils RecommendMealPlan.

Variable parseDate : jsstring -> option Z.
Variable nextMonday : Z.
Variable isoDate : Z -> jsstring.
Variable localeCompare : jsstring -> jsstring -> Z.

(** A successful response carries the plan that [generateWeeklyMealPlan]
    returned. *)
Lemma handleRecommendMealPlan_success (allRecipes : list Recipe) (input : Input)
    (rnd : source) (k k' : nat) (message : jsstring) (data : MealPlanResponse) :
  handleRecommendMealPlan parseDate nextMonday isoDate localeCompare
    allRecipes input rnd k = (Success message data, k') ->
  generateWeeklyMealPlan parseDate nextMonday isoDate allRecipes
    (in_preferences input) (in_startDate input) rnd k = (Some (mealPlan data), k')
  /\ statistics data = calculateMealPlanStats (mealPlan data).
Proof.
  unfold handleRecommendMealPlan.
  destruct (negb (schema_ok input)); [discriminate |].
  destruct (negb (fst (validateMealPlanPreferences (in_preferences input))));
    [discriminate |].
  destruct (len_is_zero allRecipes); [discriminate |].
  destruct (generateWeeklyMealPlan _ _ _ _ _ _ rnd k) as [[plan |] k1];
    [| discriminate].
  intros H. inversion H; subst. simpl. split; reflexivity.
Qed.

Lemma schema_ok_validates (input : Input) :
  schema_ok input = true ->
  fst (validateMealPlanPreferences (in_preferences input)) = true.
Proof.
  unfold schema_ok, in_range, validateMealPlanPreferences.
  intros H. apply andb_prop in H. destruct H as [H _].
  apply andb_prop in H. destruct H as [H1 H2].
  apply Z.leb_le in H1, H2.
  destruct (numberOfPeople (in_preferences input) <=? 0) eqn:E1;
    [apply Z.leb_le in E1; lia |].
  destruct (20 <? numberOfPeople (in_preferences input)) eqn:E2;
    [apply Z.ltb_lt in E2; lia |].
  reflexivity.
Qed.

(** With a valid input and a catalog that is not empty, the handler
    answers with whatever plan the generation returns. *)
Lemma handleRecommendMealPlan_returns (allRecipes : list Recipe) (input : Input)
    (rnd : source) (k k' : nat) (plan : WeeklyMealPlan) :
  schema_ok input = true -> allRecipes <> [] ->
  generateWeeklyMealPlan parseDate nextMonday isoDate allRecipes
    (in_preferences input) (in_startDate input) rnd k = (Some plan, k') ->
  exists message data,
    handleRecommendMealPlan parseDate nextMonday isoDate localeCompare
      allRecipes input rnd k = (Success message data, k')
    /\ mealPlan data = plan.
Proof.
  intros Hs Hc Hg. unfold handleRecommendMealPlan.
  rewrite Hs, (schema_ok_validates input Hs). simpl.
  destruct allRecipes as [| r rs]; [congruence |]. simpl.
  rewrite Hg. do 2 eexists. split; reflexivity.
Qed.

End MealPlanHandler.

(** C6.  With a random source in the unit interval and a start date the
    platform can read, [generateWeeklyMealPlan] returns a plan; the plan
    has 7 daily plans and carries the preferences it was generated with,
    and the recipe of every planned meal is one of the recipes that these
    preferences let through the filter over the catalog.  The handler
    returns the same kind of plan for any requested plan duration. *)
Theorem weekly_plan_has_seven_days_of_filtered_recipes
    (parseDate : jsstring -> option Z) (nextMonday : Z) (isoDate : Z -> jsstring)
    (localeCompare : jsstring -> jsstring -> Z)
    (catalog : list Recipe) (prefs : MealPlanPreferences)
    (startDate : option jsstring) (rnd : source) (k : nat) :
  unit_interval rnd -> valid_start parseDate startDate ->
  (exists plan k',
      MealPlanUtils.generateWeeklyMealPlan parseDate nextMonday isoDate
        catalog prefs startDate rnd k = (Some plan, k')
      /\ length (dailyPlans plan) = 7%nat
      /\ preferences plan = prefs
      /\ forall d m,
          In d (dailyPlans plan) -> In m (meals d) ->
          In (meal_recipe m)
             (MealPlanUtils.filterRecipesByPreferences catalog (preferences plan)))
  /\ (forall duration shopping consolidate message data k',
         RecommendMealPlan.handleRecommendMealPlan parseDate nextMonday isoDate
           localeCompare catalog
           {| RecommendMealPlan.in_preferences := prefs;
              RecommendMealPlan.in_startDate := startDate;
              RecommendMealPlan.planDuration := duration;
              RecommendMealPlan.includeShoppingList := shopping;
              RecommendMealPlan.consolidateIngredients := consolidate |}
           rnd k = (Success message data, k') ->
         length (dailyPlans (RecommendMealPlan.mealPlan data)) = 7%nat
         /\ forall d m,
             In d (dailyPlans (RecommendMealPlan.mealPlan data)) -> In m (meals d) ->
             In (meal_recipe m)
                (MealPlanUtils.filterRecipesByPreferences catalog
                   (preferences (RecommendMealPlan.mealPlan data)))).
Proof.
  intros U V. split.
  - destruct (generateWeeklyMealPlan_total parseDate nextMonday isoDate
                catalog prefs startDate rnd k U V) as [plan [k' E]].
    exists plan, k'. split; [exact E |].
    exact (generateWeeklyMealPlan_sound _ _ _ _ _ _ _ _ _ _ E).
  - intros duration shopping consolidate message data k' H.
    apply handleRecommendMealPlan_success in H. destruct H as [H _]. simpl in H.
    destruct (generateWeeklyMealPlan_sound _ _ _ _ _ _ _ _ _ _ H) as [H1 [_ H3]].
    split; assumption.
Qed.

Lemma zeros_unit_interval : unit_interval Samples.zeros.
Proof. intros k. split; [apply Qle_refl | reflexivity]. Qed.

Lemma weekly_plan_has_seven_days_of_filtered_recipes_witness :
  unit_interval Samples.zeros
  /\ valid_start Samples.anyDate None
  /\ exists plan k',
      MealPlanUtils.generateWeeklyMealPlan Samples.anyDate 0 Samples.blankDate
        [Samples.pork; Samples.greens; Samples.broth] Samples.everyone None
        Samples.zeros 0%nat = (Some plan, k')
      /\ length (dailyPlans plan) = 7%nat
      /\ preferences plan = Samples.everyone
      /\ forall d m,
          In d (dailyPlans plan) -> In m (meals d) ->
          In (meal_recipe m)
             (MealPlanUtils.filterRecipesByPreferences
                [Samples.pork; Samples.greens; Samples.broth] (preferences plan)).
Proof.
  split; [exact zeros_unit_interval |]. split; [exact I |].
  exact (proj1 (weekly_plan_has_seven_days_of_filtered_recipes
                  Samples.anyDate 0 Samples.blankDate Samples.flatCollation
                  [Samples.pork; Samples.greens; Samples.broth] Samples.everyone None
                  Samples.zeros 0%nat zeros_unit_interval I)).
Defined.

(* ================================================================== *)
(** * An empty filtered set                                             *)
(* ================================================================== *)

Section EmptyFilter.

Import MealPlanUtils RecommendMealPlan.

Variable parseDate : jsstring -> option Z.
Variable nextMonday : Z.
Variable isoDate : Z -> jsstring.
Variable localeCompare : jsstring -> jsstring -> Z.

(** Without a suitable recipe a day has no meal and takes no draw. *)
Lemma generateDailyMealPlan_nothing (prefs : MealPlanPreferences) (d : DayOfWeek)
    (date : jsstring) (rnd : source) (k : nat) :
  generateDailyMealPlan [] prefs d date rnd k
  = (Some {| day := d; date := date; meals := []; totalCalories := 0%Q |}, k).
Proof. reflexivity. Qed.

Lemma generateWeeklyMealPlan_nothing (recipes : list Recipe)
    (prefs : MealPlanPreferences) (startDate : option jsstring)
    (rnd : source) (k : nat) :
  filterRecipesByPreferences recipes prefs = [] ->
  valid_start parseDate startDate ->
  exists plan,
    generateWeeklyMealPlan parseDate nextMonday isoDate recipes prefs startDate rnd k
    = (Some plan, k)
    /\ length (dailyPlans plan) = 7%nat
    /\ Forall (fun d => meals d = []) (dailyPlans plan).
Proof.
  intros Hf V. unfold generateWeeklyMealPlan. rewrite Hf.
  assert (S : exists start,
             match startDate with
             | Some s => if truthy s then parseDate s else Some nextMonday
             | None => Some nextMonday
             end = Some start).
  { destruct startDate as [s |]; [| now eexists]. simpl in V.
    destruct (truthy s); [| now eexists].
    destruct (parseDate s) as [z |]; [now eexists | now elim V]. }
  destruct S as [start S]. rewrite S.
  eexists. split; [reflexivity |]. split; [reflexivity |].
  simpl. repeat constructor.
Qed.

End EmptyFilter.

(** C3 (as amended).  When the preference filter leaves no recipe of a
    catalog that is not empty (the input passes the schema, the start date
    is one the platform can read), the meal-plan handler answers with a
    success that carries a plan of 7 days without any meal, and draws no
    random number; the error "No recipes available" is the answer when the
    catalog itself is empty. *)
Theorem empty_filter_gives_a_week_without_meals
    (parseDate : jsstring -> option Z) (nextMonday : Z) (isoDate : Z -> jsstring)
    (localeCompare : jsstring -> jsstring -> Z)
    (catalog : list Recipe) (input : RecommendMealPlan.Input)
    (rnd : source) (k : nat) :
  RecommendMealPlan.schema_ok input = true ->
  MealPlanUtils.filterRecipesByPreferences
    catalog (RecommendMealPlan.in_preferences input) = [] ->
  valid_start parseDate (RecommendMealPlan.in_startDate input) ->
  (catalog <> [] ->
   exists message data,
     RecommendMealPlan.handleRecommendMealPlan parseDate nextMonday isoDate
       localeCompare catalog input rnd k = (Success message data, k)
     /\ length (dailyPlans (RecommendMealPlan.mealPlan data)) = 7%nat
     /\ Forall (fun d => meals d = []) (dailyPlans (RecommendMealPlan.mealPlan data)))
  /\ (catalog = [] ->
      RecommendMealPlan.handleRecommendMealPlan parseDate nextMonday isoDate
        localeCompare catalog input rnd k
      = (Failure (js "No recipes available")
                 (Literal (js "Recipe database is empty")), k)).
Proof.
  intros Hs Hf V. split.
  - intros Hc.
    destruct (generateWeeklyMealPlan_nothing parseDate nextMonday isoDate catalog
                (RecommendMealPlan.in_preferences input)
                (RecommendMealPlan.in_startDate input) rnd k Hf V)
      as [plan [E [L M]]].
    destruct (handleRecommendMealPlan_returns parseDate nextMonday isoDate
                localeCompare catalog input rnd k k plan Hs Hc E)
      as [message [data [H1 H2]]].
    exists message, data. subst plan. auto.
  - intros Hc. subst catalog. unfold RecommendMealPlan.handleRecommendMealPlan.
    rewrite Hs, (schema_ok_validates input Hs). reflexivity.
Qed.

Lemma empty_filter_gives_a_week_without_meals_witness :
  RecommendMealPlan.schema_ok Samples.vegetarian_week = true
  /\ MealPlanUtils.filterRecipesByPreferences [Samples.pork] Samples.vegetarians = []
  /\ exists message data,
      RecommendMealPlan.handleRecommendMealPlan Samples.anyDate 0 Samples.blankDate
        Samples.flatCollation [Samples.pork] Samples.vegetarian_week
        Samples.zeros 0%nat = (Success message data, 0%nat)
      /\ length (dailyPlans (RecommendMealPlan.mealPlan data)) = 7%nat
      /\ Forall (fun d => meals d = []) (dailyPlans (RecommendMealPlan.mealPlan data)).
Proof.
  split; [reflexivity |]. split; [reflexivity |].
  refine (proj1 (empty_filter_gives_a_week_without_meals
                   Samples.anyDate 0 Samples.blankDate Samples.flatCollation
                   [Samples.pork] Samples.vegetarian_week Samples.zeros 0%nat
                   eq_refl eq_refl I) _).
  discriminate.
Defined.

(** C3 (as stated) fails: a catalog with one meat dish, filtered for
    vegetarians, leaves no recipe, and the handler answers with a success
    and a plan, not with an error. *)
Lemma empty_filter_is_not_an_error :
  MealPlanUtils.filterRecipesByPreferences [Samples.pork] Samples.vegetarians = []
  /\ (exists message data,
         RecommendMealPlan.handleRecommendMealPlan Samples.anyDate 0 Samples.blankDate
           Samples.flatCollation [Samples.pork] Samples.vegetarian_week
           Samples.zeros 0%nat = (Success message data, 0%nat))
  /\ ~ (exists error details k',
           RecommendMealPlan.handleRecommendMealPlan Samples.anyDate 0
             Samples.blankDate Samples.flatCollation [Samples.pork]
             Samples.vegetarian_week Samples.zeros 0%nat
           = (Failure error details, k')).
Proof.
  split; [reflexivity |]. split.
  - do 2 eexists. vm_compute. reflexivity.
  - intros [error [details [k' H]]]. vm_compute in H. discriminate H.
Qed.

(* ================================================================== *)
(** * The selection of dishes                                           *)
(* ================================================================== *)

Section Selection.

Import MealPlanUtils DishCombinationUtils.

Lemma len_app {A} (l l' : list A) : len (l ++ l') = len l + len l'.
Proof. unfold len. rewrite length_app. lia. Qed.

Lemma len_nonneg {A} (l : list A) : 0 <= len l.
Proof. unfold len. lia. Qed.

Lemma remove_id_In (selected r : Recipe) (avail : list Recipe) :
  In r (remove_id selected avail) <-> In r avail /\ id r <> id selected.
Proof.
  unfold remove_id. rewrite filter_In, negb_true_iff, str_eqb_neq. reflexivity.
Qed.

Lemma remove_id_shorter (selected : Recipe) (avail : list Recipe) :
  In selected avail -> (length (remove_id selected avail) < length avail)%nat.
Proof.
  intros H. unfold remove_id. induction avail as [| r l IH]; [destruct H |].
  simpl. destruct H as [H | H].
  - subst r. rewrite str_eqb_refl. simpl.
    pose proof (filter_length_le
                  (fun r => negb (str_eqb (id r) (id selected))) l). lia.
  - specialize (IH H). destruct (negb _); simpl; lia.
Qed.

Lemma Picks_trans (B : Z) (a b c : list Recipe * list Recipe) :
  Picks B a b -> Picks B b c -> Picks B a c.
Proof.
  intros H. induction H as [st | sel avail selected st' Hlt Hin H IH]; intros Hc;
    [exact Hc |].
  eapply picks_more; eauto.
Qed.

Lemma Picks_weaken (B B' : Z) (a b : list Recipe * list Recipe) :
  B <= B' -> Picks B a b -> Picks B' a b.
Proof.
  intros HB H. induction H as [st | sel avail selected st' Hlt Hin H IH];
    [constructor |].
  eapply picks_more; eauto. lia.
Qed.

(** The selection only grows, at its end, and stays within the bound. *)
Lemma Picks_extends (B : Z) (a b : list Recipe * list Recipe) :
  Picks B a b ->
  (exists picks, fst b = fst a ++ picks) /\ len (fst b) <= Z.max B (len (fst a)).
Proof.
  intros H. induction H as [st | sel avail selected st' Hlt Hin H [[picks E] L]].
  - split; [exists []; now rewrite app_nil_r | lia].
  - simpl in *. split.
    + exists (selected :: picks). rewrite E, <- app_assoc. reflexivity.
    + rewrite len_app in L. change (len [selected]) with 1 in L. lia.
Qed.

Lemma Picks_apart (B : Z) (a b : list Recipe * list Recipe) :
  Picks B a b -> apart a ->
  apart b /\ (NoDup (map id (fst a)) -> NoDup (map id (fst b))).
Proof.
  intros H. induction H as [st | sel avail selected st' Hlt Hin H IH]; intros Ha.
  - auto.
  - assert (Hnew : ~ In (id selected) (map id sel)) by exact (Ha selected Hin).
    assert (Ha' : apart (sel ++ [selected], remove_id selected avail)).
    { intros r Hr. simpl in *. apply remove_id_In in Hr. destruct Hr as [Hr Hne].
      rewrite map_app, in_app_iff. simpl. intros [H' | [H' | []]].
      - exact (Ha r Hr H').
      - congruence. }
    destruct (IH Ha') as [I1 I2]. split; [exact I1 |].
    intros N. apply I2. simpl. rewrite map_app. simpl.
    now apply NoDup_snoc.
Qed.

(** A recipe that was available is still available or has given its
    identifier to a selected recipe; the recipes come from the same pool. *)
Lemma Picks_covers (B : Z) (a b : list Recipe * list Recipe) :
  Picks B a b ->
  (forall r, In r (snd a) -> In r (snd b) \/ In (id r) (map id (fst b)))
  /\ (forall r, In (id r) (map id (fst a)) -> In (id r) (map id (fst b)))
  /\ (forall pool, incl (fst a) pool -> incl (snd a) pool -> incl (fst b) pool).
Proof.
  intros H. induction H as [st | sel avail selected st' Hlt Hin H [IH1 [IH2 IH3]]].
  - auto.
  - simpl in *. split; [| split].
    + intros r Hr.
      destruct (list_eq_dec N.eq_dec (id r) (id selected)) as [E | NE].
      * right. apply IH2. rewrite E, map_app, in_app_iff. simpl. auto.
      * apply IH1. apply remove_id_In. auto.
    + intros r Hr. apply IH2. rewrite map_app, in_app_iff. auto.
    + intros pool H1 H2. apply IH3.
      * apply incl_app; [exact H1 |]. intros x [Hx | []]. subst. now apply H2.
      * intros x Hx. apply remove_id_In in Hx. apply H2. tauto.
Qed.


Lemma categoryLoop_picks (mx : Z) (rnd : source) (cats : list RecipeCategory) :
  forall sel used avail sel' used' avail' k k',
    categoryLoop mx cats (sel, used, avail) rnd k = (Some (sel', used', avail'), k') ->
    Picks mx (sel, avail) (sel', avail').
Proof.
  induction cats as [| cat cats IH]; intros sel used avail sel' used' avail' k k'; simpl.
  - unfold ret. intros H. inversion H; subst. constructor.
  - destruct (mx <=? len sel) eqn:Emx.
    { unfold ret. intros H. inversion H; subst. constructor. }
    apply Z.leb_gt in Emx.
    destruct (existsb (category_eqb cat) used); [apply IH |].
    destruct (nonempty (filter _ avail)) eqn:Ene; [| apply IH].
    unfold bind at 1.
    destruct (selectRandomRecipe _ rnd k) as [[selected |] k1] eqn:Es; [| discriminate].
    intros H. apply IH in H.
    apply selectRandomRecipe_In in Es. destruct Es as [Es _].
    apply filter_In in Es. destruct Es as [Es _].
    eapply picks_more; eauto.
Qed.

Lemma categoryLoop_total (mx : Z) (rnd : source) (cats : list RecipeCategory) :
  unit_interval rnd ->
  forall st k, exists st' k', categoryLoop mx cats st rnd k = (Some st', k').
Proof.
  intros U. induction cats as [| cat cats IH]; intros [[sel used] avail] k; simpl.
  - unfold ret. now do 2 eexists.
  - destruct (mx <=? len sel); [unfold ret; now do 2 eexists |].
    destruct (existsb (category_eqb cat) used); [apply IH |].
    destruct (nonempty (filter _ avail)) eqn:Ene; [| apply IH].
    apply nonempty_spec in Ene.
    unfold bind at 1.
    destruct (selectRandomRecipe_total _ rnd k U Ene) as [selected Es].
    rewrite Es. apply IH.
Qed.

Lemma fillLoop_picks (bound : Z) (rnd : source) (fuel : nat) :
  forall sel avail sel' avail' k k',
    fillLoop fuel bound sel avail rnd k = (Some (sel', avail'), k') ->
    Picks bound (sel, avail) (sel', avail').
Proof.
  induction fuel as [| fuel IH]; intros sel avail sel' avail' k k'; simpl.
  - unfold ret. intros H. inversion H; subst. constructor.
  - destruct ((len sel <? bound) && nonempty avail) eqn:Ec.
    + apply andb_prop in Ec. destruct Ec as [Ec _]. apply Z.ltb_lt in Ec.
      unfold bind at 1.
      destruct (selectRandomRecipe avail rnd k) as [[selected |] k1] eqn:Es;
        [| discriminate].
      intros H. apply IH in H.
      apply selectRandomRecipe_In in Es. destruct Es as [Es _].
      eapply picks_more; eauto.
    + unfold ret. intros H. inversion H; subst. constructor.
Qed.

(** With as much fuel as there are available recipes the loop ends by its
    own condition: enough recipes are selected, or none is available. *)
Lemma fillLoop_exit (bound : Z) (rnd : source) (fuel : nat) :
  forall sel avail sel' avail' k k',
    (length avail <= fuel)%nat ->
    fillLoop fuel bound sel avail rnd k = (Some (sel', avail'), k') ->
    bound <= len sel' \/ avail' = [].
Proof.
  induction fuel as [| fuel IH]; intros sel avail sel' avail' k k' Hf; simpl.
  - unfold ret. intros H. inversion H; subst.
    right. destruct avail'; [reflexivity | simpl in Hf; lia].
  - destruct ((len sel <? bound) && nonempty avail) eqn:Ec.
    + unfold bind at 1.
      destruct (selectRandomRecipe avail rnd k) as [[selected |] k1] eqn:Es;
        [| discriminate].
      apply selectRandomRecipe_In in Es. destruct Es as [Es _].
      apply IH. pose proof (remove_id_shorter selected avail Es). lia.
    + unfold ret. intros H. inversion H; subst.
      apply andb_false_iff in Ec. destruct Ec as [Ec | Ec].
      * left. apply Z.ltb_ge in Ec. exact Ec.
      * right. destruct avail'; [reflexivity | discriminate].
Qed.

Lemma fillLoop_total (bound : Z) (rnd : source) (fuel : nat) :
  unit_interval rnd ->
  forall sel avail k,
  exists st' k', fillLoop fuel bound sel avail rnd k = (Some st', k').
Proof.
  intros U. induction fuel as [| fuel IH]; intros sel avail k; simpl.
  - unfold ret. now do 2 eexists.
  - destruct ((len sel <? bound) && nonempty avail) eqn:Ec;
      [| unfold ret; now do 2 eexists].
    apply andb_prop in Ec. destruct Ec as [_ Ec]. apply nonempty_spec in Ec.
    unfold bind at 1.
    destruct (selectRandomRecipe_total avail rnd k U Ec) as [selected Es].
    rewrite Es. apply IH.
Qed.

Lemma filter_none {A} (l : list A) : filter (fun _ => false) l = [].
Proof. induction l; simpl; auto. Qed.

Lemma NoDup_map_filter {Item Key : Type} (keep : Item -> bool) (key : Item -> Key)
    (xs : list Item) :
  NoDup (map key xs) -> NoDup (map key (filter keep xs)).
Proof.
  intros N. induction xs as [| x xs IH]; simpl in *; [constructor |].
  inversion N as [| y ys Hx Hxs]; subst.
  destruct (keep x); simpl; [| now apply IH].
  constructor; [| now apply IH].
  intros H. apply Hx. apply in_map_iff in H. destruct H as [z [E Hz]].
  apply filter_In in Hz. apply in_map_iff. exists z. tauto.
Qed.

Lemma initialSelection_spec (recipes : list Recipe)
    (inc ex : option (list jsstring)) :
  let st := initialSelection recipes inc ex in
  fst st = must_include inc recipes
  /\ apart st
  /\ (forall r, In r recipes -> ~ excluded ex r ->
                In r (snd st) \/ In (id r) (map id (fst st)))
  /\ incl (fst st) recipes /\ incl (snd st) recipes
  /\ (NoDup (map id recipes) -> NoDup (map id (fst st))).
Proof.
  unfold initialSelection.
  set (avail0 := match ex with
                 | Some e => if nonempty e then filter _ recipes else recipes
                 | None => recipes
                 end).
  assert (H0 : incl avail0 recipes).
  { unfold avail0. destruct ex as [e |]; [| apply incl_refl].
    destruct (nonempty e); [apply incl_filter | apply incl_refl]. }
  assert (H1 : forall r, In r recipes -> ~ excluded ex r -> In r avail0).
  { unfold avail0, excluded. intros r Hr He. destruct ex as [e |]; [| exact Hr].
    destruct (nonempty e); [| exact Hr].
    apply filter_In. split; [exact Hr |].
    apply negb_true_iff. destruct (arr_includes e (id r)) eqn:E; [| reflexivity].
    apply arr_includes_In in E. contradiction. }
  clearbody avail0.
  assert (Hnone : apart ([], avail0)
                  /\ (forall r, In r recipes -> ~ excluded ex r ->
                                In r avail0 \/ In (id r) (map id (@nil Recipe)))
                  /\ incl [] recipes /\ incl avail0 recipes
                  /\ (NoDup (map id recipes) -> NoDup (map id (@nil Recipe)))).
  { split; [intros r _ [] |]. split; [auto |]. split; [intros x [] |].
    split; [exact H0 | intros _; constructor]. }
  destruct inc as [l |]; simpl; [| split; [reflexivity | exact Hnone]].
  destruct (nonempty l) eqn:El; simpl.
  - split; [reflexivity |]. split; [| split; [| split; [| split]]].
    + intros r Hr. simpl in *. apply filter_In in Hr. destruct Hr as [_ Hr].
      apply negb_true_iff in Hr. intros H. apply in_map_iff in H.
      destruct H as [x [E Hx]]. apply filter_In in Hx. destruct Hx as [_ Hx].
      rewrite E in Hx. congruence.
    + intros r Hr He. destruct (arr_includes l (id r)) eqn:E.
      * right. apply in_map. apply filter_In. auto.
      * left. apply filter_In. split; [now apply H1 | now rewrite E].
    + apply incl_filter.
    + eapply incl_tran; [apply incl_filter | exact H0].
    + apply NoDup_map_filter.
  - destruct l; [| discriminate]. simpl.
    split; [now rewrite filter_none | exact Hnone].
Qed.

Lemma selectDishes_sound (recipes : list Recipe) (mx mn : Z)
    (inc ex : option (list jsstring)) (rnd : source) (k k' : nat)
    (sel avail : list Recipe) :
  selectDishes recipes mx mn inc ex rnd k = (Some (sel, avail), k') ->
  (exists picks, sel = must_include inc recipes ++ picks)
  /\ (mn <= mx -> len sel <= Z.max mx (len (must_include inc recipes)))
  /\ (mn <= len sel \/ avail = [])
  /\ (NoDup (map id recipes) -> NoDup (map id sel))
  /\ (forall r, In r recipes -> ~ excluded ex r ->
                In r avail \/ In (id r) (map id sel))
  /\ incl sel recipes.
Proof.
  unfold selectDishes.
  pose proof (initialSelection_spec recipes inc ex) as I. cbv zeta in I.
  destruct (initialSelection recipes inc ex) as [sel0 avail1]. simpl in I.
  destruct I as [I1 [I2 [I3 [I4 [I5 I6]]]]]. rewrite <- I1.
  set (rs := Z.min (mx - len sel0) (Z.max 0 (mn - len sel0))).
  unfold bind at 1.
  destruct (categoryLoop mx categoryPriority _ rnd k) as [[[[sel1 used1] avail2] |] k1]
    eqn:Ec; [| discriminate].
  intros Ef.
  pose proof (fillLoop_exit _ _ _ _ _ _ _ _ _ (Nat.le_refl _) Ef) as Hexit.
  apply categoryLoop_picks in Ec. apply fillLoop_picks in Ef.
  destruct (Picks_extends _ _ _ Ec) as [[p1 E1] L1].
  destruct (Picks_extends _ _ _ Ef) as [[p2 E2] L2].
  simpl in E1, E2, L1, L2.
  assert (P : Picks (Z.max mx (Z.max mn rs)) (sel0, avail1) (sel, avail)).
  { eapply Picks_trans; eapply Picks_weaken; try eassumption; lia. }
  destruct (Picks_apart _ _ _ P I2) as [_ PN].
  destruct (Picks_covers _ _ _ P) as [PC1 [PC2 PC3]]. simpl in PN, PC1, PC2, PC3.
  pose proof (len_nonneg sel0) as Hn0.
  split; [| split; [| split; [| split; [| split]]]].
  - exists (p1 ++ p2). rewrite E2, E1, app_assoc. reflexivity.
  - intros Hm. unfold rs in L2. lia.
  - destruct Hexit as [H | H]; [left; lia | right; exact H].
  - intros N. apply PN. now apply I6.
  - intros r Hr He. destruct (I3 r Hr He) as [H | H]; [now apply PC1 | right].
    apply PC2. exact H.
  - now apply PC3.
Qed.

Lemma selectDishes_total (recipes : list Recipe) (mx mn : Z)
    (inc ex : option (list jsstring)) (rnd : source) (k : nat) :
  unit_interval rnd ->
  exists st k', selectDishes recipes mx mn inc ex rnd k = (Some st, k').
Proof.
  intros U. unfold selectDishes.
  destruct (initialSelection recipes inc ex) as [sel0 avail1].
  unfold bind at 1.
  destruct (categoryLoop_total mx rnd categoryPriority U
              (sel0, distinct category_eqb [] (map category sel0), avail1) k)
    as [[[sel1 used1] avail2] [k1 Ec]].
  rewrite Ec. apply fillLoop_total. exact U.
Qed.

Lemma assignFrom_recipes (i : Z) (recipes : list Recipe) (prefs : CombinationPreferences) :
  map dish_recipe (assignFrom i recipes prefs) = recipes.
Proof.
  revert i. induction recipes as [| r rs IH]; intros i; simpl; [reflexivity |].
  now rewrite IH.
Qed.

(** The dishes are built in the order of preparation, so the sort of
    [assignDishRoles] leaves them in place. *)
Lemma assignFrom_sorted (i : Z) (recipes : list Recipe) (prefs : CombinationPreferences) :
  js_sort (fun a b => preparationOrder a - preparationOrder b)
          (assignFrom i recipes prefs)
  = assignFrom i recipes prefs.
Proof.
  revert i. induction recipes as [| r rs IH]; intros i; [reflexivity |].
  cbn [assignFrom js_sort fold_right].
  change (fold_right (sort_insert (fun a b => preparationOrder a - preparationOrder b))
            [] (assignFrom (i + 1) rs prefs))
    with (js_sort (fun a b => preparationOrder a - preparationOrder b)
                  (assignFrom (i + 1) rs prefs)).
  rewrite IH. destruct rs as [| r' rs']; [reflexivity |].
  cbn [assignFrom sort_insert preparationOrder].
  replace (i + 1 - (i + 1 + 1) <=? 0) with true; [reflexivity |].
  symmetry. apply Z.leb_le. lia.
Qed.

Lemma assignDishRoles_recipes (recipes : list Recipe) (prefs : CombinationPreferences) :
  map dish_recipe (assignDishRoles recipes prefs) = recipes.
Proof.
  unfold assignDishRoles. rewrite assignFrom_sorted. apply assignFrom_recipes.
Qed.

(** The combination that is generated, by the selection it comes from. *)
Lemma generateDishCombination_selection (catalog : list Recipe)
    (request : CombinationRequest) (rnd : source) (k k' : nat) (c : DishCombination) :
  generateDishCombination catalog request rnd k = (Some c, k') ->
  exists avail,
    selectDishes (filterRecipesByPreferences catalog (cr_preferences request))
      (or_default (maxDishes request) 6) (or_default (minDishes request) 3)
      (includeRecipeIds request) (excludeRecipeIds request) rnd k
    = (Some (dish_recipes c, avail), k').
Proof.
  unfold generateDishCombination, selectDishesForCombination, bind, ret.
  destruct (selectDishes _ _ _ _ _ rnd k) as [[[sel avail] |] k1]; [| discriminate].
  intros H. inversion H; subst. exists avail.
  unfold dish_recipes. simpl. now rewrite assignDishRoles_recipes.
Qed.

Lemma generateDishCombination_total (catalog : list Recipe)
    (request : CombinationRequest) (rnd : source) (k : nat) :
  unit_interval rnd ->
  exists c k', generateDishCombination catalog request rnd k = (Some c, k').
Proof.
  intros U. unfold generateDishCombination, selectDishesForCombination, bind, ret.
  destruct (selectDishes_total
              (filterRecipesByPreferences catalog (cr_preferences request))
              (or_default (maxDishes request) 6) (or_default (minDishes request) 3)
              (includeRecipeIds request) (excludeRecipeIds request) rnd k U)
    as [st [k1 E]].
  rewrite E. now do 2 eexists.
Qed.

End Selection.

(** C5 (as amended).  With a random source in the unit interval, a request
    whose minimum is at most its maximum (after the defaults 3 and 6) gets
    a combination.  Its number of dishes is at most the maximum, or the
    number of "must include" recipes found when that is larger; it is at
    least the minimum unless the candidates are exhausted, that is, unless
    every suitable recipe that is not on the "must exclude" list has its
    identifier among the dishes.  No warning goes with a combination below
    the minimum: the response has no such field.  No recipe identifier
    appears twice among the dishes when the identifiers of the catalog are
    unique. *)
Theorem combination_size_and_distinct_dishes
    (catalog : list Recipe) (request : CombinationRequest) (rnd : source) (k : nat) :
  unit_interval rnd ->
  DishCombinationUtils.or_default (minDishes request) 3
  <= DishCombinationUtils.or_default (maxDishes request) 6 ->
  exists c k',
    DishCombinationUtils.generateDishCombination catalog request rnd k = (Some c, k')
    /\ (let suitable :=
          DishCombinationUtils.filterRecipesByPreferences
            catalog (cr_preferences request) in
        let n := Z.of_nat (length (dishes c)) in
        n <= Z.max (DishCombinationUtils.or_default (maxDishes request) 6)
                   (Z.of_nat (length (must_include (includeRecipeIds request) suitable)))
        /\ (DishCombinationUtils.or_default (minDishes request) 3 <= n
            \/ forall r, In r suitable -> ~ excluded (excludeRecipeIds request) r ->
                         In (id r) (map id (dish_recipes c)))
        /\ (NoDup (map id catalog) -> NoDup (map id (dish_recipes c)))).
Proof.
  intros U Hm.
  destruct (generateDishCombination_total catalog request rnd k U) as [c [k' E]].
  exists c, k'. split; [exact E |].
  destruct (generateDishCombination_selection _ _ _ _ _ _ E) as [avail S].
  apply selectDishes_sound in S.
  destruct S as [_ [S2 [S3 [S4 [S5 _]]]]].
  assert (L : Z.of_nat (length (dishes c)) = DishCombinationUtils.len (dish_recipes c)).
  { unfold DishCombinationUtils.len, dish_recipes. now rewrite length_map. }
  cbv zeta. rewrite L. split; [exact (S2 Hm) |]. split.
  - destruct S3 as [S3 | S3]; [now left | right].
    intros r Hr He. destruct (S5 r Hr He) as [H | H]; [| exact H].
    subst avail. destruct H.
  - intros N. apply S4.
    unfold DishCombinationUtils.filterRecipesByPreferences.
    repeat match goal with
           | |- context [match ?x with _ => _ end] => destruct x
           end;
      repeat apply NoDup_map_filter; exact N.
Qed.

Lemma combination_size_and_distinct_dishes_witness :
  unit_interval Samples.zeros
  /\ DishCombinationUtils.or_default (minDishes Samples.plain_request) 3
     <= DishCombinationUtils.or_default (maxDishes Samples.plain_request) 6
  /\ exists c k',
      DishCombinationUtils.generateDishCombination
        Samples.five_recipes Samples.plain_request Samples.zeros 0%nat = (Some c, k')
      /\ (let suitable :=
            DishCombinationUtils.filterRecipesByPreferences
              Samples.five_recipes (cr_preferences Samples.plain_request) in
          let n := Z.of_nat (length (dishes c)) in
          n <= Z.max (DishCombinationUtils.or_default (maxDishes Samples.plain_request) 6)
                     (Z.of_nat (length (must_include
                                          (includeRecipeIds Samples.plain_request)
                                          suitable)))
          /\ (DishCombinationUtils.or_default (minDishes Samples.plain_request) 3 <= n
              \/ forall r, In r suitable ->
                           ~ excluded (excludeRecipeIds Samples.plain_request) r ->
                           In (id r) (map id (dish_recipes c)))
          /\ (NoDup (map id Samples.five_recipes) -> NoDup (map id (dish_recipes c)))).
Proof.
  assert (H : DishCombinationUtils.or_default (minDishes Samples.plain_request) 3
              <= DishCombinationUtils.or_default (maxDishes Samples.plain_request) 6)
    by (vm_compute; discriminate).
  split; [exact zeros_unit_interval |]. split; [exact H |].
  exact (combination_size_and_distinct_dishes
           Samples.five_recipes Samples.plain_request Samples.zeros 0%nat
           zeros_unit_interval H).
Defined.

(** C5 (as stated) fails, on both sides.  With three recipes on the "must
    include" list and a minimum and a maximum of two dishes, the handler
    answers with a success that carries three dishes.  With a catalog of
    one recipe and the default minimum of three, it answers with a success
    that carries one dish.  Neither response carries a warning: a response
    has no such field. *)
Lemma must_include_exceeds_the_maximum :
  (RecommendMealPlan.default
     (RecommendDishCombination.in_minDishes Samples.three_required) 3
   <= RecommendMealPlan.default
        (RecommendDishCombination.in_maxDishes Samples.three_required) 6
   /\ NoDup (map id Samples.five_recipes)
   /\ exists message data k',
       RecommendDishCombination.handleRecommendDishCombination
         Samples.five_recipes Samples.three_required Samples.zeros 0%nat
       = (Success message data, k')
       /\ Z.of_nat (length (dishes (RecommendDishCombination.combination data))) = 3
       /\ ~ (Z.of_nat (length (dishes (RecommendDishCombination.combination data)))
             <= RecommendMealPlan.default
                  (RecommendDishCombination.in_maxDishes Samples.three_required) 6))
  /\ (exists message data k',
         RecommendDishCombination.handleRecommendDishCombination
           [Samples.pork] Samples.any_three_to_six Samples.zeros 0%nat
         = (Success message data, k')
         /\ Z.of_nat (length (dishes (RecommendDishCombination.combination data))) = 1
         /\ ~ (RecommendMealPlan.default
                 (RecommendDishCombination.in_minDishes Samples.any_three_to_six) 3
               <= Z.of_nat (length (dishes (RecommendDishCombination.combination data))))).
Proof.
  split; [split; [vm_compute; discriminate | split] |].
  - vm_compute. repeat constructor; simpl; intuition discriminate.
  - do 3 eexists. split; [vm_compute; reflexivity |].
    split; [reflexivity | vm_compute; intros H; now apply H].
  - do 3 eexists. split; [vm_compute; reflexivity |].
    split; [reflexivity | vm_compute; intros H; now apply H].
Qed.

(* ================================================================== *)
(** * The "must include" list                                           *)
(* ================================================================== *)

(** C8 (as amended).  With a random source in the unit interval a
    combination is generated, and every recipe of the catalog that passes
    the preference filter and whose identifier is on the "must include"
    list is among its dishes, also when the "must exclude" list names
    it. *)
Theorem must_include_recipes_are_dishes
    (catalog : list Recipe) (request : CombinationRequest) (rnd : source) (k : nat) :
  unit_interval rnd ->
  exists c k',
    DishCombinationUtils.generateDishCombination catalog request rnd k = (Some c, k')
    /\ forall r inc,
        includeRecipeIds request = Some inc ->
        In r (DishCombinationUtils.filterRecipesByPreferences
                catalog (cr_preferences request)) ->
        In (id r) inc ->
        In r (dish_recipes c).
Proof.
  intros U.
  destruct (generateDishCombination_total catalog request rnd k U) as [c [k' E]].
  exists c, k'. split; [exact E |].
  destruct (generateDishCombination_selection _ _ _ _ _ _ E) as [avail S].
  apply selectDishes_sound in S. destruct S as [[picks S] _].
  intros r inc Hinc Hr Hid. rewrite S, Hinc. apply in_or_app. left.
  unfold must_include. apply filter_In. split; [exact Hr |].
  now apply arr_includes_In.
Qed.

Lemma must_include_recipes_are_dishes_witness :
  unit_interval Samples.zeros
  /\ excluded (excludeRecipeIds Samples.pork_in_and_out) Samples.pork
  /\ exists c k',
      DishCombinationUtils.generateDishCombination
        Samples.five_recipes Samples.pork_in_and_out Samples.zeros 0%nat = (Some c, k')
      /\ forall r inc,
          includeRecipeIds Samples.pork_in_and_out = Some inc ->
          In r (DishCombinationUtils.filterRecipesByPreferences
                  Samples.five_recipes (cr_preferences Samples.pork_in_and_out)) ->
          In (id r) inc ->
          In r (dish_recipes c).
Proof.
  split; [exact zeros_unit_interval |]. split; [left; reflexivity |].
  exact (must_include_recipes_are_dishes
           Samples.five_recipes Samples.pork_in_and_out Samples.zeros 0%nat
           zeros_unit_interval).
Defined.

(** C8 (as stated) fails: the pork is in the catalog and on the "must
    include" list, the diners are vegetarians, and the combination that is
    generated does not hold the pork. *)
Lemma must_include_yields_to_the_preference_filter :
  In Samples.pork Samples.five_recipes
  /\ includeRecipeIds Samples.pork_for_vegetarians = Some [id Samples.pork]
  /\ exists c k',
      DishCombinationUtils.generateDishCombination
        Samples.five_recipes Samples.pork_for_vegetarians Samples.zeros 0%nat
      = (Some c, k')
      /\ ~ In Samples.pork (dish_recipes c).
Proof.
  split; [left; reflexivity |]. split; [reflexivity |].
  do 2 eexists. split; [vm_compute; reflexivity |].
  vm_compute. intuition discriminate.
Qed.

(* ================================================================== *)
(** * Sorting                                                           *)
(* ================================================================== *)

Section SortFacts.

Context {A : Type}.
Variable cmp : A -> A -> Z.

Lemma sort_insert_perm (x : A) (l : list A) : Permutation (sort_insert cmp x l) (x :: l).
Proof.
  induction l as [| y l IH]; simpl; [reflexivity |].
  destruct (cmp x y <=? 0); [reflexivity |].
  rewrite IH. apply perm_swap.
Qed.

Lemma js_sort_perm (l : list A) : Permutation (js_sort cmp l) l.
Proof.
  induction l as [| x l IH]; simpl; [reflexivity |].
  rewrite sort_insert_perm. now constructor.
Qed.

Lemma sort_insert_sorted (x : A) (l : list A) :
  total_comparison cmp -> Sorted (before cmp) l -> Sorted (before cmp) (sort_insert cmp x l).
Proof.
  intros T S. induction S as [| y l S IH H]; simpl.
  - repeat constructor.
  - destruct (cmp x y <=? 0) eqn:E.
    + constructor; [now constructor |]. constructor. now apply Z.leb_le.
    + constructor; [exact IH |].
      assert (Hyx : before cmp y x).
      { apply Z.leb_gt in E. destruct (T x y) as [H' | H']; [lia | exact H']. }
      destruct l as [| z l]; simpl; [now constructor |].
      destruct (cmp x z <=? 0); constructor; [exact Hyx |].
      now inversion H.
Qed.

Lemma js_sort_sorted (l : list A) :
  total_comparison cmp -> Sorted (before cmp) (js_sort cmp l).
Proof.
  intros T. induction l as [| x l IH]; simpl; [constructor |].
  now apply sort_insert_sorted.
Qed.

End SortFacts.

(** Sorting by a key and listing the keys is listing the keys and sorting
    them. *)
Lemma js_sort_map {A K} (f : A -> K) (kcmp : K -> K -> Z) (l : list A) :
  map f (js_sort (fun a b => kcmp (f a) (f b)) l) = js_sort kcmp (map f l).
Proof.
  induction l as [| x l IH]; simpl; [reflexivity |].
  rewrite <- IH. generalize (js_sort (fun a b => kcmp (f a) (f b)) l) as s.
  induction s as [| y s IHs]; simpl; [reflexivity |].
  destruct (kcmp (f x) (f y) <=? 0); simpl; [reflexivity | now rewrite IHs].
Qed.

Section SortedUnique.

Context {K : Type}.
Variable kcmp : K -> K -> Z.
Hypothesis kcmp_total : total_comparison kcmp.
Hypothesis kcmp_trans : forall a b c, kcmp a b <= 0 -> kcmp b c <= 0 -> kcmp a c <= 0.
Hypothesis kcmp_antisym : forall a b, kcmp a b <= 0 -> kcmp b a <= 0 -> a = b.

Lemma sorted_perm_eq (l1 l2 : list K) :
  StronglySorted (before kcmp) l1 -> StronglySorted (before kcmp) l2 ->
  Permutation l1 l2 -> l1 = l2.
Proof.
  intros S1. revert l2. induction S1 as [| a l1 S1 IH H1]; intros l2 S2 P.
  - apply Permutation_nil in P. now subst.
  - destruct S2 as [| b l2 S2 H2].
    + apply Permutation_sym, Permutation_nil in P. discriminate.
    + assert (E : a = b).
      { assert (Ha : In a (b :: l2)) by (eapply Permutation_in; [exact P | now left]).
        assert (Hb : In b (a :: l1))
          by (eapply Permutation_in; [apply Permutation_sym; exact P | now left]).
        destruct Ha as [Ha | Ha]; [now subst |].
        destruct Hb as [Hb | Hb]; [now subst |].
        rewrite Forall_forall in H1, H2.
        apply kcmp_antisym; [now apply H1 | now apply H2]. }
      subst b. f_equal. apply IH; [exact S2 |].
      now apply Permutation_cons_inv in P.
Qed.

Lemma js_sort_of_permutation (l1 l2 : list K) :
  Permutation l1 l2 -> js_sort kcmp l1 = js_sort kcmp l2.
Proof.
  intros P. apply sorted_perm_eq.
  - apply Sorted_StronglySorted; [| now apply js_sort_sorted].
    intros a b c. apply kcmp_trans.
  - apply Sorted_StronglySorted; [| now apply js_sort_sorted].
    intros a b c. apply kcmp_trans.
  - rewrite !js_sort_perm. exact P.
Qed.

End SortedUnique.

(* ================================================================== *)
(** * Consolidation                                                     *)
(* ================================================================== *)

Section MapFacts.

Context {K V : Type}.
Variable eqb : K -> K -> bool.
Hypothesis eqb_eq : forall a b, eqb a b = true <-> a = b.

Lemma map_get_Some_In (m : list (K * V)) (k : K) (v : V) :
  map_get eqb m k = Some v -> In (k, v) m.
Proof.
  induction m as [| [k' v'] m IH]; simpl; [discriminate |].
  destruct (eqb k k') eqn:E.
  - apply eqb_eq in E. subst. intros H. inversion H. now left.
  - intros H. right. now apply IH.
Qed.

Lemma map_get_None (m : list (K * V)) (k : K) :
  map_get eqb m k = None <-> ~ In k (map fst m).
Proof.
  induction m as [| [k' v'] m IH]; simpl; [tauto |].
  destruct (eqb k k') eqn:E.
  - apply eqb_eq in E. subst. split; [discriminate | tauto].
  - rewrite IH. split; [| tauto].
    intros H [H' | H']; [| tauto]. subst.
    assert (eqb k k = true) by now apply eqb_eq. congruence.
Qed.

Lemma In_map_get (m : list (K * V)) (k : K) (v : V) :
  NoDup (map fst m) -> In (k, v) m -> map_get eqb m k = Some v.
Proof.
  induction m as [| [k' v'] m IH]; simpl; intros N H; [destruct H |].
  inversion N as [| x l Hx Hl]; subst.
  destruct H as [H | H].
  - inversion H; subst. replace (eqb k k) with true; [reflexivity |].
    symmetry. now apply eqb_eq.
  - destruct (eqb k k') eqn:E; [| now apply IH].
    apply eqb_eq in E. subst. exfalso. apply Hx.
    change k' with (fst (k', v)). now apply in_map.
Qed.

(** Setting a known key keeps the keys; setting a new key adds it last. *)
Lemma map_set_keys (m : list (K * V)) (k : K) (v : V) :
  map fst (map_set eqb m k v)
  = if map_has eqb m k then map fst m else map fst m ++ [k].
Proof.
  unfold map_has. induction m as [| [k' v'] m IH]; simpl; [reflexivity |].
  destruct (eqb k k') eqn:E; simpl.
  - apply eqb_eq in E. now subst.
  - rewrite IH. now destruct (map_get eqb m k).
Qed.

Lemma map_set_In (m : list (K * V)) (k : K) (v : V) (e : K * V) :
  In e (map_set eqb m k v) -> e = (k, v) \/ In e m.
Proof.
  induction m as [| [k' v'] m IH]; simpl.
  - intros [H | []]. now left.
  - destruct (eqb k k'); simpl; intros [H | H]; auto.
    destruct (IH H); auto.
Qed.

Lemma map_get_set_other (m : list (K * V)) (k k' : K) (v : V) :
  k' <> k -> map_get eqb (map_set eqb m k v) k' = map_get eqb m k'.
Proof.
  intros Hne.
  assert (F : forall a, eqb k' a = true -> a <> k) by
    (intros a Ha; apply eqb_eq in Ha; congruence).
  induction m as [| [k0 v0] m IH]; simpl.
  - destruct (eqb k' k) eqn:E; [| reflexivity]. apply F in E. congruence.
  - destruct (eqb k k0) eqn:E; simpl.
    + apply eqb_eq in E. subst k0.
      destruct (eqb k' k) eqn:E'; [| reflexivity]. apply F in E'. congruence.
    + destruct (eqb k' k0); [reflexivity | exact IH].
Qed.

Lemma map_get_set_same (m : list (K * V)) (k : K) (v : V) :
  map_get eqb (map_set eqb m k v) k = Some v.
Proof.
  assert (R : eqb k k = true) by now apply eqb_eq.
  induction m as [| [k0 v0] m IH]; simpl; [now rewrite R |].
  destruct (eqb k k0) eqn:E; simpl; [now rewrite R | now rewrite E].
Qed.

Lemma map_set_keys_NoDup (m : list (K * V)) (k : K) (v : V) :
  NoDup (map fst m) -> NoDup (map fst (map_set eqb m k v)).
Proof.
  intros N. rewrite map_set_keys. unfold map_has.
  destruct (map_get eqb m k) eqn:E; [exact N |].
  apply NoDup_snoc; [exact N |]. now apply map_get_None.
Qed.

Lemma map_set_keys_In (m : list (K * V)) (k k' : K) (v : V) :
  In k' (map fst (map_set eqb m k v)) <-> In k' (map fst m) \/ k' = k.
Proof.
  rewrite map_set_keys. unfold map_has.
  destruct (map_get eqb m k) eqn:E.
  - apply map_get_Some_In in E.
    split; [auto |]. intros [H | H]; [exact H |]. subst.
    change k with (fst (k, v0)). now apply in_map.
  - rewrite in_app_iff. simpl. intuition.
Qed.

End MapFacts.

Section Consolidate.

Import ShoppingListUtils.

Variable people : Z.

Lemma addIngredient_inv (recipe : Recipe) (m : list (jsstring * ShoppingItem))
    (ing : Ingredient) :
  Forall entry_ok m -> NoDup (map fst m) ->
  Forall entry_ok (addIngredient people true recipe m ing)
  /\ NoDup (map fst (addIngredient people true recipe m ing))
  /\ forall k, In k (map fst (addIngredient people true recipe m ing))
               <-> In k (map fst m) \/ k = ing_name ing.
Proof.
  intros F N. unfold addIngredient. cbv zeta.
  change (itemKey true recipe ing) with (ing_name ing).
  destruct (map_get str_eqb m (ing_name ing)) as [old |] eqn:E.
  - split; [| split].
    + apply Forall_forall. intros e He.
      apply map_set_In in He. destruct He as [He | He].
      * subst e. apply (map_get_Some_In _ str_eqb_eq) in E.
        rewrite Forall_forall in F. destruct (F _ E) as [F1 F2].
        split; [exact F1 | exact F2].
      * rewrite Forall_forall in F. now apply F.
    + now apply (map_set_keys_NoDup _ str_eqb_eq).
    + intros k. apply (map_set_keys_In _ str_eqb_eq).
  - split; [| split].
    + apply Forall_forall. intros e He.
      apply map_set_In in He. destruct He as [He | He].
      * subst e. split; [reflexivity |]. repeat split.
      * rewrite Forall_forall in F. now apply F.
    + now apply (map_set_keys_NoDup _ str_eqb_eq).
    + intros k. apply (map_set_keys_In _ str_eqb_eq).
Qed.

Lemma addRecipe_inv (recipe : Recipe) (m : list (jsstring * ShoppingItem)) :
  Forall entry_ok m -> NoDup (map fst m) ->
  Forall entry_ok (addRecipe people true m recipe)
  /\ NoDup (map fst (addRecipe people true m recipe))
  /\ forall k, In k (map fst (addRecipe people true m recipe))
               <-> In k (map fst m) \/ In k (map ing_name (ingredients recipe)).
Proof.
  unfold addRecipe. revert m.
  induction (ingredients recipe) as [| ing ings IH]; intros m F N; simpl.
  - split; [exact F |]. split; [exact N |]. intros k. tauto.
  - destruct (addIngredient_inv recipe m ing F N) as [F1 [N1 K1]].
    destruct (IH _ F1 N1) as [F2 [N2 K2]].
    split; [exact F2 |]. split; [exact N2 |].
    intros k. rewrite K2, K1. intuition.
Qed.

Lemma addRecipes_inv (recipes : list Recipe) (m : list (jsstring * ShoppingItem)) :
  Forall entry_ok m -> NoDup (map fst m) ->
  Forall entry_ok (fold_left (addRecipe people true) recipes m)
  /\ NoDup (map fst (fold_left (addRecipe people true) recipes m))
  /\ forall k, In k (map fst (fold_left (addRecipe people true) recipes m))
               <-> In k (map fst m) \/ In k (ingredient_names recipes).
Proof.
  revert m. induction recipes as [| r rs IH]; intros m F N; simpl.
  - split; [exact F |]. split; [exact N |]. intros k. tauto.
  - destruct (addRecipe_inv r m F N) as [F1 [N1 K1]].
    destruct (IH _ F1 N1) as [F2 [N2 K2]].
    split; [exact F2 |]. split; [exact N2 |].
    intros k. rewrite K2, K1, in_app_iff. intuition.
Qed.

(** With consolidation on there is one item for every ingredient name, and
    each item is the one its name gives. *)
Lemma consolidateIngredients_items (recipes : list Recipe) (flag : option bool) :
  flag <> Some false ->
  NoDup (map item_name (consolidateIngredients recipes people flag))
  /\ (forall n, In n (map item_name (consolidateIngredients recipes people flag))
                <-> In n (ingredient_names recipes))
  /\ Forall item_of_its_name (consolidateIngredients recipes people flag).
Proof.
  intros Hflag. unfold consolidateIngredients.
  assert (E : match flag with Some b => b | None => true end = true).
  { destruct flag as [[|] |]; congruence. }
  rewrite E.
  destruct (addRecipes_inv recipes [] (Forall_nil _) (NoDup_nil _)) as [F [N K]].
  set (m := fold_left (addRecipe people true) recipes []) in *.
  assert (Names : map item_name (map_values m) = map fst m).
  { unfold map_values. rewrite map_map. apply map_ext_in.
    intros e He. rewrite Forall_forall in F. now destruct (F e He). }
  rewrite Names. split; [exact N |]. split.
  - intros n. rewrite K. simpl. tauto.
  - unfold map_values. apply Forall_forall. intros it Hit.
    apply in_map_iff in Hit. destruct Hit as [e [He1 He2]]. subst it.
    rewrite Forall_forall in F. now destruct (F e He2).
Qed.

End Consolidate.

Section Grouping.

Import ShoppingListUtils.

Variable localeCompare : jsstring -> jsstring -> Z.

Lemma shopping_category_eqb_eq (a b : ShoppingCategory) :
  shopping_category_eqb a b = true <-> a = b.
Proof. destruct a, b; simpl; split; congruence. Qed.

Lemma pushItem_get (m : list (ShoppingCategory * list ShoppingItem))
    (item : ShoppingItem) (c : ShoppingCategory) :
  map_get shopping_category_eqb (pushItem m item) c
  = if cat_is c item
    then Some (match map_get shopping_category_eqb m c with
               | Some l => l
               | None => []
               end ++ [item])
    else map_get shopping_category_eqb m c.
Proof.
  unfold pushItem, cat_is, map_has.
  destruct (shopping_category_eqb (item_category item) c) eqn:E.
  - apply shopping_category_eqb_eq in E. subst c.
    destruct (map_get shopping_category_eqb m (item_category item)) as [l |] eqn:G;
      simpl.
    + rewrite G. now rewrite (map_get_set_same _ shopping_category_eqb_eq).
    + rewrite (map_get_set_same _ shopping_category_eqb_eq).
      now rewrite (map_get_set_same _ shopping_category_eqb_eq).
  - assert (Hne : c <> item_category item).
    { intros H. subst c.
      assert (shopping_category_eqb (item_category item) (item_category item) = true)
        by now apply shopping_category_eqb_eq.
      congruence. }
    destruct (map_get shopping_category_eqb m (item_category item)) as [l |] eqn:G;
      simpl.
    + rewrite G. now rewrite (map_get_set_other _ shopping_category_eqb_eq).
    + rewrite (map_get_set_same _ shopping_category_eqb_eq).
      rewrite !(map_get_set_other _ shopping_category_eqb_eq) by exact Hne.
      reflexivity.
Qed.

Lemma pushItem_keys (m : list (ShoppingCategory * list ShoppingItem))
    (item : ShoppingItem) :
  NoDup (map fst m) ->
  NoDup (map fst (pushItem m item))
  /\ forall c, In c (map fst (pushItem m item))
               <-> In c (map fst m) \/ c = item_category item.
Proof.
  intros N. unfold pushItem, map_has.
  destruct (map_get shopping_category_eqb m (item_category item)) as [l |] eqn:G;
    simpl.
  - rewrite G. split.
    + now apply (map_set_keys_NoDup _ shopping_category_eqb_eq).
    + intros c. apply (map_set_keys_In _ shopping_category_eqb_eq).
  - rewrite (map_get_set_same _ shopping_category_eqb_eq). split.
    + now do 2 apply (map_set_keys_NoDup _ shopping_category_eqb_eq).
    + intros c. rewrite !(map_set_keys_In _ shopping_category_eqb_eq). tauto.
Qed.

(** The map of [groupItemsByCategory]: under every category that occurs,
    the items of that category in their order. *)
Lemma pushItems_spec (its : list ShoppingItem) :
  forall m : list (ShoppingCategory * list ShoppingItem),
    NoDup (map fst m) ->
    NoDup (map fst (fold_left pushItem its m))
    /\ (forall c, In c (map fst (fold_left pushItem its m))
                  <-> In c (map fst m) \/ In c (map item_category its))
    /\ (forall c,
           map_get shopping_category_eqb (fold_left pushItem its m) c
           = match map_get shopping_category_eqb m c, filter (cat_is c) its with
             | Some l, l' => Some (l ++ l')
             | None, [] => None
             | None, l' => Some l'
             end).
Proof.
  induction its as [| item its IH]; intros m N; simpl.
  - split; [exact N |]. split; [intros c; tauto |].
    intros c. destruct (map_get _ m c); [now rewrite app_nil_r | reflexivity].
  - destruct (pushItem_keys m item N) as [N1 K1].
    destruct (IH _ N1) as [N2 [K2 G2]].
    split; [exact N2 |]. split.
    + intros c. rewrite K2, K1. intuition.
    + intros c. rewrite G2, pushItem_get.
      destruct (cat_is c item).
      * destruct (map_get _ m c) as [l |]; simpl; rewrite <- ?app_assoc; reflexivity.
      * reflexivity.
Qed.

Lemma makeSection_category (e : ShoppingCategory * list ShoppingItem) :
  sec_category (makeSection localeCompare e) = fst e.
Proof. now destruct e. Qed.

(** The sections: one for every category that an item has, in the order
    of [categoryOrder]; each holds the items of its category, sorted by
    name. *)
Lemma groupItemsByCategory_spec (its : list ShoppingItem) :
  exists cats : list ShoppingCategory,
    NoDup cats
    /\ (forall c, In c cats <-> In c (map item_category its))
    /\ map sec_category (groupItemsByCategory localeCompare its)
       = js_sort byCategoryOrder cats
    /\ forall s, In s (groupItemsByCategory localeCompare its) ->
                 s = makeSection localeCompare
                       (sec_category s, filter (cat_is (sec_category s)) its).
Proof.
  destruct (pushItems_spec its [] (NoDup_nil _)) as [N [K G]].
  set (m := fold_left pushItem its []) in *.
  exists (map fst m). split; [exact N |]. split; [| split].
  - intros c. rewrite K. simpl. tauto.
  - unfold groupItemsByCategory. fold m.
    rewrite (js_sort_map sec_category byCategoryOrder).
    rewrite map_map. f_equal. apply map_ext. apply makeSection_category.
  - intros s Hs. unfold groupItemsByCategory in Hs. fold m in Hs.
    eapply Permutation_in in Hs; [| apply js_sort_perm].
    apply in_map_iff in Hs. destruct Hs as [[c l] [E He]]. subst s.
    rewrite makeSection_category. simpl fst.
    apply (In_map_get shopping_category_eqb shopping_category_eqb_eq _ _ _ N) in He.
    rewrite G in He. simpl in He.
    destruct (filter (cat_is c) its); inversion He; reflexivity.
Qed.

End Grouping.

Section PermutedRecipes.

Import ShoppingListUtils.

Variable localeCompare : jsstring -> jsstring -> Z.

Lemma byCategoryOrder_total : total_comparison byCategoryOrder.
Proof. intros a b. unfold byCategoryOrder. lia. Qed.

Lemma byCategoryOrder_trans (a b c : ShoppingCategory) :
  byCategoryOrder a b <= 0 -> byCategoryOrder b c <= 0 -> byCategoryOrder a c <= 0.
Proof. unfold byCategoryOrder. lia. Qed.

Lemma byCategoryOrder_antisym (a b : ShoppingCategory) :
  byCategoryOrder a b <= 0 -> byCategoryOrder b a <= 0 -> a = b.
Proof.
  unfold byCategoryOrder. intros H1 H2.
  assert (E : indexOf categoryOrder a = indexOf categoryOrder b) by lia.
  clear H1 H2. destruct a, b; try reflexivity; vm_compute in E; discriminate E.
Qed.

Lemma ingredient_names_permuted (recipes1 recipes2 : list Recipe) (n : jsstring) :
  Permutation recipes1 recipes2 ->
  In n (ingredient_names recipes1) <-> In n (ingredient_names recipes2).
Proof.
  intros P. unfold ingredient_names.
  split; apply Permutation_in; apply Permutation_flat_map;
    [exact P | apply Permutation_sym; exact P].
Qed.

Lemma names_of_category (its : list ShoppingItem) (c : ShoppingCategory) (n : jsstring) :
  Forall item_of_its_name its ->
  In n (map item_name (filter (cat_is c) its))
  <-> In n (map item_name its) /\ categorizeIngredient n = c.
Proof.
  intros F. rewrite Forall_forall in F. rewrite !in_map_iff. split.
  - intros [it [E H]]. apply filter_In in H. destruct H as [H1 H2].
    unfold cat_is in H2. apply shopping_category_eqb_eq in H2.
    destruct (F it H1) as [Hc _]. subst n. split; [now exists it | congruence].
  - intros [[it [E H]] Hc]. exists it. split; [exact E |].
    apply filter_In. split; [exact H |].
    unfold cat_is. apply shopping_category_eqb_eq.
    destruct (F it H) as [Hc' _]. congruence.
Qed.

Lemma categories_of_items (its : list ShoppingItem) (c : ShoppingCategory) :
  Forall item_of_its_name its ->
  In c (map item_category its)
  <-> exists n, In n (map item_name its) /\ categorizeIngredient n = c.
Proof.
  intros F. rewrite Forall_forall in F. rewrite in_map_iff. split.
  - intros [it [E H]]. exists (item_name it). split; [now apply in_map |].
    destruct (F it H) as [Hc _]. congruence.
  - intros [n [Hn Hc]]. apply in_map_iff in Hn. destruct Hn as [it [E H]].
    exists it. split; [| exact H]. destruct (F it H) as [Hc' _]. congruence.
Qed.

Lemma section_total (c : ShoppingCategory) (its : list ShoppingItem) :
  Forall item_of_its_name its ->
  sec_totalEstimatedCost (makeSection localeCompare (c, filter (cat_is c) its))
  = price_or_zero (estimatePrice [] c) * Z.of_nat (length (filter (cat_is c) its)).
Proof.
  intros F. simpl.
  rewrite (fold_left_sum (fun item => price_or_zero (estimatedPrice item))).
  rewrite Forall_forall in F.
  assert (G : forall it, In it (filter (cat_is c) its) ->
                         price_or_zero (estimatedPrice it)
                         = price_or_zero (estimatePrice [] c)).
  { intros it H. apply filter_In in H. destruct H as [H1 H2].
    unfold cat_is in H2. apply shopping_category_eqb_eq in H2.
    destruct (F it H1) as [_ [Hp _]]. rewrite Hp, H2. reflexivity. }
  induction (filter (cat_is c) its) as [| it l IH]; [simpl; lia |].
  cbn [map fold_right length]. rewrite (G it) by now left.
  assert (IH' : 0 + fold_right Z.add 0
                       (map (fun item => price_or_zero (estimatedPrice item)) l)
                = price_or_zero (estimatePrice [] c) * Z.of_nat (length l)).
  { apply IH. intros it' H'. apply G. now right. }
  lia.
Qed.

Lemma same_items_same_section (items1 items2 : list ShoppingItem)
    (c : ShoppingCategory) :
  same_items items1 items2 ->
  same_section (makeSection localeCompare (c, filter (cat_is c) items1))
               (makeSection localeCompare (c, filter (cat_is c) items2)).
Proof.
  intros [N1 [N2 [S [F1 F2]]]].
  assert (P : Permutation (map item_name (filter (cat_is c) items1))
                          (map item_name (filter (cat_is c) items2))).
  { apply NoDup_Permutation; try now apply NoDup_map_filter.
    intros n. rewrite !names_of_category by assumption. now rewrite S. }
  assert (L : length (filter (cat_is c) items1) = length (filter (cat_is c) items2)).
  { apply Permutation_length in P. now rewrite !length_map in P. }
  unfold same_section. split; [reflexivity |]. split; [| split].
  - intros n. cbn [makeSection items].
    split; intros H.
    + eapply Permutation_in; [apply Permutation_map, Permutation_sym, js_sort_perm |].
      eapply Permutation_in; [exact P |].
      eapply Permutation_in; [apply Permutation_map, js_sort_perm | exact H].
    + eapply Permutation_in; [apply Permutation_map, Permutation_sym, js_sort_perm |].
      eapply Permutation_in; [apply Permutation_sym; exact P |].
      eapply Permutation_in; [apply Permutation_map, js_sort_perm | exact H].
  - cbn [makeSection items].
    rewrite !(Permutation_length (js_sort_perm _ _)). exact L.
  - rewrite !section_total by assumption. now rewrite L.
Qed.

Lemma Forall2_by_key {A K} (f : A -> K) (R : A -> A -> Prop) (l1 l2 : list A) :
  map f l1 = map f l2 ->
  (forall a b, In a l1 -> In b l2 -> f a = f b -> R a b) ->
  Forall2 R l1 l2.
Proof.
  revert l2. induction l1 as [| a l1 IH]; intros [| b l2] E H;
    try discriminate; constructor.
  - inversion E. apply H; simpl; auto.
  - inversion E. apply IH; [assumption |]. intros x y Hx Hy. apply H; simpl; auto.
Qed.

Lemma Forall2_filter {A} (R : A -> A -> Prop) (p : A -> bool) (l1 l2 : list A) :
  (forall a b, R a b -> p a = p b) ->
  Forall2 R l1 l2 -> Forall2 R (filter p l1) (filter p l2).
Proof.
  intros Hp F. induction F as [| a b l1 l2 Hab F IH]; simpl; [constructor |].
  rewrite (Hp a b Hab). destruct (p b); [now constructor | exact IH].
Qed.

(** The sections of two lists of the same items are the same sections, in
    the same order. *)
Lemma same_items_same_sections (items1 items2 : list ShoppingItem) :
  same_items items1 items2 ->
  Forall2 same_section (groupItemsByCategory localeCompare items1)
                       (groupItemsByCategory localeCompare items2).
Proof.
  intros SI. pose proof SI as [N1 [N2 [S [F1 F2]]]].
  destruct (groupItemsByCategory_spec localeCompare items1) as [c1 [D1 [K1 [M1 G1]]]].
  destruct (groupItemsByCategory_spec localeCompare items2) as [c2 [D2 [K2 [M2 G2]]]].
  assert (P : Permutation c1 c2).
  { apply NoDup_Permutation; [exact D1 | exact D2 |].
    intros c. rewrite K1, K2, !categories_of_items by assumption.
    split; intros [n [Hn Hc]]; exists n; split; auto; now apply S. }
  apply (Forall2_by_key sec_category).
  - rewrite M1, M2.
    apply (js_sort_of_permutation byCategoryOrder byCategoryOrder_total
             byCategoryOrder_trans byCategoryOrder_antisym). exact P.
  - intros a b Ha Hb E. rewrite (G1 a Ha), (G2 b Hb), E.
    now apply same_items_same_section.
Qed.

Lemma consolidated_same_items (people : Z) (flag : option bool)
    (recipes1 recipes2 : list Recipe) :
  flag <> Some false -> Permutation recipes1 recipes2 ->
  same_items (consolidateIngredients recipes1 people flag)
             (consolidateIngredients recipes2 people flag).
Proof.
  intros Hf P.
  destruct (consolidateIngredients_items people recipes1 flag Hf) as [N1 [K1 F1]].
  destruct (consolidateIngredients_items people recipes2 flag Hf) as [N2 [K2 F2]].
  repeat split; try assumption.
  - intros H. apply K2. apply (ingredient_names_permuted recipes1 recipes2 n P).
    now apply K1.
  - intros H. apply K1. apply (ingredient_names_permuted recipes1 recipes2 n P).
    now apply K2.
Qed.

End PermutedRecipes.

Lemma fold_left_related {A} (R : A -> A -> Prop) (g : A -> Z) (l1 l2 : list A) :
  (forall a b, R a b -> g a = g b) -> Forall2 R l1 l2 ->
  forall acc, fold_left (fun sum s => sum + g s) l1 acc
              = fold_left (fun sum s => sum + g s) l2 acc.
Proof.
  intros Hg F. induction F as [| a b l1 l2 Hab F IH]; intros acc; simpl;
    [reflexivity |].
  rewrite (Hg a b Hab). apply IH.
Qed.

Lemma combineQuantities_comm (q1 q2 n1 n2 u : jsstring) :
  NumericAmount q1 n1 u -> NumericAmount q2 n2 u ->
  ShoppingListUtils.combineQuantities q1 q2 = ShoppingListUtils.combineQuantities q2 q1.
Proof.
  intros H1 H2.
  rewrite (combineQuantities_same_unit q1 q2 n1 n2 u H1 H2).
  rewrite (combineQuantities_same_unit q2 q1 n2 n1 u H2 H1).
  now rewrite Double_add_comm.
Qed.

Section Quantities.

Import ShoppingListUtils.

Variable people : Z.

Lemma extend_app (q0 : option jsstring) (cs cs' : list jsstring) :
  extend q0 (cs ++ cs') = extend (extend q0 cs) cs'.
Proof.
  revert q0. induction cs as [| c cs IH]; intros q0; simpl; [reflexivity |].
  apply IH.
Qed.

Lemma addIngredient_quantity (recipe : Recipe) (m : list (jsstring * ShoppingItem))
    (ing : Ingredient) (n : jsstring) :
  option_map quantity (map_get str_eqb (addIngredient people true recipe m ing) n)
  = if str_eqb (ing_name ing) n
    then extend (option_map quantity (map_get str_eqb m n))
                [scaleIngredientAmount
                   (amount ing)
                   (Double.div (Double.of_Z people) (Double.of_Z (servings recipe)))]
    else option_map quantity (map_get str_eqb m n).
Proof.
  unfold addIngredient. cbv zeta.
  change (itemKey true recipe ing) with (ing_name ing).
  destruct (str_eqb (ing_name ing) n) eqn:E.
  - apply str_eqb_eq in E. subst n.
    destruct (map_get str_eqb m (ing_name ing)) as [old |];
      rewrite (map_get_set_same _ str_eqb_eq); reflexivity.
  - apply str_eqb_neq in E.
    destruct (map_get str_eqb m (ing_name ing)) as [old |];
      rewrite (map_get_set_other _ str_eqb_eq) by congruence; reflexivity.
Qed.

Lemma addRecipe_quantity (recipe : Recipe) (m : list (jsstring * ShoppingItem))
    (n : jsstring) :
  option_map quantity (map_get str_eqb (addRecipe people true m recipe) n)
  = extend (option_map quantity (map_get str_eqb m n))
           (contributions people [recipe] n).
Proof.
  unfold addRecipe, contributions. simpl. rewrite app_nil_r. revert m.
  induction (ingredients recipe) as [| ing ings IH]; intros m; simpl; [reflexivity |].
  rewrite IH, addIngredient_quantity.
  destruct (str_eqb (ing_name ing) n); reflexivity.
Qed.

Lemma addRecipes_quantity (recipes : list Recipe) (m : list (jsstring * ShoppingItem))
    (n : jsstring) :
  option_map quantity
    (map_get str_eqb (fold_left (addRecipe people true) recipes m) n)
  = extend (option_map quantity (map_get str_eqb m n))
           (contributions people recipes n).
Proof.
  revert m. induction recipes as [| r rs IH]; intros m; [reflexivity |].
  cbn [fold_left]. rewrite IH, addRecipe_quantity, <- extend_app.
  f_equal. unfold contributions. simpl. now rewrite app_nil_r.
Qed.

Lemma consolidateIngredients_quantities (recipes : list Recipe) (flag : option bool) :
  flag <> Some false ->
  Forall (quantity_in_order people recipes)
         (consolidateIngredients recipes people flag).
Proof.
  intros Hflag. unfold consolidateIngredients.
  assert (E : match flag with Some b => b | None => true end = true).
  { destruct flag as [[|] |]; congruence. }
  rewrite E.
  destruct (addRecipes_inv people recipes [] (Forall_nil _) (NoDup_nil _))
    as [F [N _]].
  apply Forall_forall. intros it Hit. unfold map_values in Hit.
  apply in_map_iff in Hit. destruct Hit as [[k v] [Ev He]]. simpl in Ev. subst v.
  rewrite Forall_forall in F. destruct (F _ He) as [Hk _]. simpl in Hk.
  unfold quantity_in_order.
  pose proof (addRecipes_quantity recipes [] (item_name it)) as Q.
  cbn [map_get option_map] in Q. rewrite <- Q.
  apply (In_map_get str_eqb str_eqb_eq _ _ _ N) in He.
  rewrite Hk, He. reflexivity.
Qed.

Lemma contributions_permuted (recipes1 recipes2 : list Recipe) (n : jsstring) :
  Permutation recipes1 recipes2 ->
  Permutation (contributions people recipes1 n) (contributions people recipes2 n).
Proof. intros P. unfold contributions. now apply Permutation_flat_map. Qed.

(** One amount, or two numbers with one unit text: the order of the
    recipes does not show in the quantity. *)
Lemma quantity_of_one_or_two (recipes1 recipes2 : list Recipe) (it1 it2 : ShoppingItem) :
  Permutation recipes1 recipes2 ->
  item_name it1 = item_name it2 ->
  quantity_in_order people recipes1 it1 ->
  quantity_in_order people recipes2 it2 ->
  (exists q, contributions people recipes1 (item_name it1) = [q])
  \/ (exists q1 q2 n1 n2 u,
         contributions people recipes1 (item_name it1) = [q1; q2]
         /\ NumericAmount q1 n1 u /\ NumericAmount q2 n2 u) ->
  quantity it1 = quantity it2.
Proof.
  intros P En Q1 Q2 H. unfold quantity_in_order in Q1, Q2. rewrite <- En in Q2.
  pose proof (contributions_permuted recipes1 recipes2 (item_name it1) P) as PC.
  destruct H as [[q E] | [q1 [q2 [n1 [n2 [u [E [H1 H2]]]]]]]]; rewrite E in Q1, PC.
  - apply Permutation_length_1_inv in PC. rewrite PC in Q2. simpl in Q1, Q2.
    congruence.
  - apply Permutation_length_2_inv in PC. destruct PC as [PC | PC];
      rewrite PC in Q2; simpl in Q1, Q2; [congruence |].
    rewrite (combineQuantities_comm q2 q1 n2 n1 u H2 H1) in Q2. congruence.
Qed.

End Quantities.

Lemma StronglySorted_filter {A} (R : A -> A -> Prop) (p : A -> bool) (l : list A) :
  StronglySorted R l -> StronglySorted R (filter p l).
Proof.
  intros S. induction S as [| a l S IH H]; simpl; [constructor |].
  destruct (p a); [| exact IH]. constructor; [exact IH |].
  rewrite Forall_forall in *. intros x Hx. apply filter_In in Hx. now apply H.
Qed.


Lemma flatCollation_total : total_comparison Samples.flatCollation.
Proof. intros a b. left. discriminate. Qed.



(* ================================================================== *)
(** * The embedding on the scenarios of the specification               *)
(* ================================================================== *)

Example scale_doubles_grams :
  RecipeUtils.scaleIngredientAmount (js "200g")
    (Double.div (Double.of_Z 4) (Double.of_Z 2)) = js "400g".
Proof. vm_compute. reflexivity. Qed.

Example scale_keeps_two_decimals :
  RecipeUtils.scaleIngredientAmount (js "10 g")
    (Double.div (Double.of_Z 1) (Double.of_Z 3)) = js "3.33g".
Proof. vm_compute. reflexivity. Qed.

Example scale_leaves_qualifier :
  Forall (fun a => RecipeUtils.scaleIngredientAmount a
                     (Double.div (Double.of_Z 4) (Double.of_Z 2)) = a)
         RecipeUtils.specialCases.
Proof. repeat constructor. Qed.

Example scale_leaves_two_lines :
  RecipeUtils.scaleIngredientAmount [50; 32; 97; 10; 98]%N
    (Double.div (Double.of_Z 4) (Double.of_Z 2))
  = [50; 32; 97; 10; 98]%N.
Proof. vm_compute. reflexivity. Qed.

(** A zero serving count: what is scaled by 4/0 reads [Infinity], what is
    scaled by 0/0 reads [NaN]. *)
Example scale_for_no_servings :
  RecipeUtils.scaleIngredientAmount (js "200g")
    (Double.div (Double.of_Z 4) (Double.of_Z 0)) = js "Infinityg"
  /\ RecipeUtils.scaleIngredientAmount (js "200g")
       (Double.div (Double.of_Z 0) (Double.of_Z 0)) = js "NaNg".
Proof. split; vm_compute; reflexivity. Qed.

(** Three recipes for 2, 2 and 4 servings bring rice as "200g", "100g" and
    "2 cups"; for four people the one item "rice" reads "600g + 2cups". *)
Example rice_for_four :
  map (fun it => (item_name it, quantity it, recipeIds it))
      (ShoppingListUtils.consolidateIngredients
         [Samples.pork; Samples.greens; Samples.broth] 4 (Some true))
  = [(js "rice", js "600g + 2cups", [js "pork"; js "greens"; js "broth"])].
Proof. vm_compute. reflexivity. Qed.

Example rice_not_consolidated :
  map (fun it => (item_name it, quantity it))
      (ShoppingListUtils.consolidateIngredients
         [Samples.pork; Samples.greens; Samples.broth] 4 (Some false))
  = [(js "rice", js "400g"); (js "rice", js "200g"); (js "rice", js "2cups")].
Proof. vm_compute. reflexivity. Qed.

Example ninety_minutes :
  parseTimeInMinutes (js "1" ++ hours_word ++ js "30" ++ minutes_word) = 90.
Proof. reflexivity. Qed.

Example no_unit_no_minutes : parseTimeInMinutes (js "45") = 0.
Proof. reflexivity. Qed.

(** A potato is a vegetable before it is a staple. *)
Example potato_is_a_vegetable :
  ShoppingListUtils.categorizeIngredient [0x571F; 0x8C46]%N = Vegetables.
Proof. reflexivity. Qed.

(** One dish of each category of the priority list, in its order. *)
Example five_recipes_five_dishes :
  exists c,
    DishCombinationUtils.generateDishCombination
      Samples.five_recipes Samples.plain_request Samples.zeros 0%nat = (Some c, 5%nat)
    /\ map id (dish_recipes c)
       = [js "pork"; js "greens"; js "broth"; js "noodles"; js "carp"].
Proof. eexists. split; vm_compute; reflexivity. Qed.

(* ================================================================== *)
(** * Durations: printing and reading back                              *)
(* ================================================================== *)

Lemma digits_value_from (s : jsstring) (acc : Z) :
  fold_left digit_step s acc
  = acc * 10 ^ Z.of_nat (length s) + fold_left digit_step s 0.
Proof.
  revert acc. induction s as [| c s IH]; intros acc.
  - simpl. lia.
  - cbn [fold_left length]. rewrite IH. rewrite (IH (digit_step 0 c)).
    rewrite Nat2Z.inj_succ, Z.pow_succ_r by lia. unfold digit_step. ring.
Qed.

Lemma uint_chars_digits (u : Decimal.uint) : forallb isDigit (uint_chars u) = true.
Proof. induction u; simpl; auto. Qed.

Lemma of_uint_acc_value (u : Decimal.uint) (acc : positive) :
  Z.pos (Pos.of_uint_acc u acc) = fold_left digit_step (uint_chars u) (Z.pos acc).
Proof.
  revert acc. induction u; intros acc; cbn [Pos.of_uint_acc uint_chars fold_left];
    [reflexivity | rewrite IHu; f_equal; unfold digit_step; lia ..].
Qed.

Lemma of_uint_value (u : Decimal.uint) :
  Z.of_N (Pos.of_uint u) = fold_left digit_step (uint_chars u) 0.
Proof.
  induction u; cbn [Pos.of_uint uint_chars fold_left];
    [reflexivity | exact IHu | cbn [Z.of_N]; rewrite of_uint_acc_value; reflexivity ..].
Qed.

Lemma nat_digits_value (z : Z) : 0 <= z -> digits_value (nat_digits z) = z.
Proof.
  intros Hz. unfold digits_value, nat_digits.
  change (fun acc c => 10 * acc + (Z.of_N c - 48)) with digit_step.
  rewrite <- of_uint_value.
  change (Pos.of_uint (N.to_uint (Z.to_N z))) with (N.of_uint (N.to_uint (Z.to_N z))).
  rewrite DecimalN.Unsigned.of_to. lia.
Qed.

Lemma nat_digits_nonempty (z : Z) : nat_digits z <> [].
Proof.
  unfold nat_digits. destruct (Z.to_N z) as [| p]; [discriminate |].
  cbn [N.to_uint]. intros H.
  apply (DecimalPos.Unsigned.to_uint_nonnil p).
  destruct (Pos.to_uint p); [reflexivity | discriminate H ..].
Qed.

Lemma nat_digits_is_digits (z : Z) : is_digits (nat_digits z).
Proof. split; [apply nat_digits_nonempty | apply uint_chars_digits]. Qed.

(** A whole number prints as its sign and its decimal digits. *)
Lemma number_digits (z : Z) :
  0 <= z -> RecommendMealPlan.number z = nat_digits z.
Proof.
  intros Hz. unfold RecommendMealPlan.number, Number_toString.
  assert (E : Qfloor (Qabs (inject_Z z) * 100) = z * 100).
  { unfold Qabs, inject_Z, Qmult, Qfloor. simpl.
    rewrite Z.abs_eq by lia. rewrite Z.div_1_r. reflexivity. }
  rewrite E. rewrite Z.div_mul by lia. rewrite Z.mod_mul by lia. simpl.
  destruct (Qlt_le_dec (inject_Z z) 0) as [H | H].
  - exfalso. change 0%Q with (inject_Z 0) in H. rewrite <- Zlt_Qlt in H. lia.
  - now rewrite app_nil_r.
Qed.

Lemma startsWith_app (p r : jsstring) : startsWith (p ++ r) p = true.
Proof.
  induction p as [| c p IH]; simpl; [now destruct r |]. now rewrite N.eqb_refl.
Qed.

Lemma match_digits_before_cons (suffix s : jsstring) (c : char16) :
  match_digits_before suffix (c :: s)
  = let (d, r) := span isDigit (c :: s) in
    if truthy d && startsWith r suffix then Some d
    else match_digits_before suffix s.
Proof. reflexivity. Qed.

(** The leftmost match of a digit run in front of [suffix]. *)
Lemma match_digits_here (suffix d rest : jsstring) :
  is_digits d -> starts_with isDigit suffix = false -> suffix <> [] ->
  match_digits_before suffix (d ++ suffix ++ rest) = Some d.
Proof.
  intros [Hne Hd] Hs Hsuf.
  assert (Hr : starts_with isDigit (suffix ++ rest) = false)
    by (destruct suffix; [congruence | exact Hs]).
  destruct d as [| c d]; [congruence |].
  change ((c :: d) ++ suffix ++ rest) with (c :: (d ++ suffix ++ rest)).
  rewrite match_digits_before_cons.
  change (c :: (d ++ suffix ++ rest)) with ((c :: d) ++ suffix ++ rest).
  rewrite (span_digits _ _ Hd Hr). simpl truthy. now rewrite startsWith_app.
Qed.

Lemma match_digits_skip_char (suffix s : jsstring) (c : char16) :
  isDigit c = false ->
  match_digits_before suffix (c :: s) = match_digits_before suffix s.
Proof. intros Hc. rewrite match_digits_before_cons. cbn [span]. now rewrite Hc. Qed.

Lemma match_digits_skip_run (suffix d r : jsstring) :
  forallb isDigit d = true -> starts_with isDigit r = false ->
  startsWith r suffix = false ->
  match_digits_before suffix (d ++ r) = match_digits_before suffix r.
Proof.
  intros Hd Hr Hs. induction d as [| c d IH]; [reflexivity |].
  pose proof Hd as Hd'. cbn [forallb] in Hd'. apply andb_prop in Hd'.
  destruct Hd' as [_ Hd'].
  change ((c :: d) ++ r) with (c :: (d ++ r)).
  rewrite match_digits_before_cons.
  change (c :: (d ++ r)) with ((c :: d) ++ r).
  rewrite (span_digits _ _ Hd Hr). rewrite Hs, andb_false_r. now apply IH.
Qed.

Lemma parseInt_digits (d : jsstring) :
  forallb isDigit d = true -> parseInt d = digits_value d.
Proof.
  intros Hd. unfold parseInt.
  pose proof (span_digits d [] Hd eq_refl) as E. rewrite app_nil_r in E.
  now rewrite E.
Qed.

Lemma parseTime_minutes_only (d : jsstring) :
  is_digits d ->
  parseTimeInMinutes (d ++ minutes_word) = digits_value d.
Proof.
  intros D. pose proof D as [Hne Hd]. unfold parseTimeInMinutes.
  rewrite (match_digits_skip_run hours_word d minutes_word Hd eq_refl eq_refl).
  change (match_digits_before hours_word minutes_word) with (@None jsstring).
  pose proof (match_digits_here minutes_word d [] D eq_refl) as M.
  rewrite app_nil_r in M. rewrite M by discriminate.
  destruct d as [| c d]; [congruence |]. simpl truthy. cbv iota zeta.
  rewrite parseInt_digits by exact Hd. lia.
Qed.

Lemma parseTime_hours_only (d : jsstring) :
  is_digits d ->
  parseTimeInMinutes (d ++ hours_word) = digits_value d * 60.
Proof.
  intros D. pose proof D as [Hne Hd]. unfold parseTimeInMinutes.
  rewrite (match_digits_skip_run minutes_word d hours_word Hd eq_refl eq_refl).
  change (match_digits_before minutes_word hours_word) with (@None jsstring).
  pose proof (match_digits_here hours_word d [] D eq_refl) as M.
  rewrite app_nil_r in M. rewrite M by discriminate.
  destruct d as [| c d]; [congruence |]. simpl truthy. cbv iota zeta.
  rewrite parseInt_digits by exact Hd. lia.
Qed.

Lemma parseTime_hours_minutes (h m : jsstring) :
  is_digits h -> is_digits m ->
  parseTimeInMinutes (h ++ hours_word ++ m ++ minutes_word)
  = digits_value h * 60 + digits_value m.
Proof.
  intros H M. pose proof H as [Hne Hh]. pose proof M as [Mne Hm].
  unfold parseTimeInMinutes.
  rewrite (match_digits_here hours_word h (m ++ minutes_word) H eq_refl)
    by discriminate.
  rewrite (match_digits_skip_run minutes_word h (hours_word ++ m ++ minutes_word)
             Hh eq_refl eq_refl).
  change (hours_word ++ m ++ minutes_word)
    with (0x5C0F%N :: 0x65F6%N :: m ++ minutes_word).
  rewrite !match_digits_skip_char by reflexivity.
  pose proof (match_digits_here minutes_word m [] M eq_refl) as E.
  rewrite app_nil_r in E. rewrite E by discriminate.
  destruct h as [| c h]; [congruence |]. destruct m as [| c' m]; [congruence |].
  simpl truthy. cbv iota zeta.
  rewrite !parseInt_digits by assumption. lia.
Qed.

(** Reading back what [formatTimeFromMinutes] printed. *)
Lemma parse_format (minutes : Z) :
  0 <= minutes ->
  parseTimeInMinutes (TimeText.formatTimeFromMinutes minutes) = minutes.
Proof.
  intros Hm. unfold TimeText.formatTimeFromMinutes.
  destruct (minutes <? 60) eqn:E60.
  - rewrite number_digits by exact Hm.
    rewrite parseTime_minutes_only by apply nat_digits_is_digits.
    now apply nat_digits_value.
  - apply Z.ltb_ge in E60. cbv zeta.
    rewrite Z.rem_mod_nonneg by lia.
    assert (Hh : 0 <= minutes / 60) by (apply Z.div_pos; lia).
    assert (Hr : 0 <= minutes mod 60 < 60) by (apply Z.mod_pos_bound; lia).
    pose proof (Z.div_mod minutes 60 ltac:(lia)) as DM.
    destruct (minutes mod 60 =? 0) eqn:Er.
    + apply Z.eqb_eq in Er. rewrite number_digits by exact Hh.
      rewrite parseTime_hours_only by apply nat_digits_is_digits.
      rewrite nat_digits_value by exact Hh. lia.
    + rewrite !number_digits by lia.
      rewrite parseTime_hours_minutes by apply nat_digits_is_digits.
      rewrite !nat_digits_value by lia. lia.
Qed.

Lemma digits_value_nonneg (d : jsstring) :
  forallb isDigit d = true -> 0 <= digits_value d.
Proof.
  unfold digits_value. change (fun acc c => 10 * acc + (Z.of_N c - 48)) with digit_step.
  assert (G : forall acc, 0 <= acc -> forallb isDigit d = true ->
                          0 <= fold_left digit_step d acc).
  { induction d as [| c d IH]; intros acc Ha Hd; [exact Ha |].
    cbn [forallb] in Hd. apply andb_prop in Hd. destruct Hd as [Hc Hd].
    cbn [fold_left]. apply IH; [| exact Hd].
    unfold isDigit in Hc. apply andb_prop in Hc. destruct Hc as [H1 H2].
    apply N.leb_le in H1. unfold digit_step. lia. }
  apply G. lia.
Qed.

Lemma parseInt_nonneg (s : jsstring) : 0 <= parseInt s.
Proof.
  unfold parseInt. destruct (span isDigit s) as [d r] eqn:E.
  apply span_sound in E. destruct E as [_ [Hd _]]. simpl.
  now apply digits_value_nonneg.
Qed.

Lemma parseTimeInMinutes_nonneg (timeStr : jsstring) : 0 <= parseTimeInMinutes timeStr.
Proof.
  unfold parseTimeInMinutes.
  destruct (match_digits_before hours_word timeStr) as [h |];
    destruct (match_digits_before minutes_word timeStr) as [m |]; cbv zeta;
    repeat match goal with |- context [truthy ?x] => destruct (truthy x) end;
    try pose proof (parseInt_nonneg h); try pose proof (parseInt_nonneg m); lia.
Qed.

(** X1.  A whole, non-negative number of minutes that
    [formatTimeFromMinutes] prints is the number that [parseTimeInMinutes]
    reads back: under an hour it is printed as minutes, a whole number of
    hours as hours, and anything else as hours followed by minutes. *)
Theorem formatted_minutes_parse_back (minutes : Z) :
  0 <= minutes ->
  parseTimeInMinutes (TimeText.formatTimeFromMinutes minutes) = minutes.
Proof. exact (parse_format minutes). Qed.

Lemma formatted_minutes_parse_back_witness :
  0 <= 135
  /\ TimeText.formatTimeFromMinutes 135
     = js "2" ++ hours_word ++ js "15" ++ minutes_word
  /\ parseTimeInMinutes (TimeText.formatTimeFromMinutes 135) = 135.
Proof.
  split; [lia |]. split; [vm_compute; reflexivity |].
  apply (formatted_minutes_parse_back 135). lia.
Defined.

(** X2.  The total time that [calculateTotalTime] prints reads back as the
    sum of the minutes read from the preparation and the cooking time,
    whatever the two strings are. *)
Theorem calculateTotalTime_parses_to_the_sum (prep cook : jsstring) :
  parseTimeInMinutes (TimeText.calculateTotalTime prep cook)
  = parseTimeInMinutes prep + parseTimeInMinutes cook.
Proof.
  unfold TimeText.calculateTotalTime. cbv zeta. apply parse_format.
  pose proof (parseTimeInMinutes_nonneg prep).
  pose proof (parseTimeInMinutes_nonneg cook). lia.
Qed.

Lemma starts_includes (r suffix : jsstring) :
  startsWith r suffix = true -> includes r suffix = true.
Proof. intros H. destruct r; cbn [includes]; rewrite H; reflexivity. Qed.

Lemma includes_cons (c : char16) (s sub : jsstring) :
  includes (c :: s) sub = startsWith (c :: s) sub || includes s sub.
Proof. reflexivity. Qed.

Lemma includes_app_r (d r suffix : jsstring) :
  includes r suffix = true -> includes (d ++ r) suffix = true.
Proof.
  intros H. induction d as [| c d IH]; [exact H |].
  change ((c :: d) ++ r) with (c :: (d ++ r)).
  rewrite includes_cons, IH. apply orb_true_r.
Qed.

Lemma match_digits_includes (suffix s d : jsstring) :
  match_digits_before suffix s = Some d -> includes s suffix = true.
Proof.
  induction s as [| c s IH]; [discriminate |].
  rewrite match_digits_before_cons.
  destruct (span isDigit (c :: s)) as [d' r] eqn:E.
  destruct (truthy d' && startsWith r suffix) eqn:T.
  - intros _. apply andb_prop in T. destruct T as [_ T].
    apply span_sound in E. destruct E as [E _]. rewrite E.
    apply includes_app_r. now apply starts_includes.
  - intros H. rewrite includes_cons, (IH H). apply orb_true_r.
Qed.

(** X3.  A duration that names neither unit reads as zero minutes: a bare
    number, or a time in another notation, counts for nothing. *)
Theorem time_without_unit_is_zero (timeStr : jsstring) :
  includes timeStr hours_word = false ->
  includes timeStr minutes_word = false ->
  parseTimeInMinutes timeStr = 0.
Proof.
  intros Hh Hm. unfold parseTimeInMinutes.
  destruct (match_digits_before hours_word timeStr) as [h |] eqn:Eh.
  { apply match_digits_includes in Eh. congruence. }
  destruct (match_digits_before minutes_word timeStr) as [m |] eqn:Em.
  { apply match_digits_includes in Em. congruence. }
  reflexivity.
Qed.

Lemma time_without_unit_is_zero_witness :
  includes (js "45 min") hours_word = false
  /\ includes (js "45 min") minutes_word = false
  /\ parseTimeInMinutes (js "45 min") = 0.
Proof.
  split; [reflexivity |]. split; [reflexivity |].
  apply (time_without_unit_is_zero (js "45 min")); reflexivity.
Defined.

(* ================================================================== *)
(** * The summary fields of a combination                               *)
(* ================================================================== *)

Section Summary.

Import DishCombinationUtils CombinationSummary.

Lemma fold_left_add_sum {A} (f : A -> Z) (l : list A) (acc : Z) :
  fold_left (fun sum x => sum + f x) l acc = acc + sum_of f l.
Proof.
  unfold sum_of. revert acc. induction l as [| x l IH]; intros acc; simpl; [lia |].
  rewrite IH. lia.
Qed.

Lemma sum_of_nonneg {A} (f : A -> Z) (l : list A) :
  (forall x, 0 <= f x) -> 0 <= sum_of f l.
Proof.
  intros H. unfold sum_of. induction l as [| x l IH]; simpl; [lia |].
  specialize (H x). lia.
Qed.

Lemma sum_of_bounds {A} (f : A -> Z) (l : list A) (lo hi : Z) :
  (forall x, In x l -> lo <= f x <= hi) ->
  lo * Z.of_nat (length l) <= sum_of f l <= hi * Z.of_nat (length l).
Proof.
  unfold sum_of. induction l as [| x l IH]; intros H.
  - simpl. lia.
  - cbn [map fold_right length]. rewrite Nat2Z.inj_succ.
    assert (Hx : lo <= f x <= hi) by (apply H; now left).
    assert (Hl : forall y, In y l -> lo <= f y <= hi) by (intros y Hy; apply H; now right).
    specialize (IH Hl). lia.
Qed.

Lemma sum_of_member {A} (f : A -> Z) (l : list A) (x : A) :
  (forall y, 0 <= f y) -> In x l -> f x <= sum_of f l.
Proof.
  intros Hf. unfold sum_of. induction l as [| y l IH]; intros H; [destruct H |].
  cbn [map fold_right]. destruct H as [H | H].
  - subst y. pose proof (sum_of_nonneg f l Hf). unfold sum_of in *. lia.
  - specialize (IH H). specialize (Hf y). lia.
Qed.

Lemma fold_left_max_spec (xs : list Z) (x : Z) :
  x <= fold_left Z.max xs x
  /\ (forall y, In y xs -> y <= fold_left Z.max xs x)
  /\ (fold_left Z.max xs x = x \/ In (fold_left Z.max xs x) xs).
Proof.
  revert x. induction xs as [| a xs IH]; intros x; simpl.
  - split; [lia |]. split; [intros y [] | now left].
  - destruct (IH (Z.max x a)) as [H1 [H2 H3]].
    split; [lia |]. split.
    + intros y [Hy | Hy]; [subst; lia | now apply H2].
    + destruct H3 as [H3 | H3]; [| now right; right].
      rewrite H3. destruct (Z.max_spec x a) as [[_ E] | [_ E]]; rewrite E; auto.
Qed.

Lemma Math_round_whole (z : Z) : Math_round (inject_Z z) = z.
Proof.
  assert (E : Math_round (inject_Z z) = (z * 2 + 1) / 2) by reflexivity.
  rewrite E. replace (z * 2 + 1) with (1 + z * 2) by lia.
  rewrite Z.div_add by lia. reflexivity.
Qed.

Lemma Math_round_three_fifths (t : Z) :
  Math_round (inject_Z t * (6 # 10)) = (6 * t + 5) / 10.
Proof.
  assert (E : Math_round (inject_Z t * (6 # 10)) = (t * 6 * 2 + 10) / 20)
    by reflexivity.
  rewrite E. replace (t * 6 * 2 + 10) with ((6 * t + 5) * 2) by lia.
  change 20 with (10 * 2). rewrite Z.div_mul_cancel_r by lia. reflexivity.
Qed.

Lemma Math_round_mono (x y : Q) : (x <= y)%Q -> Math_round x <= Math_round y.
Proof.
  intros H. unfold Math_round. apply Qfloor_resp_le.
  now apply Qplus_le_l.
Qed.

(** X4.  The total preparation time of a combination reads back as the sum
    of the minutes read from the preparation times of its dishes. *)
Theorem calculateTotalPrepTime_is_the_sum (dishes : list RecommendedDish) :
  parseTimeInMinutes (calculateTotalPrepTime dishes) = sum_of prepMinutes dishes.
Proof.
  unfold calculateTotalPrepTime. cbv zeta.
  rewrite (fold_left_add_sum prepMinutes). rewrite Z.add_0_l.
  apply parse_format. apply sum_of_nonneg.
  intros d. apply parseTimeInMinutes_nonneg.
Qed.

Lemma fold_left_add_map {A} (f : A -> Z) (l : list A) (acc : Z) :
  fold_left (fun sum time => sum + time) (map f l) acc = acc + sum_of f l.
Proof.
  unfold sum_of. revert acc. induction l as [| x l IH]; intros acc; simpl; [lia |].
  rewrite IH. lia.
Qed.

Lemma three_fifths_le (t : Z) : 0 <= t -> (inject_Z t * (6 # 10) <= inject_Z t)%Q.
Proof. intros H. unfold Qle, Qmult, inject_Z. simpl. lia. Qed.

(** X5.  The cooking time that [calculateTotalCookTime] prints reads back
    as an estimate that is at least the longest cooking time of a dish, at
    least 60% of the sum of the cooking times (to the nearest minute), and
    at most that sum. *)
Theorem calculateTotalCookTime_bounds (dishes : list RecommendedDish) :
  let estimate := parseTimeInMinutes (calculateTotalCookTime dishes) in
  let total := sum_of cookMinutes dishes in
  (forall d, In d dishes -> cookMinutes d <= estimate)
  /\ 6 * total - 5 <= 10 * estimate
  /\ estimate <= total.
Proof.
  cbv zeta. unfold calculateTotalCookTime. cbv zeta.
  change (fun dish : RecommendedDish => parseTimeInMinutes (cookTime (dish_recipe dish)))
    with cookMinutes.
  rewrite fold_left_add_map, Z.add_0_l.
  set (T := sum_of cookMinutes dishes).
  assert (Hf : forall d, 0 <= cookMinutes d)
    by (intros d; apply parseTimeInMinutes_nonneg).
  assert (HT : 0 <= T) by (apply sum_of_nonneg; exact Hf).
  pose proof (Math_round_three_fifths T) as R.
  destruct dishes as [| d0 ds].
  - cbn [map Math_max_of]. rewrite parse_format; rewrite R; [| apply Z.div_pos; lia].
    split; [intros d [] |]. change T with 0. split; [vm_compute; discriminate |].
    vm_compute; discriminate.
  - cbn [map Math_max_of].
    set (m := fold_left Z.max (map cookMinutes ds) (cookMinutes d0)).
    destruct (fold_left_max_spec (map cookMinutes ds) (cookMinutes d0))
      as [M1 [M2 M3]]. fold m in M1, M2, M3.
    assert (Mm : forall d, In d (d0 :: ds) -> cookMinutes d <= m).
    { intros d [H | H]; [subst; exact M1 |]. apply M2. now apply in_map. }
    assert (MT : m <= T).
    { destruct M3 as [M3 | M3].
      - rewrite M3. apply sum_of_member; [exact Hf | now left].
      - apply in_map_iff in M3. destruct M3 as [d [E Hd]]. rewrite <- E.
        apply sum_of_member; [exact Hf | now right]. }
    set (e := Math_round (Qmax (inject_Z m) (inject_Z T * (6 # 10)))).
    assert (E1 : m <= e).
    { rewrite <- (Math_round_whole m). apply Math_round_mono. apply Q.le_max_l. }
    assert (E2 : (6 * T + 5) / 10 <= e).
    { rewrite <- R. apply Math_round_mono. apply Q.le_max_r. }
    assert (E3 : e <= T).
    { rewrite <- (Math_round_whole T). apply Math_round_mono.
      apply Q.max_lub; [rewrite <- Zle_Qle; exact MT | now apply three_fifths_le]. }
    assert (M0 : 0 <= m) by (specialize (Hf d0); lia).
    rewrite parse_format by lia.
    split; [intros d Hd; specialize (Mm d Hd); lia |].
    split; [| exact E3].
    pose proof (Z.div_mod (6 * T + 5) 10 ltac:(lia)).
    pose proof (Z.mod_pos_bound (6 * T + 5) 10 ltac:(lia)). lia.
Qed.

Lemma Qle_bool_average (total n a : Z) (b : positive) :
  0 < n ->
  Qle_bool (inject_Z total / inject_Z n) (a # b) = (total * Z.pos b <=? a * n).
Proof.
  intros Hn. apply Bool.eq_iff_eq_true. rewrite Qle_bool_iff, Z.leb_le.
  destruct n as [| p | p]; try lia.
  unfold Qle, Qdiv, Qmult, Qinv, inject_Z. simpl.
  rewrite !Z.mul_1_r. reflexivity.
Qed.

(** X6.  The overall difficulty of a combination with at least one dish
    lies between its easiest and its hardest dish.  (Without a dish the
    average is not a number and the answer is the hardest level.) *)
Theorem calculateOverallDifficulty_between
    (dishes : list RecommendedDish) (easiest hardest : DifficultyLevel) :
  dishes <> [] ->
  (forall d, In d dishes ->
             no_harder easiest (difficulty (dish_recipe d))
             /\ no_harder (difficulty (dish_recipe d)) hardest) ->
  no_harder easiest (calculateOverallDifficulty dishes)
  /\ no_harder (calculateOverallDifficulty dishes) hardest.
Proof.
  intros Hne H. unfold no_harder in *.
  pose proof (sum_of_bounds
                (fun d => difficultyScores (difficulty (dish_recipe d)))
                dishes (difficultyScores easiest) (difficultyScores hardest) H) as B.
  unfold calculateOverallDifficulty.
  destruct dishes as [| d0 ds]; [congruence |].
  cbv zeta. rewrite fold_left_add_sum, Z.add_0_l.
  set (S := sum_of _ (d0 :: ds)) in *.
  assert (Hn : 0 < len (d0 :: ds)) by (unfold len; simpl length; lia).
  rewrite !Qle_bool_average by exact Hn.
  unfold len in *. set (n := Z.of_nat (length (d0 :: ds))) in *.
  destruct (S * 10 <=? 13 * n) eqn:E1; [apply Z.leb_le in E1 | apply Z.leb_gt in E1].
  - destruct easiest, hardest; simpl in *; lia.
  - destruct (S * 10 <=? 23 * n) eqn:E2; [apply Z.leb_le in E2 | apply Z.leb_gt in E2];
      destruct easiest, hardest; simpl in *; lia.
Qed.

Lemma calculateOverallDifficulty_between_witness :
  dishes Samples.pork_and_greens <> []
  /\ (forall d, In d (dishes Samples.pork_and_greens) ->
                no_harder Easy (difficulty (dish_recipe d))
                /\ no_harder (difficulty (dish_recipe d)) Easy)
  /\ no_harder Easy (calculateOverallDifficulty (dishes Samples.pork_and_greens))
  /\ no_harder (calculateOverallDifficulty (dishes Samples.pork_and_greens)) Easy.
Proof.
  assert (H : forall d, In d (dishes Samples.pork_and_greens) ->
                        no_harder Easy (difficulty (dish_recipe d))
                        /\ no_harder (difficulty (dish_recipe d)) Easy).
  { intros d [E | [E | []]]; subst d; split; vm_compute; discriminate. }
  split; [discriminate |]. split; [exact H |].
  apply (calculateOverallDifficulty_between (dishes Samples.pork_and_greens) Easy Easy);
    [discriminate | exact H].
Defined.

(** X7.  The cost estimate of a combination is a printed range
    [low-high].  Its first number is never below the lower end of the
    range of the budget level (the middle level when none is given) and
    its second number never above the upper end.  The first number stays
    within the range of the budget exactly when the estimate for the
    number of dishes (the lower end, and 10 more for every dish beyond
    three) does not pass the upper end; the second number stays within it
    exactly when there is a dish; and the two numbers are in order exactly
    when both hold.  Without a dish, or with many dishes, the printed
    range is inverted and one of its ends lies outside the budget. *)
Theorem estimateCombinationCost_range (dishes : list RecommendedDish)
    (budgetLevel : option BudgetLevel) :
  let n := len dishes in
  let cheapest := fst (costRanges budgetLevel) in
  let dearest := snd (costRanges budgetLevel) in
  exists low high,
    estimateCombinationCost dishes budgetLevel = printRange low high
    /\ cheapest <= low /\ high <= dearest
    /\ (low <= dearest <-> cheapest + (n - 3) * 10 <= dearest)
    /\ (cheapest <= high <-> 1 <= n)
    /\ (low <= high <-> 1 <= n /\ cheapest + (n - 3) * 10 <= dearest)
    /\ (n <= 3 -> low = cheapest /\ high = cheapest + (n - 1) * 10)
    /\ (3 <= n -> cheapest + (n - 1) * 10 <= dearest ->
        low = cheapest + (n - 3) * 10 /\ high = cheapest + (n - 1) * 10).
Proof.
  cbv zeta. unfold estimateCombinationCost.
  destruct (costRanges budgetLevel) as [lo hi] eqn:E. cbv zeta. simpl fst. simpl snd.
  do 2 eexists. split; [reflexivity |].
  assert (lo + 20 <= hi) by (destruct budgetLevel as [[| |] |]; inversion E; lia).
  lia.
Qed.

End Summary.

(* ================================================================== *)
(** * The preference filter of the combinations                         *)
(* ================================================================== *)

Section CombinationFilter.

Import MealPlanUtils DishCombinationUtils.

Lemma category_eqb_eq (a b : RecipeCategory) : category_eqb a b = true <-> a = b.
Proof. destruct a, b; simpl; split; congruence. Qed.

Lemma category_eqb_neq (a b : RecipeCategory) : category_eqb a b = false <-> a <> b.
Proof. destruct a, b; simpl; split; congruence. Qed.

Lemma existsb_false {A} (f : A -> bool) (l : list A) :
  existsb f l = false <-> forall x, In x l -> f x = false.
Proof.
  induction l as [| y l IH]; simpl; [tauto |].
  rewrite orb_false_iff, IH. split.
  - intros [H1 H2] x [E | Hx]; [now subst | now apply H2].
  - intros H. split; [apply H; now left | intros x Hx; apply H; now right].
Qed.

Lemma has_nuts_false (r : Recipe) :
  existsb (fun ing => includes (ing_name ing) peanut
                      || includes (ing_name ing) walnut
                      || includes (ing_name ing) almond) (ingredients r) = false
  <-> nut_free r.
Proof.
  rewrite existsb_false. unfold nut_free. split; intros H ing Hi.
  - specialize (H ing Hi). rewrite !orb_false_iff in H. tauto.
  - rewrite !orb_false_iff. specialize (H ing Hi). tauto.
Qed.

Lemma violates_none (r : Recipe) (rs : list jsstring) :
  existsb (violates r) rs = false
  <-> (In vegetarian_only rs -> category r <> MeatDish)
      /\ (In no_seafood rs -> category r <> Seafood)
      /\ (In no_nuts rs -> nut_free r).
Proof.
  rewrite existsb_false. split.
  - intros H. split; [| split]; intros Hin; specialize (H _ Hin);
      unfold violates in H; simpl str_eqb in H.
    + apply category_eqb_neq. now destruct (category_eqb (category r) MeatDish).
    + apply category_eqb_neq. destruct (category_eqb (category r) MeatDish);
        now destruct (category_eqb (category r) Seafood).
    + apply has_nuts_false.
      destruct (category_eqb (category r) MeatDish);
        destruct (category_eqb (category r) Seafood);
        now destruct (existsb _ (ingredients r)).
  - intros [H1 [H2 H3]] x Hx. unfold violates.
    destruct (str_eqb x vegetarian_only) eqn:E1.
    + apply str_eqb_eq in E1. subst x.
      apply H1, category_eqb_neq in Hx. rewrite Hx. reflexivity.
    + destruct (str_eqb x no_seafood) eqn:E2.
      * apply str_eqb_eq in E2. subst x.
        apply H2, category_eqb_neq in Hx. rewrite Hx. reflexivity.
      * destruct (str_eqb x no_nuts) eqn:E3; [| reflexivity].
        apply str_eqb_eq in E3. subst x.
        apply H3, has_nuts_false in Hx. rewrite Hx. reflexivity.
Qed.

Lemma skill_allows (skill : SkillLevel) (r : Recipe) :
  existsb (difficulty_eqb (difficulty r)) (skillMap skill) = true
  <-> within_skill (Some skill) r.
Proof.
  unfold within_skill.
  destruct skill; destruct (difficulty r); simpl; split; intros H;
    try congruence; try exact I; try reflexivity.
Qed.

Lemma diet_stage (rs0 : option (list jsstring)) (l : list Recipe) (r : Recipe) :
  In r match rs0 with
       | Some restrictions =>
         if nonempty restrictions
         then filter (fun recipe => negb (existsb (violates recipe) restrictions)) l
         else l
       | None => l
       end
  <-> In r l /\ forall rs, rs0 = Some rs -> existsb (violates r) rs = false.
Proof.
  destruct rs0 as [[| x rs] |]; simpl nonempty; cbv iota;
    rewrite ?filter_In, ?negb_true_iff.
  - split; [intros H; split; [exact H |] | tauto].
    intros rs E. inversion E. reflexivity.
  - split; [intros [H1 H2]; split; [exact H1 |] | intros [H1 H2]; auto].
    intros rs' E. inversion E; subst. exact H2.
  - split; [intros H; split; [exact H | discriminate] | tauto].
Qed.

Lemma skill_stage (s0 : option SkillLevel) (l : list Recipe) (r : Recipe) :
  In r match s0 with
       | Some skill =>
         filter (fun recipe => existsb (difficulty_eqb (difficulty recipe))
                                       (skillMap skill)) l
       | None => l
       end
  <-> In r l /\ within_skill s0 r.
Proof.
  destruct s0 as [skill |]; [| simpl; tauto].
  rewrite filter_In, skill_allows. reflexivity.
Qed.

Lemma time_stage (t0 : option jsstring) (l : list Recipe) (r : Recipe) :
  In r match t0 with
       | Some limit =>
         if truthy limit then
           filter (fun recipe =>
                     parseTimeInMinutes (prepTime recipe)
                     + parseTimeInMinutes (cookTime recipe)
                     <=? parseTimeInMinutes limit) l
         else l
       | None => l
       end
  <-> In r l
      /\ forall limit, t0 = Some limit -> limit <> [] ->
           parseTimeInMinutes (prepTime r) + parseTimeInMinutes (cookTime r)
           <= parseTimeInMinutes limit.
Proof.
  destruct t0 as [[| c limit] |]; simpl truthy; cbv iota;
    rewrite ?filter_In, ?Z.leb_le.
  - split; [intros H; split; [exact H |] | tauto].
    intros l' E Hne. inversion E; subst. congruence.
  - split; [intros [H1 H2]; split; [exact H1 |] | intros [H1 H2]].
    + intros l' E _. inversion E; subst. exact H2.
    + split; [exact H1 |]. apply H2; [reflexivity | discriminate].
  - split; [intros H; split; [exact H | discriminate] | tauto].
Qed.

(** The filter keeps the recipes that are acceptable, and only those. *)
Lemma filter_acceptable (recipes : list Recipe) (p : CombinationPreferences) (r : Recipe) :
  In r (filterRecipesByPreferences recipes p) <-> In r recipes /\ acceptable p r.
Proof.
  unfold filterRecipesByPreferences. cbv zeta.
  rewrite time_stage, skill_stage, diet_stage.
  unfold acceptable, restricted. split.
  - intros [[[Hr Hd] Hs] Ht]. split; [exact Hr |].
    split; [| split; [| split; [| split]]]; try assumption.
    + intros [rs [E Hi]]. specialize (Hd rs E). apply violates_none in Hd. tauto.
    + intros [rs [E Hi]]. specialize (Hd rs E). apply violates_none in Hd. tauto.
    + intros [rs [E Hi]]. specialize (Hd rs E). apply violates_none in Hd. tauto.
  - intros [Hr [A1 [A2 [A3 [A4 A5]]]]].
    split; [split; [split; [exact Hr |] | exact A4] | exact A5].
    intros rs E. apply violates_none.
    split; [| split]; intros Hi; [apply A1 | apply A2 | apply A3]; eauto.
Qed.

Lemma filter_filter {A} (f g : A -> bool) (l : list A) :
  filter f (filter g l) = filter (fun x => g x && f x) l.
Proof.
  induction l as [| x l IH]; simpl; [reflexivity |].
  destruct (g x); simpl; [destruct (f x) |]; now rewrite IH.
Qed.

Lemma filter_all {A} (l : list A) : filter (fun _ => true) l = l.
Proof. induction l as [| x l IH]; simpl; [reflexivity | now rewrite IH]. Qed.

(** X8.  The preference filter of the combinations judges every recipe on
    its own: it keeps, in the order of the catalog, exactly the recipes
    that are acceptable, whatever the other recipes are.  A recipe is
    acceptable when it is no meat dish for vegetarians, no seafood dish
    when seafood is ruled out, has no peanut, walnut or almond among its
    ingredients when nuts are ruled out, is within the skill level, and
    has a preparation and cooking time within the limit. *)
Theorem combination_filter_keeps_the_acceptable (p : CombinationPreferences) :
  exists keep : Recipe -> bool,
    (forall r, keep r = true <-> acceptable p r)
    /\ forall recipes, filterRecipesByPreferences recipes p = filter keep recipes.
Proof.
  set (kd := match cp_dietaryRestrictions p with
             | Some rs => if nonempty rs
                          then fun r => negb (existsb (violates r) rs)
                          else fun _ => true
             | None => fun _ => true
             end).
  set (ks := match skillLevel p with
             | Some skill =>
               fun r => existsb (difficulty_eqb (difficulty r)) (skillMap skill)
             | None => fun _ => true
             end).
  set (kt := match cookingTime p with
             | Some limit =>
               if truthy limit
               then fun r => parseTimeInMinutes (prepTime r)
                             + parseTimeInMinutes (cookTime r)
                             <=? parseTimeInMinutes limit
               else fun _ => true
             | None => fun _ => true
             end).
  assert (E : forall recipes,
             filterRecipesByPreferences recipes p
             = filter (fun r => (kd r && ks r) && kt r) recipes).
  { intros recipes. rewrite <- !filter_filter.
    unfold filterRecipesByPreferences, kd, ks, kt. cbv zeta.
    destruct (cp_dietaryRestrictions p) as [rs |]; [destruct (nonempty rs) |];
      (destruct (skillLevel p) as [skill |]);
      (destruct (cookingTime p) as [limit |]; [destruct (truthy limit) |]);
      rewrite ?filter_all; reflexivity. }
  exists (fun r => (kd r && ks r) && kt r). split; [| exact E].
  intros r. pose proof (filter_acceptable [r] p r) as F. rewrite E in F.
  cbn [filter] in F.
  destruct ((kd r && ks r) && kt r).
  - split; [intros _ | reflexivity]. apply F. now left.
  - split; [discriminate |]. intros H.
    assert (G : In r []) by (apply F; split; [now left | exact H]). destruct G.
Qed.

End CombinationFilter.

(* ================================================================== *)
(** * The dishes of a combination and the request                       *)
(* ================================================================== *)

Section DishesOfTheRequest.

Import MealPlanUtils DishCombinationUtils.

Lemma initialSelection_available (recipes : list Recipe)
    (inc ex : option (list jsstring)) (r : Recipe) :
  In r (snd (initialSelection recipes inc ex)) -> ~ excluded ex r.
Proof.
  unfold initialSelection, excluded.
  assert (A : In r match ex with
                   | Some e =>
                     if nonempty e
                     then filter (fun recipe => negb (arr_includes e (id recipe))) recipes
                     else recipes
                   | None => recipes
                   end -> ~ match ex with Some e => In (id r) e | None => False end).
  { destruct ex as [[| x e] |]; simpl nonempty; cbv iota; [tauto | | tauto].
    rewrite filter_In, negb_true_iff. intros [_ H] Hi.
    apply arr_includes_In in Hi. congruence. }
  destruct inc as [[| i inc] |]; simpl nonempty; cbv iota zeta; simpl snd;
    [exact A | | exact A].
  rewrite filter_In. intros [H _]. now apply A.
Qed.

(** A selected recipe is one of the "must include" recipes, or it was
    picked among the recipes that the "must exclude" list leaves. *)
Lemma selectDishes_pool (recipes : list Recipe) (mx mn : Z)
    (inc ex : option (list jsstring)) (rnd : source) (k k' : nat)
    (sel avail : list Recipe) :
  selectDishes recipes mx mn inc ex rnd k = (Some (sel, avail), k') ->
  forall r, In r sel ->
            In r (must_include inc recipes) \/ (In r recipes /\ ~ excluded ex r).
Proof.
  unfold selectDishes.
  pose proof (initialSelection_spec recipes inc ex) as I. cbv zeta in I.
  pose proof (initialSelection_available recipes inc ex) as Av.
  destruct (initialSelection recipes inc ex) as [sel0 avail1]. simpl in I, Av.
  destruct I as [I1 [_ [_ [_ [I5 _]]]]].
  unfold bind at 1.
  destruct (categoryLoop mx categoryPriority _ rnd k) as [[[[sel1 used1] avail2] |] k1]
    eqn:Ec; [| discriminate].
  intros Ef. apply categoryLoop_picks in Ec. apply fillLoop_picks in Ef.
  destruct (Picks_covers _ _ _ Ec) as [_ [_ C1]].
  destruct (Picks_covers _ _ _ Ef) as [_ [_ C2]]. simpl in C1, C2.
  assert (P1 : incl sel1 (sel0 ++ avail1) /\ incl avail2 (sel0 ++ avail1)).
  { split.
    - apply C1; [apply incl_appl, incl_refl | apply incl_appr, incl_refl].
    - clear - Ec. 
      assert (G : forall B a b, Picks B a b -> incl (snd b) (snd a)).
      { intros B a b H. induction H as [st | s a0 x st' _ _ _ IH]; [apply incl_refl |].
        simpl in *. intros y Hy. apply IH in Hy. apply remove_id_In in Hy. tauto. }
      apply G in Ec. simpl in Ec. now apply incl_appr. }
  destruct P1 as [P1 P2].
  intros r Hr. apply (C2 (sel0 ++ avail1) P1 P2) in Hr.
  apply in_app_or in Hr. destruct Hr as [Hr | Hr].
  - left. rewrite <- I1. exact Hr.
  - right. split; [now apply I5 | now apply Av].
Qed.

(** X9.  With a random source in the unit interval a combination is
    generated, and every one of its dishes is a recipe of the catalog that
    is acceptable to the preferences of the request (restrictions, skill
    and time limit), the "must include" recipes too.  A recipe named by
    the "must exclude" list is among the dishes only when the "must
    include" list names it as well. *)
Theorem dishes_respect_the_request
    (catalog : list Recipe) (request : CombinationRequest) (rnd : source) (k : nat) :
  unit_interval rnd ->
  exists c k',
    generateDishCombination catalog request rnd k = (Some c, k')
    /\ forall r, In r (dish_recipes c) ->
         In r catalog
         /\ acceptable (cr_preferences request) r
         /\ (excluded (excludeRecipeIds request) r ->
             exists inc, includeRecipeIds request = Some inc /\ In (id r) inc).
Proof.
  intros U.
  destruct (generateDishCombination_total catalog request rnd k U) as [c [k' E]].
  exists c, k'. split; [exact E |].
  destruct (generateDishCombination_selection _ _ _ _ _ _ E) as [avail S].
  pose proof (selectDishes_sound _ _ _ _ _ _ _ _ _ _ S) as [_ [_ [_ [_ [_ Hin]]]]].
  pose proof (selectDishes_pool _ _ _ _ _ _ _ _ _ _ S) as Hp.
  intros r Hr. pose proof (Hin r Hr) as Ha. apply filter_acceptable in Ha.
  destruct Ha as [Ha1 Ha2]. split; [exact Ha1 |]. split; [exact Ha2 |].
  intros He. destruct (Hp r Hr) as [H | [_ H]]; [| contradiction].
  unfold must_include in H. destruct (includeRecipeIds request) as [inc |]; [| destruct H].
  exists inc. split; [reflexivity |].
  apply filter_In in H. destruct H as [_ H]. now apply arr_includes_In.
Qed.

Lemma dishes_respect_the_request_witness :
  unit_interval Samples.zeros
  /\ exists c k',
      generateDishCombination Samples.five_recipes Samples.pork_in_and_out
                              Samples.zeros 0%nat = (Some c, k')
      /\ forall r, In r (dish_recipes c) ->
           In r Samples.five_recipes
           /\ acceptable (cr_preferences Samples.pork_in_and_out) r
           /\ (excluded (excludeRecipeIds Samples.pork_in_and_out) r ->
               exists inc, includeRecipeIds Samples.pork_in_and_out = Some inc
                           /\ In (id r) inc).
Proof.
  split; [exact zeros_unit_interval |].
  apply (dishes_respect_the_request Samples.five_recipes Samples.pork_in_and_out
           Samples.zeros 0%nat).
  exact zeros_unit_interval.
Defined.

End DishesOfTheRequest.

(* ================================================================== *)
(** * The preference filter of the meal plans                           *)
(* ================================================================== *)

Section PlanFilter.

Import MealPlanUtils.

Lemma filter_steps (recipes : list Recipe) (p : MealPlanPreferences) :
  filterRecipesByPreferences recipes p
  = skillStep p (preferenceStep p (exclusionStep p (restrictionStep p recipes))).
Proof. reflexivity. Qed.

Lemma restriction_eqb_eq (a b : DietaryRestriction) :
  restriction_eqb a b = true <-> a = b.
Proof. destruct a, b; simpl; split; congruence. Qed.

Lemma has_restriction (x : DietaryRestriction) (rs : list DietaryRestriction) :
  existsb (restriction_eqb x) rs = true <-> In x rs.
Proof.
  rewrite existsb_exists. split.
  - intros [y [Hy E]]. apply restriction_eqb_eq in E. now subst.
  - intros H. exists x. split; [exact H | now apply restriction_eqb_eq].
Qed.

Lemma restriction_test (rs : list DietaryRestriction) (r : Recipe) :
  (if existsb (restriction_eqb VegetarianOnly) rs
      && category_eqb (category r) MeatDish then false
   else if existsb (restriction_eqb NoSeafood) rs
           && category_eqb (category r) Seafood then false
   else true) = true
  <-> (In VegetarianOnly rs -> category r <> MeatDish)
      /\ (In NoSeafood rs -> category r <> Seafood).
Proof.
  rewrite <- !has_restriction, <- !category_eqb_neq.
  destruct (existsb (restriction_eqb VegetarianOnly) rs);
    destruct (existsb (restriction_eqb NoSeafood) rs);
    destruct (category_eqb (category r) MeatDish);
    destruct (category_eqb (category r) Seafood); simpl; intuition congruence.
Qed.

Lemma restrictionStep_In (p : MealPlanPreferences) (l : list Recipe) (r : Recipe) :
  In r (restrictionStep p l)
  <-> In r l
      /\ (forall rs, dietaryRestrictions p = Some rs -> In VegetarianOnly rs ->
                     category r <> MeatDish)
      /\ (forall rs, dietaryRestrictions p = Some rs -> In NoSeafood rs ->
                     category r <> Seafood).
Proof.
  unfold restrictionStep.
  destruct (dietaryRestrictions p) as [[| x rs] |]; simpl nonempty; cbv iota.
  - split; [intros H | tauto].
    split; [exact H |]. split; intros rs E Hi; inversion E; subst; destruct Hi.
  - rewrite filter_In, restriction_test. split.
    + intros [H1 [H2 H3]]. split; [exact H1 |].
      split; intros rs' E Hi; inversion E; subst; auto.
    + intros [H1 [H2 H3]]. split; [exact H1 |]. split; eauto.
  - split; [intros H | tauto]. split; [exact H |]. split; discriminate.
Qed.

Lemma exclusionStep_In (p : MealPlanPreferences) (l : list Recipe) (r : Recipe) :
  In r (exclusionStep p l)
  <-> In r l
      /\ forall ex, excludedCategories p = Some ex ->
                    ~ In (category_name (category r)) ex.
Proof.
  unfold exclusionStep.
  destruct (excludedCategories p) as [[| x ex] |]; simpl nonempty; cbv iota.
  - split; [intros H | tauto].
    split; [exact H |]. intros ex E Hi. inversion E; subst. destruct Hi.
  - rewrite filter_In, negb_true_iff. split.
    + intros [H1 H2]. split; [exact H1 |]. intros ex' E Hi. inversion E; subst.
      apply arr_includes_In in Hi. congruence.
    + intros [H1 H2]. split; [exact H1 |].
      destruct (arr_includes (x :: ex) (category_name (category r))) eqn:E;
        [| reflexivity].
      apply arr_includes_In in E. exfalso. exact (H2 _ eq_refl E).
  - split; [intros H | tauto]. split; [exact H | discriminate].
Qed.

Lemma skillStep_In (p : MealPlanPreferences) (l : list Recipe) (r : Recipe) :
  In r (skillStep p l) <-> In r l /\ within_skill (cookingSkillLevel p) r.
Proof.
  unfold skillStep. destruct (cookingSkillLevel p) as [skill |]; [| simpl; tauto].
  rewrite filter_In, skill_allows. reflexivity.
Qed.

Lemma nonempty_false {A} (l : list A) : nonempty l = false <-> l = [].
Proof. destruct l; simpl; split; congruence. Qed.

Lemma filter_nil_iff {A} (f : A -> bool) (l : list A) :
  filter f l = [] <-> forall x, In x l -> f x = false.
Proof.
  induction l as [| y l IH]; simpl; [tauto |].
  destruct (f y) eqn:E.
  - split; [discriminate |]. intros H. specialize (H y (or_introl eq_refl)). congruence.
  - rewrite IH. split.
    + intros H x [Hx | Hx]; [now subst | now apply H].
    + intros H x Hx. apply H. now right.
Qed.

Lemma filter_id {A} (f : A -> bool) (l : list A) :
  (forall x, In x l -> f x = true) -> filter f l = l.
Proof.
  induction l as [| y l IH]; intros H; simpl; [reflexivity |].
  rewrite (H y (or_introl eq_refl)). f_equal. apply IH. intros x Hx. apply H. now right.
Qed.

Lemma preferenceStep_In (p : MealPlanPreferences) (l : list Recipe) (r : Recipe) :
  In r (preferenceStep p l)
  <-> In r l
      /\ ((exists r', In r' l /\ preferred_in_plan p r') -> preferred_in_plan p r).
Proof.
  unfold preferenceStep, preferred_in_plan.
  destruct (preferredCategories p) as [[| x wanted] |]; cbn [nonempty]; cbv iota.
  - split; [intros H | tauto]. split; [exact H |].
    intros [r' [_ [w [E Hi]]]]. inversion E; subst. destruct Hi.
  - cbv zeta.
    set (preferred := filter _ l).
    assert (P : forall y, In y preferred
                          <-> In y l /\ In (category_name (category y)) (x :: wanted)).
    { intros y. unfold preferred. rewrite filter_In. cbv beta.
      rewrite arr_includes_In. reflexivity. }
    clearbody preferred.
    destruct preferred as [| r' l']; cbn [nonempty]; cbv iota.
    + split; [intros H | tauto]. split; [exact H |].
      intros [y [Hy [w [E Hw]]]]. inversion E; subst.
      exfalso. apply (proj2 (P y)). auto.
    + rewrite P. split.
      * intros [H1 H2]. split; [exact H1 |]. intros _. eauto.
      * intros [H1 H2]. split; [exact H1 |].
        destruct (proj1 (P r') (or_introl eq_refl)) as [R1 R2].
        destruct H2 as [w [E Hw]]; [exists r'; eauto |].
        inversion E; subst. exact Hw.
  - split; [intros H | tauto]. split; [exact H |].
    intros [r' [_ [w [E _]]]]. discriminate E.
Qed.

(** X10.  The preference filter of the meal plans keeps a recipe exactly
    when it passes the restrictions and the excluded categories, is within
    the cooking skill, and is of a preferred category - the last only if
    some recipe of the catalog that passes the restrictions and the
    exclusions is of a preferred category: preferred categories that no
    such recipe has are ignored, and the preference is applied before the
    skill is looked at. *)
Theorem plan_filter_keeps (recipes : list Recipe) (p : MealPlanPreferences)
    (r : Recipe) :
  In r (filterRecipesByPreferences recipes p)
  <-> In r recipes
      /\ allowed_in_plan p r
      /\ within_skill (cookingSkillLevel p) r
      /\ ((exists r', In r' recipes /\ allowed_in_plan p r' /\ preferred_in_plan p r')
          -> preferred_in_plan p r).
Proof.
  rewrite filter_steps, skillStep_In, preferenceStep_In, exclusionStep_In,
    restrictionStep_In.
  unfold allowed_in_plan. split.
  - intros [[[[H1 [H2 H3]] H4] H5] H6].
    split; [exact H1 |]. split; [tauto |]. split; [exact H6 |].
    intros [r' [R1 [[R2 [R3 R4]] R5]]]. apply H5. exists r'. split; [| exact R5].
    apply exclusionStep_In. split; [| exact R4].
    apply restrictionStep_In. tauto.
  - intros [H1 [[H2 [H3 H4]] [H5 H6]]].
    split; [| exact H5]. split; [tauto |].
    intros [r' [R1 R5]]. apply H6. exists r'.
    apply exclusionStep_In in R1. destruct R1 as [R1 R4].
    apply restrictionStep_In in R1. tauto.
Qed.

Lemma restrictionStep_fix (p : MealPlanPreferences) (l : list Recipe) :
  (forall x, In x l -> In x (restrictionStep p l)) -> restrictionStep p l = l.
Proof.
  unfold restrictionStep.
  destruct (dietaryRestrictions p) as [rs |]; [| reflexivity].
  destruct (nonempty rs); [| reflexivity].
  intros H. apply filter_id. intros x Hx. apply H, filter_In in Hx. tauto.
Qed.

Lemma exclusionStep_fix (p : MealPlanPreferences) (l : list Recipe) :
  (forall x, In x l -> In x (exclusionStep p l)) -> exclusionStep p l = l.
Proof.
  unfold exclusionStep.
  destruct (excludedCategories p) as [ex |]; [| reflexivity].
  destruct (nonempty ex); [| reflexivity].
  intros H. apply filter_id. intros x Hx. apply H, filter_In in Hx. tauto.
Qed.

Lemma skillStep_fix (p : MealPlanPreferences) (l : list Recipe) :
  (forall x, In x l -> In x (skillStep p l)) -> skillStep p l = l.
Proof.
  unfold skillStep.
  destruct (cookingSkillLevel p) as [skill |]; [| reflexivity].
  intros H. apply filter_id. intros x Hx. apply H, filter_In in Hx. tauto.
Qed.

Lemma preferenceStep_fix (p : MealPlanPreferences) (l g : list Recipe) :
  incl l (preferenceStep p g) -> preferenceStep p l = l.
Proof.
  intros H.
  assert (K : (exists r', In r' l /\ preferred_in_plan p r') ->
              forall x, In x l -> preferred_in_plan p x).
  { intros [r' [R1 R2]] x Hx.
    apply H, preferenceStep_In in Hx. destruct Hx as [_ Hx]. apply Hx.
    exists r'. split; [| exact R2].
    apply H, preferenceStep_In in R1. tauto. }
  unfold preferenceStep, preferred_in_plan in *.
  destruct (preferredCategories p) as [wanted |]; [| reflexivity].
  destruct (nonempty wanted); [| reflexivity]. cbv zeta.
  destruct (filter (fun recipe => arr_includes wanted (category_name (category recipe))) l)
    as [| r' l'] eqn:F; [reflexivity |].
  cbn [nonempty]. rewrite <- F. apply filter_id. intros x Hx.
  assert (R : In r' (filter (fun recipe =>
                               arr_includes wanted (category_name (category recipe))) l))
    by (rewrite F; now left).
  apply filter_In in R. destruct R as [R1 R2]. apply arr_includes_In in R2.
  destruct (K (ex_intro _ r' (conj R1 (ex_intro _ wanted (conj eq_refl R2)))) x Hx)
    as [w [E Hw]].
  inversion E; subst. now apply arr_includes_In.
Qed.

(** X11.  Filtering twice is filtering once: the recipes that the
    preference filter of the meal plans keeps are all kept, in their
    order, when the filter is applied to them again with the same
    preferences. *)
Theorem plan_filter_idempotent (recipes : list Recipe) (p : MealPlanPreferences) :
  filterRecipesByPreferences (filterRecipesByPreferences recipes p) p
  = filterRecipesByPreferences recipes p.
Proof.
  set (F := filterRecipesByPreferences recipes p).
  assert (HF : forall x, In x F ->
                 allowed_in_plan p x /\ within_skill (cookingSkillLevel p) x).
  { intros x Hx. apply plan_filter_keeps in Hx. tauto. }
  rewrite (filter_steps F).
  rewrite restrictionStep_fix.
  2:{ intros x Hx. apply restrictionStep_In. split; [exact Hx |].
      destruct (HF x Hx) as [[A1 [A2 _]] _]. auto. }
  rewrite exclusionStep_fix.
  2:{ intros x Hx. apply exclusionStep_In. split; [exact Hx |].
      destruct (HF x Hx) as [[_ [_ A3]] _]. exact A3. }
  rewrite (preferenceStep_fix p F (exclusionStep p (restrictionStep p recipes))).
  2:{ intros x Hx. unfold F in Hx. rewrite filter_steps in Hx.
      apply skillStep_In in Hx. tauto. }
  apply skillStep_fix. intros x Hx. apply skillStep_In. split; [exact Hx |].
  now destruct (HF x Hx).
Qed.

Lemma restrictionStep_unknown (p : MealPlanPreferences)
    (rs : list DietaryRestriction) (l : list Recipe) :
  ~ In VegetarianOnly rs -> ~ In NoSeafood rs ->
  restrictionStep (with_restrictions p (Some rs)) l = l.
Proof.
  intros Hv Hs. unfold restrictionStep, with_restrictions.
  cbn [dietaryRestrictions].
  destruct (nonempty rs); [| reflexivity].
  apply filter_id. intros x _. apply restriction_test. tauto.
Qed.

(** X12.  The filter of the meal plans knows two dietary restrictions, the
    vegetarian one and the one without seafood.  A list of restrictions
    that names neither of them (vegan, gluten-free, without nuts, ...)
    changes nothing: the recipes kept are those kept without any
    restriction. *)
Theorem other_restrictions_change_nothing (recipes : list Recipe)
    (p : MealPlanPreferences) (rs : list DietaryRestriction) :
  ~ In VegetarianOnly rs -> ~ In NoSeafood rs ->
  filterRecipesByPreferences recipes (with_restrictions p (Some rs))
  = filterRecipesByPreferences recipes (with_restrictions p None).
Proof.
  intros Hv Hs. rewrite !filter_steps.
  rewrite restrictionStep_unknown by assumption. reflexivity.
Qed.

Lemma other_restrictions_change_nothing_witness :
  ~ In VegetarianOnly [Vegan; NoNuts] /\ ~ In NoSeafood [Vegan; NoNuts]
  /\ filterRecipesByPreferences Samples.five_recipes
       (with_restrictions Samples.everyone (Some [Vegan; NoNuts]))
     = filterRecipesByPreferences Samples.five_recipes
         (with_restrictions Samples.everyone None).
Proof.
  assert (Hv : ~ In VegetarianOnly [Vegan; NoNuts])
    by (intros [H | [H | []]]; discriminate H).
  assert (Hs : ~ In NoSeafood [Vegan; NoNuts])
    by (intros [H | [H | []]]; discriminate H).
  split; [exact Hv |]. split; [exact Hs |].
  apply (other_restrictions_change_nothing Samples.five_recipes Samples.everyone
           [Vegan; NoNuts]); assumption.
Defined.

End PlanFilter.

(* ================================================================== *)
(** * Validation, answers and statistics of the meal plans              *)
(* ================================================================== *)

Section PlanAnswers.

Import MealPlanUtils RecommendMealPlan.

Variable parseDate : jsstring -> option Z.
Variable nextMonday : Z.
Variable isoDate : Z -> jsstring.
Variable localeCompare : jsstring -> jsstring -> Z.

(** X13.  [validateMealPlanPreferences] accepts exactly the numbers of
    people from 1 to 20.  It reports at most one error, since no number is
    both too small and too large, and the verdict is positive exactly when
    no error is reported. *)
Theorem validateMealPlanPreferences_verdict (p : MealPlanPreferences) :
  let isValid := fst (validateMealPlanPreferences p) in
  let errors := snd (validateMealPlanPreferences p) in
  (isValid = true <-> 1 <= numberOfPeople p <= 20)
  /\ (isValid = true <-> errors = [])
  /\ (length errors <= 1)%nat.
Proof.
  cbv zeta. unfold validateMealPlanPreferences.
  destruct (numberOfPeople p <=? 0) eqn:E1;
    [apply Z.leb_le in E1 | apply Z.leb_gt in E1];
    (destruct (20 <? numberOfPeople p) eqn:E2;
     [apply Z.ltb_lt in E2 | apply Z.ltb_ge in E2]);
    cbn [fst snd]; rewrite ?app_nil_l; cbn [nonempty negb length];
    (split; [| split]); try lia; split; intros H; try discriminate H; try lia;
    reflexivity.
Qed.

Lemma unreadable_start (startDate : option jsstring) :
  ~ valid_start parseDate startDate ->
  exists s, startDate = Some s /\ truthy s = true /\ parseDate s = None.
Proof.
  unfold valid_start. destruct startDate as [s |]; [| tauto].
  intros H. exists s. split; [reflexivity |].
  destruct (truthy s); [| exfalso; apply H; discriminate].
  split; [reflexivity |].
  destruct (parseDate s); [| reflexivity].
  exfalso. apply H. discriminate.
Qed.

(** X14.  The answers of the meal-plan handler, for a random source in
    the unit interval.  An input outside the schema is answered by the
    failure of the [catch] clause, and this check makes the answer
    "Invalid meal plan preferences" impossible: the schema allows 1 to 20
    people, all of which the validation accepts.  Within the schema an
    empty catalog gives "No recipes available"; a start date that the
    platform cannot read gives the failure of the [catch] clause before
    any random number is drawn; every other request succeeds. *)
Theorem handleRecommendMealPlan_answers
    (allRecipes : list Recipe) (input : Input) (rnd : source) (k : nat) :
  unit_interval rnd ->
  let answer :=
    handleRecommendMealPlan parseDate nextMonday isoDate localeCompare
      allRecipes input rnd k in
  (schema_ok input = false ->
   answer = (Failure (js "Failed to generate meal plan") ThrownMessage, k))
  /\ (schema_ok input = true -> allRecipes = [] ->
      answer = (Failure (js "No recipes available")
                        (Literal (js "Recipe database is empty")), k))
  /\ (schema_ok input = true -> allRecipes <> [] ->
      ~ valid_start parseDate (in_startDate input) ->
      answer = (Failure (js "Failed to generate meal plan") ThrownMessage, k))
  /\ (schema_ok input = true -> allRecipes <> [] ->
      valid_start parseDate (in_startDate input) ->
      exists message data k', answer = (Success message data, k'))
  /\ (forall details, fst answer <> Failure (js "Invalid meal plan preferences") details).
Proof.
  intros U. cbv zeta. split; [| split; [| split; [| split]]].
  - intros Hs. unfold handleRecommendMealPlan. now rewrite Hs.
  - intros Hs Hc. subst allRecipes. unfold handleRecommendMealPlan.
    rewrite Hs, (schema_ok_validates input Hs). reflexivity.
  - intros Hs Hc Hv. unfold handleRecommendMealPlan.
    rewrite Hs, (schema_ok_validates input Hs).
    destruct allRecipes as [| r rs]; [congruence |].
    cbn [negb len_is_zero nonempty].
    destruct (unreadable_start _ Hv) as [s [E1 [E2 E3]]].
    unfold generateWeeklyMealPlan. rewrite E1, E2, E3. reflexivity.
  - intros Hs Hc Hv.
    destruct (generateWeeklyMealPlan_total parseDate nextMonday isoDate allRecipes
                (in_preferences input) (in_startDate input) rnd k U Hv)
      as [plan [k' E]].
    destruct (handleRecommendMealPlan_returns parseDate nextMonday isoDate
                localeCompare allRecipes input rnd k k' plan Hs Hc E)
      as [message [data [H _]]].
    now exists message, data, k'.
  - intros details. unfold handleRecommendMealPlan.
    destruct (schema_ok input) eqn:Hs; cbn [negb]; [| simpl; discriminate].
    rewrite (schema_ok_validates input Hs). cbn [negb].
    destruct (len_is_zero allRecipes); [simpl; discriminate |].
    destruct (generateWeeklyMealPlan _ _ _ _ _ _ rnd k) as [[plan |] k1];
      simpl; discriminate.
Qed.

End PlanAnswers.

Lemma handleRecommendMealPlan_answers_witness :
  unit_interval Samples.zeros
  /\ exists message data k',
      RecommendMealPlan.handleRecommendMealPlan Samples.anyDate 0 Samples.blankDate
        Samples.flatCollation [Samples.pork; Samples.greens] Samples.vegetarian_week
        Samples.zeros 0%nat = (Success message data, k').
Proof.
  split; [exact zeros_unit_interval |].
  refine (proj1 (proj2 (proj2 (proj2
            (handleRecommendMealPlan_answers Samples.anyDate 0 Samples.blankDate
               Samples.flatCollation [Samples.pork; Samples.greens]
               Samples.vegetarian_week Samples.zeros 0%nat zeros_unit_interval))))
            eq_refl _ I).
  discriminate.
Defined.

Section WeekShape.

Import MealPlanUtils.

Variable parseDate : jsstring -> option Z.
Variable nextMonday : Z.
Variable isoDate : Z -> jsstring.

Lemma nonempty_filter (test : Recipe -> bool) (recipes : list Recipe) :
  nonempty (filter test recipes) = existsb test recipes.
Proof.
  induction recipes as [| r rs IH]; [reflexivity |].
  cbn [filter existsb]. destruct (test r); [reflexivity | exact IH].
Qed.

Lemma planSlot_adds (test : Recipe -> bool) (recipes : list Recipe) (slot : MealType)
    (people : Z) (meals meals' : list PlannedMeal) (rnd : source) (k k' : nat) :
  planSlot (filter test recipes) slot people meals rnd k = (Some meals', k') ->
  exists added,
    meals' = meals ++ added
    /\ map mealType added = (if existsb test recipes then [slot] else [])
    /\ Forall (fun m => meal_servings m = people
                        /\ In (meal_recipe m) recipes
                        /\ test (meal_recipe m) = true
                        /\ mealType m = slot) added.
Proof.
  unfold planSlot, bind, ret. rewrite nonempty_filter.
  destruct (existsb test recipes).
  - destruct (selectRandomRecipe (filter test recipes) rnd k) as [[r |] k1] eqn:E;
      [| discriminate].
    apply selectRandomRecipe_In in E. destruct E as [E _].
    apply filter_In in E. destruct E as [E1 E2].
    intros H. inversion H; subst. eexists. split; [reflexivity |].
    split; [reflexivity |]. repeat constructor; assumption.
  - intros H. inversion H; subst. exists []. rewrite app_nil_r.
    split; [reflexivity |]. split; [reflexivity | constructor].
Qed.

(** The meals of a day: one for each of the three daily meals for which
    the recipes hold an eligible one, each with such a recipe. *)
Lemma daily_slots (recipes : list Recipe) (prefs : MealPlanPreferences)
    (d : DayOfWeek) (dt : jsstring) (rnd : source) (k k' : nat) (plan : DailyMealPlan) :
  generateDailyMealPlan recipes prefs d dt rnd k = (Some plan, k') ->
  day plan = d /\ date plan = dt
  /\ map mealType (meals plan) = filter (served recipes) mealsOfADay
  /\ Forall (fun m => meal_servings m = numberOfPeople prefs
                      /\ In (meal_recipe m) recipes
                      /\ eligible_for (mealType m) (meal_recipe m) = true)
            (meals plan).
Proof.
  unfold generateDailyMealPlan.
  change (filter (fun r => category_eqb (category r) Breakfast
                           || has_tag r (category_name Breakfast)) recipes)
    with (filter (eligible_for BreakfastMeal) recipes).
  change (filter (fun r => existsb (category_eqb (category r))
                                   [MeatDish; Vegetarian; Staple; Soup]) recipes)
    with (filter (eligible_for Lunch) recipes).
  change (filter (fun r => existsb (category_eqb (category r))
                                   [MeatDish; Vegetarian; Seafood; Soup]) recipes)
    with (filter (eligible_for Dinner) recipes).
  unfold bind at 1.
  destruct (planSlot (filter (eligible_for BreakfastMeal) recipes) _ _ [] rnd k)
    as [[m1 |] k1] eqn:E1; [| discriminate].
  unfold bind at 1.
  destruct (planSlot (filter (eligible_for Lunch) recipes) _ _ m1 rnd k1)
    as [[m2 |] k2] eqn:E2; [| discriminate].
  unfold bind at 1.
  destruct (planSlot (filter (eligible_for Dinner) recipes) _ _ m2 rnd k2)
    as [[m3 |] k3] eqn:E3; [| discriminate].
  unfold ret. intros H. inversion H; subst. cbn [day date meals].
  apply planSlot_adds in E1, E2, E3.
  destruct E1 as [a1 [A1 [T1 S1]]]. destruct E2 as [a2 [A2 [T2 S2]]].
  destruct E3 as [a3 [A3 [T3 S3]]]. subst m1 m2 m3. cbn [List.app].
  split; [reflexivity |]. split; [reflexivity |].
  rewrite <- app_assoc. split.
  - rewrite !map_app, T1, T2, T3. unfold mealsOfADay, served. cbn [filter].
    destruct (existsb (eligible_for BreakfastMeal) recipes),
             (existsb (eligible_for Lunch) recipes),
             (existsb (eligible_for Dinner) recipes); reflexivity.
  - rewrite !Forall_app. repeat split;
      (eapply Forall_impl; [| eassumption]);
      intros m [H1 [H2 [H3 H4]]]; rewrite H4; auto.
Qed.

Lemma dailyLoop_shape (recipes : list Recipe) (prefs : MealPlanPreferences)
    (start : Z) :
  forall (days : list DayOfWeek) (i : Z) (acc plans : list DailyMealPlan)
         (rnd : source) (k k' : nat),
    dailyLoop isoDate recipes prefs start i days acc rnd k = (Some plans, k') ->
    exists new,
      plans = acc ++ new
      /\ map day new = days
      /\ Forall (fun p =>
                   map mealType (meals p) = filter (served recipes) mealsOfADay
                   /\ Forall (fun m => meal_servings m = numberOfPeople prefs
                                       /\ In (meal_recipe m) recipes
                                       /\ eligible_for (mealType m) (meal_recipe m)
                                          = true)
                             (meals p)) new.
Proof.
  induction days as [| d days IH]; intros i acc plans rnd k k'; cbn [dailyLoop].
  - unfold ret. intros H. inversion H; subst. exists []. rewrite app_nil_r.
    split; [reflexivity |]. split; [reflexivity | constructor].
  - unfold bind at 1.
    destruct (generateDailyMealPlan recipes prefs d _ rnd k) as [[p |] k1] eqn:E;
      [| discriminate].
    apply daily_slots in E. destruct E as [E1 [_ [E2 E3]]].
    intros H. apply IH in H. destruct H as [new [H1 [H2 H3]]].
    exists (p :: new). rewrite H1, <- app_assoc. split; [reflexivity |].
    split; [cbn [map]; now rewrite E1, H2 | constructor; auto].
Qed.

Lemma flat_map_length_const {A B} (f : A -> list B) (l : list A) (n : nat) :
  Forall (fun x => length (f x) = n) l ->
  length (flat_map f l) = (length l * n)%nat.
Proof.
  induction 1 as [| x l Hx _ IH]; simpl; [reflexivity |].
  rewrite length_app, Hx, IH. lia.
Qed.

(** X15.  Every day of a generated week has the same meal types: those of
    breakfast, lunch and dinner for which the recipes that pass the
    preference filter hold an eligible recipe, in this order.  Every meal
    is planned for the number of people of the preferences, with a recipe
    that passed the filter and is eligible for its meal type.  The seven
    days are Monday to Sunday, and the number of meals in the statistics
    is seven times the number of meals of a day. *)
Theorem week_days_are_alike (catalog : list Recipe) (prefs : MealPlanPreferences)
    (startDate : option jsstring) (rnd : source) (k : nat) :
  unit_interval rnd -> valid_start parseDate startDate ->
  exists plan k',
    generateWeeklyMealPlan parseDate nextMonday isoDate catalog prefs startDate rnd k
    = (Some plan, k')
    /\ map day (dailyPlans plan) = daysOfWeek
    /\ (forall d, In d (dailyPlans plan) ->
          map mealType (meals d)
          = filter (served (filterRecipesByPreferences catalog prefs)) mealsOfADay
          /\ Forall (fun m =>
                       meal_servings m = numberOfPeople prefs
                       /\ In (meal_recipe m) (filterRecipesByPreferences catalog prefs)
                       /\ eligible_for (mealType m) (meal_recipe m) = true)
                    (meals d))
    /\ totalRecipes (calculateMealPlanStats plan)
       = 7 * Z.of_nat (length (filter (served (filterRecipesByPreferences catalog prefs))
                                      mealsOfADay)).
Proof.
  intros U V.
  destruct (generateWeeklyMealPlan_total parseDate nextMonday isoDate catalog prefs
              startDate rnd k U V) as [plan [k' E]].
  exists plan, k'. split; [exact E |].
  unfold generateWeeklyMealPlan in E.
  destruct (match startDate with
            | Some s => if truthy s then parseDate s else Some nextMonday
            | None => Some nextMonday
            end) as [start |]; [| discriminate].
  unfold bind in E.
  destruct (dailyLoop isoDate _ prefs start 0 daysOfWeek [] rnd k)
    as [[plans |] k1] eqn:L; [| discriminate].
  unfold ret in E. inversion E; subst. cbn [dailyPlans].
  apply dailyLoop_shape in L.
  destruct L as [new [L1 [L2 L3]]]. cbn [List.app] in L1. subst plans.
  split; [exact L2 |]. split.
  - intros d Hd. rewrite Forall_forall in L3. exact (L3 d Hd).
  - unfold calculateMealPlanStats. cbn [totalRecipes dailyPlans].
    rewrite (flat_map_length_const _ new
               (length (filter (served (filterRecipesByPreferences catalog prefs))
                               mealsOfADay))).
    + rewrite <- (length_map day new), L2.
      change (length daysOfWeek) with 7%nat. lia.
    + rewrite Forall_forall in *. intros d Hd. destruct (L3 d Hd) as [T _].
      rewrite <- T, !length_map. reflexivity.
Qed.

End WeekShape.

Lemma week_days_are_alike_witness :
  unit_interval Samples.zeros /\ valid_start Samples.anyDate None
  /\ exists plan k',
      MealPlanUtils.generateWeeklyMealPlan Samples.anyDate 0 Samples.blankDate
        [Samples.pork; Samples.greens; Samples.broth] Samples.everyone None
        Samples.zeros 0%nat = (Some plan, k')
      /\ map day (dailyPlans plan) = MealPlanUtils.daysOfWeek
      /\ (forall d, In d (dailyPlans plan) ->
            map mealType (meals d)
            = filter (served (MealPlanUtils.filterRecipesByPreferences
                                [Samples.pork; Samples.greens; Samples.broth]
                                Samples.everyone)) mealsOfADay
            /\ Forall (fun m =>
                         meal_servings m = numberOfPeople Samples.everyone
                         /\ In (meal_recipe m)
                               (MealPlanUtils.filterRecipesByPreferences
                                  [Samples.pork; Samples.greens; Samples.broth]
                                  Samples.everyone)
                         /\ eligible_for (mealType m) (meal_recipe m) = true)
                      (meals d))
      /\ MealPlanUtils.totalRecipes (MealPlanUtils.calculateMealPlanStats plan)
         = 7 * Z.of_nat
                 (length (filter (served (MealPlanUtils.filterRecipesByPreferences
                                            [Samples.pork; Samples.greens; Samples.broth]
                                            Samples.everyone)) mealsOfADay)).
Proof.
  split; [exact zeros_unit_interval |]. split; [exact I |].
  exact (week_days_are_alike Samples.anyDate 0 Samples.blankDate
           [Samples.pork; Samples.greens; Samples.broth] Samples.everyone None
           Samples.zeros 0%nat zeros_unit_interval I).
Defined.

Section PlanStatistics.

Import MealPlanUtils.

Lemma NoDup_incl_len {A} (l l' : list A) :
  NoDup l -> incl l l' -> (length l <= length l')%nat.
Proof. apply NoDup_incl_length. Qed.

Lemma fold_left_sum_by {A} (g : Z -> A -> Z) (f : A -> Z) (l : list A) (acc : Z) :
  (forall a x, g a x = a + f x) ->
  fold_left g l acc = acc + sum_of f l.
Proof.
  intros H. unfold sum_of. revert acc.
  induction l as [| x l IH]; intros acc; simpl; [lia |].
  rewrite IH, H. lia.
Qed.

(** X16.  The statistics of a plan: the number of recipes counts every
    planned meal; the number of unique recipes is the number of distinct
    recipe identifiers among them, so it is at most the number of
    recipes; the categories used are the categories of the planned
    recipes, each listed once; the estimated cooking time is the sum of
    the minutes read from the preparation and cooking times, and is never
    negative. *)
Theorem calculateMealPlanStats_counts (plan : WeeklyMealPlan) :
  let stats := calculateMealPlanStats plan in
  let recipes := planned_recipes plan in
  totalRecipes stats = Z.of_nat (length recipes)
  /\ (exists ids, NoDup ids
                  /\ (forall i, In i ids <-> In i (map id recipes))
                  /\ uniqueRecipes stats = Z.of_nat (length ids))
  /\ 0 <= uniqueRecipes stats <= totalRecipes stats
  /\ NoDup (categoriesUsed stats)
  /\ (forall c, In c (categoriesUsed stats) <-> In c (map category recipes))
  /\ totalEstimatedCookTime stats
     = sum_of (fun r => parseTimeInMinutes (prepTime r)
                        + parseTimeInMinutes (cookTime r)) recipes
  /\ 0 <= totalEstimatedCookTime stats.
Proof.
  cbv zeta. unfold calculateMealPlanStats, planned_recipes.
  cbn [totalRecipes uniqueRecipes categoriesUsed totalEstimatedCookTime].
  set (recipes := flat_map _ (dailyPlans plan)).
  destruct (distinct_spec str_eqb str_eqb_eq (map id recipes) [] (NoDup_nil _))
    as [N1 I1].
  destruct (distinct_spec category_eqb category_eqb_eq (map category recipes) []
              (NoDup_nil _)) as [N2 I2].
  assert (L : (length (distinct str_eqb [] (map id recipes)) <= length recipes)%nat).
  { rewrite <- (length_map id recipes). apply NoDup_incl_len; [exact N1 |].
    intros x Hx. apply I1 in Hx. destruct Hx as [[] | Hx]. exact Hx. }
  split; [reflexivity |]. split; [| split; [lia | split; [exact N2 | split; [| split]]]].
  - eexists. split; [exact N1 |]. split; [| reflexivity].
    intros i. rewrite I1. simpl. tauto.
  - intros c. rewrite I2. simpl. tauto.
  - rewrite (fold_left_sum_by _ (fun r => parseTimeInMinutes (prepTime r)
                                          + parseTimeInMinutes (cookTime r)))
      by (intros; lia).
    lia.
  - rewrite (fold_left_sum_by _ (fun r => parseTimeInMinutes (prepTime r)
                                          + parseTimeInMinutes (cookTime r)))
      by (intros; lia).
    apply Z.add_nonneg_nonneg; [lia |]. apply sum_of_nonneg. intros r.
    pose proof (parseTimeInMinutes_nonneg (prepTime r)).
    pose proof (parseTimeInMinutes_nonneg (cookTime r)). lia.
Qed.

End PlanStatistics.

(* ================================================================== *)
(** * The items and the total of a shopping list                        *)
(* ================================================================== *)

Section ListedItems.

Import ShoppingListUtils.

Variable localeCompare : jsstring -> jsstring -> Z.

Lemma Permutation_filter_both {A} (f : A -> bool) (l l' : list A) :
  Permutation l l' -> Permutation (filter f l) (filter f l').
Proof.
  induction 1 as [| x l l' _ IH | x y l | l l' l'' _ IH1 _ IH2]; simpl.
  - constructor.
  - destruct (f x); [now constructor | exact IH].
  - destruct (f x), (f y); try apply Permutation_refl. apply perm_swap.
  - now transitivity (filter f l').
Qed.

Lemma sum_of_app {A} (f : A -> Z) (l l' : list A) :
  sum_of f (l ++ l') = sum_of f l + sum_of f l'.
Proof.
  unfold sum_of. induction l as [| x l IH]; simpl; [reflexivity |].
  rewrite IH. lia.
Qed.

Lemma sum_of_perm {A} (f : A -> Z) (l l' : list A) :
  Permutation l l' -> sum_of f l = sum_of f l'.
Proof.
  unfold sum_of. induction 1 as [| x l l' _ IH | x y l | l l' l'' _ IH1 _ IH2]; simpl;
    lia.
Qed.

Lemma sum_of_flat_map {A B} (f : B -> Z) (g : A -> list B) (l : list A) :
  sum_of f (flat_map g l) = sum_of (fun a => sum_of f (g a)) l.
Proof.
  induction l as [| a l IH]; [reflexivity |].
  cbn [flat_map]. rewrite sum_of_app, IH. reflexivity.
Qed.

Lemma sum_of_ext {A} (f g : A -> Z) (l : list A) :
  (forall x, In x l -> f x = g x) -> sum_of f l = sum_of g l.
Proof.
  unfold sum_of. induction l as [| x l IH]; intros H; simpl; [reflexivity |].
  rewrite (H x (or_introl eq_refl)), IH; [reflexivity |].
  intros y Hy. apply H. now right.
Qed.

(** Setting the list of a known category to the old list and one more
    item adds that item to the lists of the map. *)
Lemma map_set_grows (m : list (ShoppingCategory * list ShoppingItem))
    (c : ShoppingCategory) (old : list ShoppingItem) (item : ShoppingItem) :
  map_get shopping_category_eqb m c = Some old ->
  Permutation (flat_map snd (map_set shopping_category_eqb m c (old ++ [item])))
              (item :: flat_map snd m).
Proof.
  induction m as [| [c' v'] m IH]; simpl; [discriminate |].
  destruct (shopping_category_eqb c c') eqn:E.
  - intros H. inversion H; subst. simpl. rewrite <- app_assoc. simpl.
    apply Permutation_sym, Permutation_middle.
  - intros H. simpl. specialize (IH H).
    eapply Permutation_trans; [apply Permutation_app_head; exact IH |].
    apply Permutation_sym, Permutation_middle.
Qed.

Lemma map_set_new (m : list (ShoppingCategory * list ShoppingItem))
    (c : ShoppingCategory) (v : list ShoppingItem) :
  map_get shopping_category_eqb m c = None ->
  map_set shopping_category_eqb m c v = m ++ [(c, v)].
Proof.
  induction m as [| [c' v'] m IH]; simpl; [reflexivity |].
  destruct (shopping_category_eqb c c'); [discriminate |].
  intros H. now rewrite IH.
Qed.

Lemma pushItem_grows (m : list (ShoppingCategory * list ShoppingItem))
    (item : ShoppingItem) :
  Permutation (flat_map snd (pushItem m item)) (item :: flat_map snd m).
Proof.
  unfold pushItem, map_has.
  destruct (map_get shopping_category_eqb m (item_category item)) as [old |] eqn:G;
    cbn [negb].
  - rewrite G. now apply map_set_grows.
  - rewrite (map_get_set_same _ shopping_category_eqb_eq).
    rewrite (map_set_new m _ [] G).
    eapply Permutation_trans.
    + apply map_set_grows. rewrite <- (map_set_new m _ [] G).
      apply (map_get_set_same _ shopping_category_eqb_eq).
    + rewrite flat_map_app. simpl. rewrite app_nil_r. apply Permutation_refl.
Qed.

Lemma pushItems_grow (its : list ShoppingItem)
    (m : list (ShoppingCategory * list ShoppingItem)) :
  Permutation (flat_map snd (fold_left pushItem its m))
              (flat_map snd m ++ its).
Proof.
  revert m. induction its as [| item its IH]; intros m; simpl.
  - rewrite app_nil_r. apply Permutation_refl.
  - eapply Permutation_trans; [apply IH |].
    eapply Permutation_trans; [apply Permutation_app_tail, pushItem_grows |].
    simpl. apply Permutation_middle.
Qed.

(** Grouping loses no item and invents none. *)
Lemma groupItemsByCategory_items (its : list ShoppingItem) :
  Permutation (flat_map items (groupItemsByCategory localeCompare its)) its.
Proof.
  unfold groupItemsByCategory. cbv zeta.
  set (m := fold_left pushItem its []).
  eapply Permutation_trans.
  { apply Permutation_flat_map, js_sort_perm. }
  rewrite flat_map_concat_map, map_map, <- flat_map_concat_map.
  eapply Permutation_trans; [| exact (pushItems_grow its [])].
  fold m. clearbody m. induction m as [| [c l] m IH]; [constructor |].
  cbn [flat_map]. apply Permutation_app; [| exact IH].
  cbn [makeSection items snd]. apply js_sort_perm.
Qed.

(** A section holds the items of its category, at least one. *)
Lemma groupItemsByCategory_sections (its : list ShoppingItem) :
  NoDup (map sec_category (groupItemsByCategory localeCompare its))
  /\ Forall (fun s => items s <> []
                      /\ Forall (fun it => item_category it = sec_category s) (items s)
                      /\ sec_totalEstimatedCost s = sum_of price_of (items s))
            (groupItemsByCategory localeCompare its).
Proof.
  destruct (groupItemsByCategory_spec localeCompare its) as [cats [D [K [M G]]]].
  split.
  - rewrite M. eapply Permutation_NoDup; [| exact D].
    apply Permutation_sym, js_sort_perm.
  - apply Forall_forall. intros s Hs.
    assert (Hc : In (sec_category s) (map item_category its)).
    { apply K. eapply Permutation_in; [apply js_sort_perm |].
      rewrite <- M. now apply in_map. }
    rewrite (G s Hs). cbn [makeSection items sec_category sec_totalEstimatedCost].
    set (l := filter (cat_is (sec_category s)) its).
    pose proof (js_sort_perm (fun a b => localeCompare (item_name a) (item_name b)) l)
      as P.
    split; [| split].
    + intros E. rewrite E in P. apply Permutation_nil in P.
      apply in_map_iff in Hc. destruct Hc as [it [E1 E2]].
      assert (Hi : In it l).
      { apply filter_In. split; [exact E2 |]. unfold cat_is.
        now apply shopping_category_eqb_eq. }
      rewrite P in Hi. destruct Hi.
    + apply Forall_forall. intros it Hit.
      eapply Permutation_in in Hit; [| exact P].
      apply filter_In in Hit. destruct Hit as [_ Hit].
      now apply shopping_category_eqb_eq in Hit.
    + rewrite (fold_left_add_sum (fun item => price_or_zero (estimatedPrice item))).
      rewrite Z.add_0_l. apply sum_of_perm. apply Permutation_sym. exact P.
Qed.

Lemma flat_map_filter_by_key {A B K} (key : A -> K) (bkey : B -> K) (keep : K -> bool)
    (g : A -> list B) (l : list A) :
  Forall (fun a => Forall (fun b => bkey b = key a) (g a)) l ->
  flat_map g (filter (fun a => keep (key a)) l)
  = filter (fun b => keep (bkey b)) (flat_map g l).
Proof.
  induction 1 as [| a l Ha _ IH]; [reflexivity |].
  cbn [filter flat_map]. rewrite filter_app, <- IH.
  destruct (keep (key a)) eqn:E; cbn [flat_map].
  - f_equal. symmetry. apply filter_id. intros b Hb.
    rewrite Forall_forall in Ha. now rewrite (Ha b Hb).
  - replace (filter (fun b => keep (bkey b)) (g a)) with (@nil B); [reflexivity |].
    symmetry. apply filter_nil_iff. intros b Hb.
    rewrite Forall_forall in Ha. now rewrite (Ha b Hb).
Qed.

(** The sections of the list: those of the grouping whose category the
    request does not exclude. *)
Lemma list_sections (recipes : list Recipe) (request : ShoppingListRequest) :
  exists keep : ShoppingCategory -> bool,
    (forall it, wanted_item request it = keep (item_category it))
    /\ sections (generateShoppingListFromRecipes localeCompare recipes request)
       = filter (fun s => keep (sec_category s))
           (groupItemsByCategory localeCompare
              (consolidateIngredients recipes (slr_numberOfPeople request)
                                      (consolidateItems request))).
Proof.
  unfold generateShoppingListFromRecipes, wanted_item. cbv zeta. cbn [sections].
  destruct (excludeCategories request) as [excluded |].
  - exists (fun c => negb (existsb (shopping_category_eqb c) excluded)).
    split; reflexivity.
  - exists (fun _ => true). split; [reflexivity |]. now rewrite filter_all.
Qed.

Lemma total_items_count (sects : list ShoppingSection) :
  fold_left (fun sum section => sum + Z.of_nat (length (items section))) sects 0
  = Z.of_nat (length (flat_map items sects)).
Proof.
  rewrite (fold_left_add_sum (fun s => Z.of_nat (length (items s)))), Z.add_0_l.
  unfold sum_of. induction sects as [| s l IH]; [reflexivity |].
  cbn [flat_map map fold_right]. rewrite length_app, IH. lia.
Qed.

(** X17.  A shopping list shows every consolidated item whose category
    the request does not exclude, once, in the section of its category:
    the grouping, the two sorts and the exclusion lose no other item and
    invent none.  The number of items is the number of those items; no
    section is empty and no category has two sections.  With consolidation
    on and nothing excluded, the number of items is the number of distinct
    ingredient names of the recipes. *)
Theorem shopping_list_shows_the_wanted_items
    (recipes : list Recipe) (request : ShoppingListRequest) :
  let L := generateShoppingListFromRecipes localeCompare recipes request in
  let consolidated :=
    consolidateIngredients recipes (slr_numberOfPeople request)
                           (consolidateItems request) in
  Permutation (listed_items L) (filter (wanted_item request) consolidated)
  /\ totalItems L = Z.of_nat (length (filter (wanted_item request) consolidated))
  /\ NoDup (map sec_category (sections L))
  /\ Forall (fun s => items s <> []
                      /\ Forall (fun it => item_category it = sec_category s) (items s))
            (sections L)
  /\ (consolidating request -> excludeCategories request = None ->
      exists names,
        NoDup names
        /\ (forall n, In n names <-> In n (ingredient_names recipes))
        /\ totalItems L = Z.of_nat (length names)).
Proof.
  cbv zeta.
  destruct (list_sections recipes request) as [keep [W S]].
  set (consolidated := consolidateIngredients recipes (slr_numberOfPeople request)
                                              (consolidateItems request)) in *.
  destruct (groupItemsByCategory_sections consolidated) as [N F].
  assert (P : Permutation
                (listed_items (generateShoppingListFromRecipes localeCompare
                                 recipes request))
                (filter (wanted_item request) consolidated)).
  { unfold listed_items. rewrite S.
    rewrite (flat_map_filter_by_key sec_category item_category keep items).
    - rewrite (filter_ext _ _ W).
      apply Permutation_filter_both, groupItemsByCategory_items.
    - eapply Forall_impl; [| exact F]. intros s Hs. cbv beta in Hs.
      destruct Hs as [_ [Hs _]]. exact Hs. }
  assert (T : totalItems (generateShoppingListFromRecipes localeCompare recipes request)
              = Z.of_nat (length (filter (wanted_item request) consolidated))).
  { rewrite <- (Permutation_length P). unfold listed_items.
    rewrite <- total_items_count. reflexivity. }
  split; [exact P |]. split; [exact T |]. split; [| split].
  - rewrite S. now apply NoDup_map_filter.
  - rewrite S. apply Forall_forall. intros s Hs. apply filter_In in Hs.
    rewrite Forall_forall in F. destruct (F s (proj1 Hs)) as [F1 [F2 _]]. auto.
  - intros C E.
    destruct (consolidateIngredients_items (slr_numberOfPeople request) recipes
                (consolidateItems request) C) as [N1 [K1 _]].
    fold consolidated in N1, K1.
    exists (map item_name consolidated). split; [exact N1 |]. split; [exact K1 |].
    rewrite T, length_map. f_equal. f_equal.
    apply filter_id. intros it _. unfold wanted_item. now rewrite E.
Qed.

(** X18.  The total estimate of a shopping list is given exactly when the
    request asks for price estimates, and then it is the sum of the price
    estimates of the items that the list shows. *)
Theorem shopping_list_total_is_the_sum_of_its_items
    (recipes : list Recipe) (request : ShoppingListRequest) :
  let L := generateShoppingListFromRecipes localeCompare recipes request in
  totalEstimatedCost L
  = match includePriceEstimates request with
    | Some true => Some (sum_of price_of (listed_items L))
    | _ => None
    end.
Proof.
  cbv zeta.
  destruct (list_sections recipes request) as [keep [W S]].
  set (consolidated := consolidateIngredients recipes (slr_numberOfPeople request)
                                              (consolidateItems request)) in *.
  destruct (groupItemsByCategory_sections consolidated) as [_ F].
  unfold listed_items. rewrite S.
  unfold generateShoppingListFromRecipes. cbv zeta. cbn [totalEstimatedCost].
  fold consolidated.
  destruct (includePriceEstimates request) as [[|] |]; try reflexivity.
  f_equal.
  replace (match excludeCategories request with
           | Some excluded =>
             filter (fun section =>
                       negb (existsb (shopping_category_eqb (sec_category section))
                                     excluded))
                    (groupItemsByCategory localeCompare consolidated)
           | None => groupItemsByCategory localeCompare consolidated
           end)
    with (filter (fun s => keep (sec_category s))
                 (groupItemsByCategory localeCompare consolidated)).
  unfold calculateTotalCost.
  rewrite (fold_left_add_sum sec_totalEstimatedCost), Z.add_0_l.
  rewrite sum_of_flat_map. apply sum_of_ext. intros s Hs.
  apply filter_In in Hs. rewrite Forall_forall in F.
  destruct (F s (proj1 Hs)) as [_ [_ F3]]. exact F3.
Qed.

End ListedItems.

(* ================================================================== *)
(** * What an item records of its recipes                               *)
(* ================================================================== *)

Section ItemRecords.

Import ShoppingListUtils.

Variable people : Z.
Variable flag : bool.

Lemma consolidate_by_lines (recipes : list Recipe) (m : list (jsstring * ShoppingItem)) :
  fold_left (addRecipe people flag) recipes m
  = fold_left (fun m line => addIngredient people flag (fst line) m (snd line))
              (ingredient_lines recipes) m.
Proof.
  unfold ingredient_lines. revert m.
  induction recipes as [| r rs IH]; intros m; [reflexivity |].
  cbn [fold_left flat_map]. rewrite fold_left_app, IH. f_equal.
  unfold addRecipe. generalize (ingredients r) m.
  intros ings. induction ings as [| ing ings IHi]; intros m'; [reflexivity |].
  cbn [map fold_left fst snd]. apply IHi.
Qed.

Lemma lines_under_snoc (key : jsstring) (lines : list (Recipe * Ingredient))
    (line : Recipe * Ingredient) :
  lines_under flag key (lines ++ [line])
  = lines_under flag key lines
    ++ (if str_eqb (itemKey flag (fst line) (snd line)) key then [line] else []).
Proof. unfold lines_under. rewrite filter_app. reflexivity. Qed.

Lemma last_snoc {A} (l : list A) (x d : A) : last (l ++ [x]) d = x.
Proof. apply last_last. Qed.

Lemma addIngredient_recorded (m : list (jsstring * ShoppingItem))
    (lines : list (Recipe * Ingredient)) (line : Recipe * Ingredient) :
  recorded people flag m lines ->
  recorded people flag (addIngredient people flag (fst line) m (snd line))
           (lines ++ [line]).
Proof.
  intros [N R]. destruct line as [recipe ing]. cbn [fst snd].
  unfold addIngredient. cbv zeta.
  pose proof (R (itemKey flag recipe ing)) as R0.
  split.
  - destruct (map_get str_eqb m (itemKey flag recipe ing));
      now apply (map_set_keys_NoDup _ str_eqb_eq).
  - intros key. rewrite lines_under_snoc. cbn [fst snd].
    destruct (str_eqb (itemKey flag recipe ing) key) eqn:E.
    + apply str_eqb_eq in E. subst key.
      destruct (map_get str_eqb m (itemKey flag recipe ing)) as [old |] eqn:G;
        rewrite (map_get_set_same _ str_eqb_eq).
      * destruct R0 as [first [rest [L [R1 [R2 [R3 R4]]]]]].
        exists first, (rest ++ [(recipe, ing)]). rewrite L. split; [reflexivity |].
        unfold records. cbn [set_quantity item_name recipeIds recipeNames quantity].
        split; [exact R1 |]. split; [| split].
        -- rewrite R2. change (first :: rest ++ [(recipe, ing)])
             with ((first :: rest) ++ [(recipe, ing)]). now rewrite map_app.
        -- rewrite R3. change (first :: rest ++ [(recipe, ing)])
             with ((first :: rest) ++ [(recipe, ing)]). now rewrite map_app.
        -- intros F. rewrite F, last_snoc. reflexivity.
      * exists (recipe, ing), []. rewrite R0. split; [reflexivity |].
        unfold records. cbn [item_name recipeIds recipeNames quantity map fst snd last].
        repeat split.
    + apply str_eqb_neq in E. rewrite app_nil_r.
      specialize (R key).
      destruct (map_get str_eqb m (itemKey flag recipe ing));
        rewrite (map_get_set_other _ str_eqb_eq) by congruence; exact R.
Qed.

Lemma addLines_recorded (rest : list (Recipe * Ingredient)) :
  forall (m : list (jsstring * ShoppingItem)) (lines : list (Recipe * Ingredient)),
    recorded people flag m lines ->
    recorded people flag
             (fold_left (fun m line => addIngredient people flag (fst line) m (snd line))
                        rest m)
             (lines ++ rest).
Proof.
  induction rest as [| line rest IH]; intros m lines H.
  - now rewrite app_nil_r.
  - cbn [fold_left].
    replace (lines ++ line :: rest) with ((lines ++ [line]) ++ rest)
      by (rewrite <- app_assoc; reflexivity).
    apply IH. now apply addIngredient_recorded.
Qed.

(** Every item records the lines of one key. *)
Lemma items_recorded (recipes : list Recipe) (it : ShoppingItem) :
  In it (map_values (fold_left (addRecipe people flag) recipes [])) ->
  exists key first rest,
    lines_under flag key (ingredient_lines recipes) = first :: rest
    /\ records people flag it first rest
    /\ (flag = true -> key = item_name it).
Proof.
  rewrite consolidate_by_lines.
  assert (R0 : recorded people flag [] [])
    by (split; [constructor | intros key; reflexivity]).
  pose proof (addLines_recorded (ingredient_lines recipes) [] [] R0) as RR.
  change ([] ++ ingredient_lines recipes) with (ingredient_lines recipes) in RR.
  destruct RR as [N R].
  set (m := fold_left _ (ingredient_lines recipes) []) in *. clearbody m.
  unfold map_values. intros H. apply in_map_iff in H.
  destruct H as [[key v] [E H]]. cbn [snd] in E. subst v.
  apply (In_map_get str_eqb str_eqb_eq _ _ _ N) in H.
  specialize (R key). rewrite H in R. destruct R as [first [rest [L Rec]]].
  exists key, first, rest. split; [exact L |]. split; [exact Rec |].
  intros F. destruct Rec as [R1 _]. rewrite R1.
  assert (Hin : In first (lines_under flag key (ingredient_lines recipes)))
    by (rewrite L; now left).
  apply filter_In in Hin. destruct Hin as [_ Hin]. apply str_eqb_eq in Hin.
  rewrite <- Hin. unfold itemKey. now rewrite F.
Qed.

End ItemRecords.

Section Provenance.

Import ShoppingListUtils.

(** X19.  With consolidation on, an item of the consolidated list names
    the recipes it comes from: its recipe identifiers and recipe names are
    those of the ingredient lines that carry its name, one entry for every
    such line, in the order of the recipes; there is at least one such
    line. *)
Theorem consolidated_item_names_its_recipes
    (recipes : list Recipe) (people : Z) (flag : option bool) (it : ShoppingItem) :
  flag <> Some false ->
  In it (consolidateIngredients recipes people flag) ->
  let lines := lines_under true (item_name it) (ingredient_lines recipes) in
  lines <> []
  /\ recipeIds it = map (fun line => id (fst line)) lines
  /\ recipeNames it = map (fun line => name (fst line)) lines.
Proof.
  intros Hf Hin. cbv zeta. unfold consolidateIngredients in Hin.
  assert (E : match flag with Some b => b | None => true end = true).
  { destruct flag as [[|] |]; congruence. }
  rewrite E in Hin.
  destruct (items_recorded people true recipes it Hin)
    as [key [first [rest [L [[_ [R2 [R3 _]]] K]]]]].
  rewrite <- (K eq_refl), L. split; [discriminate |]. split; assumption.
Qed.

Lemma consolidated_item_names_its_recipes_witness :
  Some true <> Some false
  /\ exists it,
      In it (consolidateIngredients [Samples.pork; Samples.greens] 4 (Some true))
      /\ recipeIds it = [js "pork"; js "greens"].
Proof.
  split; [discriminate |].
  set (it := {| item_name := js "rice";
                item_category := Other;
                quantity := js "600g";
                estimatedPrice := Some 9;
                priority := Normal;
                item_notes := None;
                recipeIds := [js "pork"; js "greens"];
                recipeNames := [js "pork"; js "greens"];
                isPurchased := false |}).
  assert (Hin : In it (consolidateIngredients [Samples.pork; Samples.greens] 4
                                              (Some true)))
    by (vm_compute; left; reflexivity).
  exists it. split; [exact Hin |].
  assert (Hf : Some true <> Some false) by discriminate.
  exact (proj1 (proj2 (consolidated_item_names_its_recipes
                         [Samples.pork; Samples.greens] 4 (Some true) it Hf Hin))).
Defined.

(** X20.  With consolidation off, an item stands for one key (the name of
    an ingredient joined to the identifier of its recipe).  It keeps the
    name of the first line under that key and names the recipe of every
    line, but its quantity is the scaled amount of the last line alone:
    the amounts of a recipe that is listed several times, as in a week
    that plans it on several days, are not added up. *)
Theorem unconsolidated_item_keeps_the_last_amount
    (recipes : list Recipe) (people : Z) (it : ShoppingItem) :
  In it (consolidateIngredients recipes people (Some false)) ->
  exists key first rest,
    lines_under false key (ingredient_lines recipes) = first :: rest
    /\ item_name it = ing_name (snd first)
    /\ recipeIds it = map (fun line => id (fst line)) (first :: rest)
    /\ quantity it = scaled_amount people (last rest first).
Proof.
  intros Hin. unfold consolidateIngredients in Hin.
  destruct (items_recorded people false recipes it Hin)
    as [key [first [rest [L [[R1 [R2 [_ R4]]] _]]]]].
  exists key, first, rest. auto.
Qed.

Lemma unconsolidated_item_keeps_the_last_amount_witness :
  exists it,
    In it (consolidateIngredients [Samples.pork; Samples.pork; Samples.pork] 2
                                  (Some false))
    /\ quantity it = js "200g"
    /\ exists key first rest,
        lines_under false key
          (ingredient_lines [Samples.pork; Samples.pork; Samples.pork])
        = first :: rest
        /\ item_name it = ing_name (snd first)
        /\ recipeIds it = map (fun line => id (fst line)) (first :: rest)
        /\ quantity it = scaled_amount 2 (last rest first).
Proof.
  set (it := {| item_name := js "rice";
                item_category := Other;
                quantity := js "200g";
                estimatedPrice := Some 9;
                priority := Normal;
                item_notes := None;
                recipeIds := [js "pork"; js "pork"; js "pork"];
                recipeNames := [js "pork"; js "pork"; js "pork"];
                isPurchased := false |}).
  assert (Hin : In it (consolidateIngredients [Samples.pork; Samples.pork; Samples.pork]
                                              2 (Some false)))
    by (vm_compute; left; reflexivity).
  exists it. split; [exact Hin |]. split; [reflexivity |].
  exact (unconsolidated_item_keeps_the_last_amount
           [Samples.pork; Samples.pork; Samples.pork] 2 it Hin).
Defined.

End Provenance.

(* ================================================================== *)
(** * The queries and checks of the recipes                             *)
(* ================================================================== *)

Section Recipes.

Import MealPlanUtils RecipeChecks.

Lemma count_by {K} (eqb : K -> K -> bool)
    (eqb_eq : forall a b, eqb a b = true <-> a = b)
    (key : Recipe -> K) (recipes : list Recipe) :
  forall (start : K -> Z) (k : K),
    fold_left (fun distribution recipe =>
                 fun k => if eqb k (key recipe) then distribution k + 1
                          else distribution k)
              recipes start k
    = start k + Z.of_nat (length (filter (fun recipe => eqb (key recipe) k) recipes)).
Proof.
  induction recipes as [| r rs IH]; intros start k; [simpl; lia |].
  cbn [fold_left filter]. rewrite IH.
  assert (E : eqb k (key r) = eqb (key r) k).
  { apply Bool.eq_iff_eq_true. rewrite !eqb_eq. split; congruence. }
  rewrite E. destruct (eqb (key r) k); cbn [length]; lia.
Qed.

Lemma classes_cover {K} (eqb : K -> K -> bool) (key : Recipe -> K) (all : list K)
    (recipes : list Recipe) :
  (forall r, sum_of (fun k => if eqb (key r) k then 1 else 0) all = 1) ->
  sum_of (fun k => Z.of_nat (length (filter (fun recipe => eqb (key recipe) k) recipes)))
         all
  = Z.of_nat (length recipes).
Proof.
  intros H. induction recipes as [| r rs IH].
  - clear H. unfold sum_of. induction all as [| k all IHa]; [reflexivity |].
    simpl in *. exact IHa.
  - rewrite <- (sum_of_ext
                  (fun k => (if eqb (key r) k then 1 else 0)
                            + Z.of_nat (length (filter (fun recipe => eqb (key recipe) k)
                                                       rs)))).
    + assert (S : forall (f g : K -> Z) l,
                 sum_of (fun k => f k + g k) l = sum_of f l + sum_of g l).
      { intros f g l. unfold sum_of. induction l as [| x l IHl]; simpl; [reflexivity |].
        rewrite IHl. lia. }
      rewrite S, H, IH. cbn [length]. lia.
    + intros k _. cbn [filter]. destruct (eqb (key r) k); cbn [length]; lia.
Qed.

(** X21.  The two distributions count the recipes class by class: the
    number under a category is the number of recipes that
    [filterRecipesByCategory] returns for it, the number under a level of
    difficulty is the number of recipes of that level, and the numbers of
    either distribution add up to the number of recipes. *)
Theorem distributions_count_the_recipes (recipes : list Recipe) :
  (forall c, getRecipeCategoryDistribution recipes c
             = Z.of_nat (length (filterRecipesByCategory recipes c)))
  /\ (forall d, getRecipeDifficultyDistribution recipes d
                = Z.of_nat (length (filter (fun r => difficulty_eqb (difficulty r) d)
                                           recipes)))
  /\ sum_of (getRecipeCategoryDistribution recipes) allCategories
     = Z.of_nat (length recipes)
  /\ sum_of (getRecipeDifficultyDistribution recipes) allDifficulties
     = Z.of_nat (length recipes).
Proof.
  assert (C : forall c, getRecipeCategoryDistribution recipes c
                        = Z.of_nat (length (filterRecipesByCategory recipes c))).
  { intros c. unfold getRecipeCategoryDistribution, filterRecipesByCategory.
    rewrite (count_by category_eqb category_eqb_eq category). lia. }
  assert (D : forall d, getRecipeDifficultyDistribution recipes d
                        = Z.of_nat (length (filter (fun r =>
                                                      difficulty_eqb (difficulty r) d)
                                                   recipes))).
  { intros d. unfold getRecipeDifficultyDistribution.
    rewrite (count_by difficulty_eqb difficulty_eqb_eq difficulty). lia. }
  split; [exact C |]. split; [exact D |]. split.
  - rewrite (sum_of_ext _ _ allCategories (fun c _ => C c)).
    unfold filterRecipesByCategory.
    apply (classes_cover category_eqb category allCategories).
    intros r. destruct (category r); reflexivity.
  - rewrite (sum_of_ext _ _ allDifficulties (fun d _ => D d)).
    apply (classes_cover difficulty_eqb difficulty allDifficulties).
    intros r. destruct (difficulty r); reflexivity.
Qed.

Lemma dropWhile_nil (p : char16 -> bool) (s : jsstring) :
  dropWhile p s = [] <-> forall c, In c s -> p c = true.
Proof.
  induction s as [| c s IH]; simpl; [split; [intros _ x [] | reflexivity] |].
  destruct (p c) eqn:E.
  - rewrite IH. split.
    + intros H x [Hx | Hx]; [now subst | now apply H].
    + intros H x Hx. apply H. now right.
  - split; [discriminate |]. intros H.
    specialize (H c (or_introl eq_refl)). congruence.
Qed.

Lemma trim_empty (s : jsstring) :
  trim s = [] <-> forall c, In c s -> isSpace c = true.
Proof.
  unfold trim. split.
  - intros H. apply (f_equal (@List.rev char16)) in H.
    rewrite rev_involutive in H. cbn [List.rev] in H.
    rewrite dropWhile_nil in H. apply dropWhile_nil.
    destruct (dropWhile isSpace s) as [| c t] eqn:E; [reflexivity |].
    assert (Hc : isSpace c = true) by (apply H, in_rev; rewrite rev_involutive; now left).
    exfalso. clear H. revert E Hc. clear. induction s as [| d s IH]; simpl; [discriminate |].
    destruct (isSpace d) eqn:Ed; [exact IH |].
    intros H. inversion H; subst. congruence.
  - intros H. apply dropWhile_nil in H. rewrite H. reflexivity.
Qed.

Lemma outOfSequence_false (l : list Z) :
  forall i, outOfSequence i l = false <-> l = countFrom i (length l).
Proof.
  induction l as [| x l IH]; intros i; simpl; [tauto |].
  destruct (x =? i + 1) eqn:E; cbn [negb].
  - apply Z.eqb_eq in E. subst x. rewrite IH. split; [intros H; f_equal; exact H |].
    intros H. injection H as H. exact H.
  - apply Z.eqb_neq in E. split; [discriminate |]. intros H. inversion H. lia.
Qed.

Lemma countFrom_above (n : nat) : forall i x, In x (countFrom i n) -> i < x.
Proof.
  induction n as [| n IH]; intros i x; simpl; [tauto |].
  intros [H | H]; [lia |]. apply IH in H. lia.
Qed.

Lemma countFrom_sorted (n : nat) :
  forall i, StronglySorted (before (fun a b : Z => a - b)) (countFrom i n).
Proof.
  induction n as [| n IH]; intros i; simpl; constructor; [apply IH |].
  apply Forall_forall. intros x Hx. apply countFrom_above in Hx. unfold before. lia.
Qed.

Lemma sorted_is_the_sequence (l : list Z) :
  js_sort (fun a b => a - b) l = countFrom 0 (length l)
  <-> Permutation l (countFrom 0 (length l)).
Proof.
  split.
  - intros H. rewrite <- H. apply Permutation_sym, js_sort_perm.
  - intros P.
    apply (sorted_perm_eq (fun a b : Z => a - b)).
    + intros a b H1 H2. cbv beta in *. lia.
    + apply Sorted_StronglySorted; [intros a b c'; unfold before; lia |].
      apply js_sort_sorted. intros a b. cbv beta. lia.
    + apply countFrom_sorted.
    + rewrite js_sort_perm. exact P.
Qed.

(** X22.  [validateRecipe] accepts a recipe exactly when its name holds a
    character that is no white space, it has an ingredient and a step, its
    servings are positive, and the numbers of its steps are the numbers
    1, 2, ..., each once, in any order.  Every requirement that fails is
    reported, the numbering at most once: at most five errors, and none
    exactly when the recipe is accepted. *)
Theorem validateRecipe_verdict (recipe : Recipe) :
  let isValid := fst (validateRecipe recipe) in
  let errors := snd (validateRecipe recipe) in
  (isValid = true
   <-> (exists c, In c (name recipe) /\ isSpace c = false)
       /\ ingredients recipe <> []
       /\ steps recipe <> []
       /\ 0 < servings recipe
       /\ Permutation (map stepNumber (steps recipe))
                      (countFrom 0 (length (steps recipe))))
  /\ (isValid = true <-> errors = [])
  /\ (length errors <= 5)%nat.
Proof.
  cbv zeta. unfold validateRecipe. cbv zeta.
  assert (N : truthy (trim (name recipe)) = true
              <-> exists c, In c (name recipe) /\ isSpace c = false).
  { destruct (trim (name recipe)) as [| c t] eqn:E; simpl.
    - pose proof (proj1 (trim_empty _) E) as E'. split; [discriminate |].
      intros [c [H1 H2]]. rewrite (E' c H1) in H2. discriminate.
    - split; [intros _ | reflexivity].
      assert (H : ~ forall c, In c (name recipe) -> isSpace c = true).
      { intros H. pose proof (proj2 (trim_empty _) H) as H'. congruence. }
      clear E. induction (name recipe) as [| d s IH]; [exfalso; apply H; intros x [] |].
      destruct (isSpace d) eqn:Ed.
      + destruct IH as [x [H1 H2]].
        * intros G. apply H. intros x [Hx | Hx]; [now subst | now apply G].
        * exists x. split; [now right | exact H2].
      + exists d. split; [now left | exact Ed]. }
  assert (Q : outOfSequence 0 (js_sort (fun a b => a - b)
                                       (map stepNumber (steps recipe))) = false
              <-> Permutation (map stepNumber (steps recipe))
                              (countFrom 0 (length (steps recipe)))).
  { rewrite outOfSequence_false.
    rewrite (Permutation_length (js_sort_perm _ _)).
    rewrite sorted_is_the_sequence, length_map. reflexivity. }
  assert (I : len_is_zero (ingredients recipe) = false <-> ingredients recipe <> []).
  { unfold len_is_zero. destruct (ingredients recipe); simpl; split; congruence. }
  assert (S : len_is_zero (steps recipe) = false <-> steps recipe <> []).
  { unfold len_is_zero. destruct (steps recipe); simpl; split; congruence. }
  assert (V : (servings recipe <=? 0) = false <-> 0 < servings recipe).
  { rewrite Z.leb_gt. reflexivity. }
  rewrite <- N, <- I, <- S, <- V, <- Q.
  destruct (truthy (trim (name recipe)));
    destruct (len_is_zero (ingredients recipe));
    destruct (len_is_zero (steps recipe));
    destruct (servings recipe <=? 0);
    destruct (outOfSequence 0 _);
    cbn [negb List.app fst snd len_is_zero nonempty length];
    (split; [| split]);
    try lia; split; intros H; try discriminate H; try reflexivity;
    try (decompose [and] H; discriminate).
Qed.

End Recipes.

(* ================================================================== *)
(** * The recipe data manager                                           *)
(* ================================================================== *)

Section Manager.

Import RecipeData.

(** [findIndex] finds the first recipe that passes the test, if any. *)
Lemma findIndex_spec (p : Recipe -> bool) (xs : list Recipe) :
  (findIndex p xs = -1 /\ forall x, In x xs -> p x = false)
  \/ exists front x back,
       xs = front ++ x :: back
       /\ (forall y, In y front -> p y = false)
       /\ p x = true
       /\ findIndex p xs = Z.of_nat (length front).
Proof.
  induction xs as [| y xs IH]; [left; split; [reflexivity | intros x []] |].
  cbn [findIndex]. destruct (p y) eqn:E.
  - right. exists [], y, xs. repeat split; auto. intros z [].
  - destruct IH as [[I1 I2] | [front [x [back [I1 [I2 [I3 I4]]]]]]].
    + left. rewrite I1. split; [reflexivity |].
      intros x [Hx | Hx]; [now subst | now apply I2].
    + right. exists (y :: front), x, back. rewrite I4.
      split; [now rewrite I1 |]. split; [| split; [exact I3 |]].
      * intros z [Hz | Hz]; [now subst | now apply I2].
      * cbn [length]. destruct (Z.of_nat (length front) <? 0) eqn:L;
          [apply Z.ltb_lt in L; lia | lia].
Qed.

Lemma nth_error_middle (front back : list Recipe) (x : Recipe) :
  nth_error (front ++ x :: back) (length front) = Some x.
Proof. induction front as [| y front IH]; [reflexivity | exact IH]. Qed.

Lemma set_at_middle (front back : list Recipe) (x x' : Recipe) :
  set_at (length front) x' (front ++ x :: back) = front ++ x' :: back.
Proof.
  induction front as [| y front IH]; [reflexivity |].
  cbn [length List.app set_at]. now rewrite IH.
Qed.

Lemma remove_at_middle (front back : list Recipe) (x : Recipe) :
  remove_at (length front) (front ++ x :: back) = front ++ back.
Proof.
  induction front as [| y front IH]; [reflexivity |].
  cbn [length List.app remove_at]. now rewrite IH.
Qed.

Lemma find_none_app (p : Recipe -> bool) (front rest : list Recipe) :
  (forall y, In y front -> p y = false) -> find p (front ++ rest) = find p rest.
Proof.
  induction front as [| y front IH]; intros H; [reflexivity |].
  cbn [List.app find]. rewrite (H y (or_introl eq_refl)).
  apply IH. intros z Hz. apply H. now right.
Qed.

Lemma find_other (i j : jsstring) (x : Recipe) (rest : list Recipe) :
  id x = i -> j <> i ->
  find (fun recipe => str_eqb (id recipe) j) (x :: rest)
  = find (fun recipe => str_eqb (id recipe) j) rest.
Proof.
  intros E N. cbn [find]. replace (str_eqb (id x) j) with false; [reflexivity |].
  symmetry. apply str_eqb_neq. congruence.
Qed.

(** What the three calls do to the state, by the place of the first recipe
    with the identifier. *)
Lemma addRecipe_spec (this : Manager) (recipe : Recipe) :
  (In (id recipe) (map id this) /\ addRecipe this recipe = None)
  \/ (~ In (id recipe) (map id this)
      /\ addRecipe this recipe = Some (this ++ [recipe])).
Proof.
  unfold addRecipe. cbv zeta.
  destruct (findIndex_spec (fun r => str_eqb (id r) (id recipe)) this)
    as [[I1 I2] | [front [x [back [I1 [I2 [I3 I4]]]]]]].
  - right. rewrite I1. split; [| reflexivity].
    intros H. apply in_map_iff in H. destruct H as [y [E Hy]].
    specialize (I2 y Hy). apply str_eqb_neq in I2. congruence.
  - left. rewrite I4. split.
    + apply str_eqb_eq in I3. rewrite <- I3, I1. apply in_map.
      apply in_or_app. right. now left.
    + destruct (Z.of_nat (length front) =? -1) eqn:E; [apply Z.eqb_eq in E; lia |].
      reflexivity.
Qed.

Lemma updateRecipe_spec (this : Manager) (i : jsstring) (p : RecipePatch) :
  (~ In i (map id this) /\ updateRecipe this i p = (this, None))
  \/ exists front old back,
       this = front ++ old :: back
       /\ ~ In i (map id front) /\ id old = i
       /\ updateRecipe this i p
          = (front ++ patched old p i :: back, Some (patched old p i)).
Proof.
  unfold updateRecipe. cbv zeta.
  destruct (findIndex_spec (fun r => str_eqb (id r) i) this)
    as [[I1 I2] | [front [x [back [I1 [I2 [I3 I4]]]]]]].
  - left. rewrite I1. split; [| reflexivity].
    intros H. apply in_map_iff in H. destruct H as [y [E Hy]].
    specialize (I2 y Hy). apply str_eqb_neq in I2. congruence.
  - right. exists front, x, back. rewrite I4. split; [exact I1 |].
    split; [| split; [now apply str_eqb_eq |]].
    + intros H. apply in_map_iff in H. destruct H as [y [E Hy]].
      specialize (I2 y Hy). apply str_eqb_neq in I2. congruence.
    + destruct (Z.of_nat (length front) =? -1) eqn:E; [apply Z.eqb_eq in E; lia |].
      rewrite Nat2Z.id, I1, nth_error_middle, set_at_middle. reflexivity.
Qed.

Lemma deleteRecipe_spec (this : Manager) (i : jsstring) :
  (~ In i (map id this) /\ deleteRecipe this i = (this, false))
  \/ exists front old back,
       this = front ++ old :: back
       /\ ~ In i (map id front) /\ id old = i
       /\ deleteRecipe this i = (front ++ back, true).
Proof.
  unfold deleteRecipe. cbv zeta.
  destruct (findIndex_spec (fun r => str_eqb (id r) i) this)
    as [[I1 I2] | [front [x [back [I1 [I2 [I3 I4]]]]]]].
  - left. rewrite I1. split; [| reflexivity].
    intros H. apply in_map_iff in H. destruct H as [y [E Hy]].
    specialize (I2 y Hy). apply str_eqb_neq in I2. congruence.
  - right. exists front, x, back. rewrite I4. split; [exact I1 |].
    split; [| split; [now apply str_eqb_eq |]].
    + intros H. apply in_map_iff in H. destruct H as [y [E Hy]].
      specialize (I2 y Hy). apply str_eqb_neq in I2. congruence.
    + destruct (Z.of_nat (length front) =? -1) eqn:E; [apply Z.eqb_eq in E; lia |].
      rewrite Nat2Z.id, I1, remove_at_middle. reflexivity.
Qed.

Lemma after_keeps_unique_ids (this : Manager) (call : Call) :
  NoDup (map id this) -> NoDup (map id (after this call)).
Proof.
  intros N. destruct call as [recipe | i p | i]; cbn [after].
  - destruct (addRecipe_spec this recipe) as [[_ E] | [H E]]; rewrite E; [exact N |].
    rewrite map_app. cbn [map]. now apply NoDup_snoc.
  - destruct (updateRecipe_spec this i p)
      as [[_ E] | [front [old [back [E1 [_ [E2 E3]]]]]]];
      [rewrite E; exact N |].
    rewrite E3. cbn [fst]. rewrite E1 in N.
    rewrite map_app in *. cbn [map] in *.
    replace (id (patched old p i)) with (id old) by (now rewrite E2). exact N.
  - destruct (deleteRecipe_spec this i)
      as [[_ E] | [front [old [back [E1 [_ [_ E3]]]]]]];
      [rewrite E; exact N |].
    rewrite E3. cbn [fst]. rewrite E1 in N.
    rewrite map_app in *. cbn [map] in N. now apply NoDup_remove_1 in N.
Qed.

Lemma find_absent (i : jsstring) (l : list Recipe) :
  ~ In i (map id l) -> find (fun recipe => str_eqb (id recipe) i) l = None.
Proof.
  induction l as [| y l IH]; intros H; [reflexivity |].
  cbn [find]. cbn [map In] in H.
  replace (str_eqb (id y) i) with false.
  - apply IH. tauto.
  - symmetry. apply str_eqb_neq. tauto.
Qed.

Lemma find_present (i : jsstring) (l : list Recipe) :
  find (fun recipe => str_eqb (id recipe) i) l <> None <-> In i (map id l).
Proof.
  induction l as [| y l IH]; [cbn; tauto |].
  cbn [find map In]. destruct (str_eqb (id y) i) eqn:E.
  - apply str_eqb_eq in E. split; [now left | discriminate].
  - apply str_eqb_neq in E. rewrite IH. tauto.
Qed.

Lemma find_first (i : jsstring) (front back : list Recipe) (x : Recipe) :
  ~ In i (map id front) -> id x = i ->
  find (fun recipe => str_eqb (id recipe) i) (front ++ x :: back) = Some x.
Proof.
  induction front as [| y front IH]; intros H E.
  - cbn [List.app find]. rewrite <- E, str_eqb_refl. reflexivity.
  - cbn [List.app find]. cbn [map In] in H.
    replace (str_eqb (id y) i) with false; [apply IH; tauto |].
    symmetry. apply str_eqb_neq. tauto.
Qed.

Lemma find_skips (i j : jsstring) (front back : list Recipe) (x : Recipe) :
  id x = i -> j <> i ->
  find (fun recipe => str_eqb (id recipe) j) (front ++ x :: back)
  = find (fun recipe => str_eqb (id recipe) j) (front ++ back).
Proof.
  intros E N. induction front as [| y front IH].
  - now apply find_other with (i := i).
  - cbn [List.app find]. now rewrite IH.
Qed.

(** X23.  The calls that change the state of the recipe data manager keep
    the identifiers unique: after any sequence of calls of [addRecipe]
    (which throws on an identifier that is taken), [updateRecipe] (which
    keeps the identifier) and [deleteRecipe], no two recipes of the
    manager share an identifier if no two did before. *)
Theorem manager_keeps_identifiers_unique (this : Manager) (calls : list Call) :
  NoDup (map id this) -> NoDup (map id (fold_left after calls this)).
Proof.
  revert this. induction calls as [| call calls IH]; intros this N; [exact N |].
  cbn [fold_left]. apply IH. now apply after_keeps_unique_ids.
Qed.

(** X24.  [addRecipe] throws exactly when a recipe with the identifier is
    in the manager.  Otherwise it puts the recipe at the end of the list:
    looking its identifier up then gives the recipe, and the lookup of any
    other identifier gives what it gave before. *)
Theorem addRecipe_then_lookup (this : Manager) (recipe : Recipe) :
  match addRecipe this recipe with
  | None => getRecipeById this (id recipe) <> None
  | Some this' =>
    getRecipeById this (id recipe) = None
    /\ getAllRecipes this' = getAllRecipes this ++ [recipe]
    /\ getRecipeById this' (id recipe) = Some recipe
    /\ forall j, j <> id recipe -> getRecipeById this' j = getRecipeById this j
  end.
Proof.
  unfold getRecipeById, getAllRecipes.
  destruct (addRecipe_spec this recipe) as [[H E] | [H E]]; rewrite E.
  - now apply find_present.
  - split; [now apply find_absent |]. split; [reflexivity |]. split.
    + now apply find_first.
    + intros j N. rewrite (find_skips (id recipe) j this [] recipe eq_refl N).
      now rewrite app_nil_r.
Qed.

(** X25.  [updateRecipe] returns [null] and changes nothing when no recipe
    has the identifier.  Otherwise it returns the first recipe with the
    identifier, with the fields of the update written over it and the
    identifier kept; that recipe is what a lookup of the identifier then
    gives, every other lookup gives what it gave before, and the
    identifiers of the manager and their order stay as they were. *)
Theorem updateRecipe_then_lookup (this : Manager) (i : jsstring)
    (updatedRecipe : RecipePatch) :
  match updateRecipe this i updatedRecipe with
  | (this', None) => this' = this /\ getRecipeById this i = None
  | (this', Some updated) =>
    (exists old, getRecipeById this i = Some old
                 /\ updated = patched old updatedRecipe i)
    /\ id updated = i
    /\ getRecipeById this' i = Some updated
    /\ (forall j, j <> i -> getRecipeById this' j = getRecipeById this j)
    /\ map id this' = map id this
  end.
Proof.
  unfold getRecipeById.
  destruct (updateRecipe_spec this i updatedRecipe)
    as [[H E] | [front [old [back [E1 [H [E2 E3]]]]]]].
  - rewrite E. split; [reflexivity | now apply find_absent].
  - rewrite E3, E1. split; [| split; [reflexivity | split; [| split]]].
    + exists old. split; [now apply find_first | reflexivity].
    + now apply find_first.
    + intros j N.
      rewrite (find_skips i j front back old E2 N).
      now rewrite (find_skips i j front back (patched old updatedRecipe i) eq_refl N).
    + rewrite !map_app. cbn [map]. f_equal. f_equal. now rewrite E2.
Qed.

(** X26.  In a manager whose identifiers are unique, [deleteRecipe]
    returns [true] exactly when a recipe has the identifier and then
    takes one recipe away; afterwards no recipe has the identifier, and
    the lookup of any other identifier gives what it gave before. *)
Theorem deleteRecipe_then_lookup (this : Manager) (i : jsstring) :
  NoDup (map id this) ->
  let this' := fst (deleteRecipe this i) in
  let deleted := snd (deleteRecipe this i) in
  (deleted = true <-> getRecipeById this i <> None)
  /\ getRecipeById this' i = None
  /\ (forall j, j <> i -> getRecipeById this' j = getRecipeById this j)
  /\ (length this = length this' + (if deleted then 1 else 0))%nat.
Proof.
  intros N. cbv zeta. unfold getRecipeById.
  destruct (deleteRecipe_spec this i)
    as [[H E] | [front [old [back [E1 [H [E2 E3]]]]]]].
  - rewrite E. cbn [fst snd]. rewrite (find_absent _ _ H).
    split; [split; [discriminate | congruence] |].
    split; [reflexivity |]. split; [reflexivity | lia].
  - rewrite E3. cbn [fst snd]. rewrite E1 in N |- *.
    rewrite map_app in N. cbn [map] in N. apply NoDup_remove_2 in N.
    rewrite E2, <- map_app in N.
    split; [| split; [now apply find_absent | split]].
    + rewrite (find_first i front back old H E2). split; [discriminate | reflexivity].
    + intros j Nj. now rewrite (find_skips i j front back old E2 Nj).
    + rewrite !length_app. cbn [length]. lia.
Qed.

Lemma nonempty_true {A} (l : list A) : MealPlanUtils.nonempty l = true <-> l <> [].
Proof. destruct l; cbn; split; congruence. Qed.

Lemma truthy_true (s : jsstring) : truthy s = true <-> s <> [].
Proof. destruct s; cbn; split; congruence. Qed.

Lemma number_truthy_true (x : Q) : number_truthy x = true <-> ~ x == 0.
Proof.
  unfold number_truthy. rewrite negb_true_iff.
  destruct (Qeq_bool x 0) eqn:E.
  - apply Qeq_bool_iff in E. split; [discriminate | tauto].
  - split; [| reflexivity]. intros _ H. apply Qeq_bool_iff in H. congruence.
Qed.

(** X28.  [getRecipesByCriteria] returns the recipes of the manager that
    meet every criterion that applies, where a criterion applies only if
    it is given and is neither an empty list, an empty string nor 0.  So
    without criteria every recipe is returned, and a limit of 0 minutes
    restricts nothing (it does not ask for recipes that take no time). *)
Theorem getRecipesByCriteria_selects (this : Manager) (criteria : Criteria) :
  (forall r, In r (getRecipesByCriteria this criteria) <-> In r this /\ meets criteria r)
  /\ getRecipesByCriteria this
       {| by_categories := None; by_difficulty := None; by_maxPrepTime := None;
          by_maxCookTime := None; by_tags := None |} = this
  /\ getRecipesByCriteria this
       {| by_categories := None; by_difficulty := None; by_maxPrepTime := Some 0%Q;
          by_maxCookTime := Some 0%Q; by_tags := None |} = this.
Proof.
  split; [| split; apply filter_all; intros r _; reflexivity].
  intros r. unfold getRecipesByCriteria. rewrite filter_In.
  apply and_iff_compat_l. unfold meets.
  destruct criteria as [cs d mp mc ts].
  cbn [by_categories by_difficulty by_maxPrepTime by_maxCookTime by_tags]. cbv zeta.
  assert (C1 : match cs with
               | Some categories =>
                 MealPlanUtils.nonempty categories
                 && negb (arr_includes categories (category_name (category r)))
               | None => false
               end = false
               <-> forall cs0, cs = Some cs0 -> cs0 <> [] ->
                               In (category_name (category r)) cs0).
  { destruct cs as [cs |]; [| split; [discriminate | reflexivity]].
    rewrite andb_false_iff, negb_false_iff, arr_includes_In.
    rewrite <- not_true_iff_false, nonempty_true. split.
    - intros H cs0 E N. injection E as <-. tauto.
    - intros H. destruct cs as [| c cs']; [left; congruence |].
      right. apply (H _ eq_refl). discriminate. }
  assert (C2 : match d with
               | Some difficulty0 =>
                 truthy difficulty0
                 && negb (str_eqb (difficulty_name (difficulty r)) difficulty0)
               | None => false
               end = false
               <-> forall d0, d = Some d0 -> d0 <> [] ->
                              difficulty_name (difficulty r) = d0).
  { destruct d as [d |]; [| split; [discriminate | reflexivity]].
    rewrite andb_false_iff, negb_false_iff, str_eqb_eq.
    rewrite <- not_true_iff_false, truthy_true. split.
    - intros H d0 E N. injection E as <-. tauto.
    - intros H. destruct d as [| c d']; [left; congruence |].
      right. apply (H _ eq_refl). discriminate. }
  assert (T : forall (limit : option Q) (minutes : Z),
             match limit with
             | Some m => number_truthy m && negb (Qle_bool (inject_Z minutes) m)
             | None => false
             end = false
             <-> forall m, limit = Some m -> ~ m == 0 -> (inject_Z minutes <= m)%Q).
  { intros limit minutes.
    destruct limit as [m |]; [| split; [discriminate | reflexivity]].
    rewrite andb_false_iff, negb_false_iff, Qle_bool_iff.
    rewrite <- not_true_iff_false, number_truthy_true. split.
    - intros H m0 E N. injection E as <-. tauto.
    - intros H. destruct (Qeq_dec m 0) as [Z0 | Z0]; [left; tauto |].
      right. now apply (H _ eq_refl). }
  assert (C5 : match ts with
               | Some tags0 =>
                 MealPlanUtils.nonempty tags0
                 && match tags r with
                    | None => true
                    | Some recipeTags =>
                      negb (existsb (fun tag => arr_includes recipeTags tag) tags0)
                    end
               | None => false
               end = false
               <-> forall ts0, ts = Some ts0 -> ts0 <> [] ->
                     exists t rt, In t ts0 /\ tags r = Some rt /\ In t rt).
  { destruct ts as [ts |]; [| split; [discriminate | reflexivity]].
    rewrite andb_false_iff, <- not_true_iff_false, nonempty_true.
    assert (S : match tags r with
                | None => true
                | Some recipeTags =>
                  negb (existsb (fun tag => arr_includes recipeTags tag) ts)
                end = false
                <-> exists t rt, In t ts /\ tags r = Some rt /\ In t rt).
    { destruct (tags r) as [rt |].
      - rewrite negb_false_iff, existsb_exists. split.
        + intros [t [H1 H2]]. exists t, rt. apply arr_includes_In in H2. tauto.
        + intros [t [rt' [H1 [H2 H3]]]]. injection H2 as <-.
          exists t. split; [exact H1 | now apply arr_includes_In].
      - split; [discriminate |]. intros [t [rt [_ [H _]]]]. discriminate. }
    rewrite S. split.
    - intros H ts0 E N. injection E as <-. tauto.
    - intros H. destruct ts as [| t ts']; [left; congruence |].
      right. apply (H _ eq_refl). discriminate. }
  rewrite <- C1, <- C2, <- (T mp), <- (T mc), <- C5.
  repeat match goal with
         | |- context [if ?b then false else _] => destruct b
         end; intuition congruence.
Qed.

End Manager.

Lemma manager_keeps_identifiers_unique_witness :
  NoDup (map id (fold_left after
                   [CallAdd Samples.broth; CallAdd Samples.pork;
                    CallDelete (js "greens")]
                   [Samples.pork; Samples.greens])).
Proof.
  apply manager_keeps_identifiers_unique.
  vm_compute. repeat constructor; cbn; intros H;
    repeat (destruct H as [H | H]; try discriminate H); exact H.
Defined.

Lemma deleteRecipe_then_lookup_witness :
  let this := [Samples.pork; Samples.greens] in
  let this' := fst (RecipeData.deleteRecipe this (js "pork")) in
  let deleted := snd (RecipeData.deleteRecipe this (js "pork")) in
  (deleted = true <-> RecipeData.getRecipeById this (js "pork") <> None)
  /\ RecipeData.getRecipeById this' (js "pork") = None
  /\ (forall j, j <> js "pork" ->
       RecipeData.getRecipeById this' j = RecipeData.getRecipeById this j)
  /\ (length this = length this' + (if deleted then 1 else 0))%nat.
Proof.
  apply (deleteRecipe_then_lookup [Samples.pork; Samples.greens] (js "pork")).
  vm_compute. repeat constructor; cbn; intros H;
    repeat (destruct H as [H | H]; try discriminate H); exact H.
Defined.

(* ================================================================== *)
(** * The pages of [get_all_recipes]                                    *)
(* ================================================================== *)

Section Pages.

Import RecommendMealPlan GetAllRecipes.

Variable localeCompare : jsstring -> jsstring -> Z.
Variable addedTime : Recipe -> option Z.

Lemma ceiling_of_quotient (n l : Z) :
  0 <= n -> 0 < l ->
  n <= Qceiling (inject_Z n / inject_Z l) * l < n + l.
Proof.
  intros Hn Hl. destruct l as [| l | l]; try lia.
  unfold Qceiling, Qfloor, Qdiv, Qmult, Qinv, Qopp, inject_Z. cbn.
  rewrite Z.mul_1_r.
  pose proof (Z.div_mod (- n) (Z.pos l) ltac:(lia)) as D.
  pose proof (Z.mod_pos_bound (- n) (Z.pos l) ltac:(lia)) as B.
  nia.
Qed.

Lemma firstn_more {A} (a b : nat) (xs : list A) :
  firstn a xs ++ firstn b (skipn a xs) = firstn (a + b) xs.
Proof.
  revert xs. induction a as [| a IH]; intros xs; [reflexivity |].
  destruct xs as [| x xs]; [now rewrite !firstn_nil |].
  cbn [firstn skipn List.app Nat.add]. now rewrite IH.
Qed.

(** The first [m] pages of [size] elements, one after the other. *)
Lemma pages_concat {A} (size : nat) (xs : list A) (m : nat) :
  concat (map (fun k => firstn size (skipn (k * size) xs)) (seq 0 m))
  = firstn (m * size) xs.
Proof.
  induction m as [| m IH]; [reflexivity |].
  rewrite seq_S, map_app, concat_app, IH. cbn [map concat Nat.add].
  rewrite app_nil_r, firstn_more. f_equal. lia.
Qed.

Lemma page_length {A} (size k : nat) (xs : list A) :
  length (firstn size (skipn (k * size) xs)) = Nat.min size (length xs - k * size).
Proof. now rewrite length_firstn, length_skipn. Qed.

Lemma slice_page {A} (p l : Z) (xs : list A) :
  1 <= p -> 0 < l ->
  slice ((p - 1) * l) ((p - 1) * l + l) xs
  = firstn (Z.to_nat l) (skipn (Z.to_nat (p - 1) * Z.to_nat l) xs).
Proof.
  intros Hp Hl. unfold slice. f_equal; [f_equal; lia |]. f_equal. nia.
Qed.

Lemma countFrom_seq (m : nat) (k : nat) :
  countFrom (Z.of_nat k) m = map (fun i => Z.of_nat i + 1) (seq k m).
Proof.
  revert k. induction m as [| m IH]; intros k; [reflexivity |].
  cbn [countFrom seq map]. f_equal.
  replace (Z.of_nat k + 1) with (Z.of_nat (S k)) by lia. apply IH.
Qed.

Lemma shown_length (input : Input) (recipes : list Recipe) :
  length (shown input recipes) = length recipes.
Proof.
  unfold shown. destruct (default (includeDetails input) true);
    [reflexivity | apply length_map].
Qed.

Lemma shown_concat (input : Input) (parts : list (list Recipe)) :
  concat (map (shown input) parts) = shown input (concat parts).
Proof.
  unfold shown. destruct (default (includeDetails input) true).
  - now rewrite map_id.
  - now rewrite concat_map.
Qed.

(** The answer to a valid request for a page. *)
Lemma handleGetAllRecipes_page (allRecipes : list Recipe) (input : Input) (p : Z) :
  schema_ok input = true -> 1 <= p ->
  exists message,
    handleGetAllRecipes localeCompare addedTime allRecipes (on_page input p)
    = Success message
        {| items :=
             shown input
               (firstn (Z.to_nat (default (in_limit input) 20))
                  (skipn (Z.to_nat (p - 1) * Z.to_nat (default (in_limit input) 20))
                     (sortRecipes localeCompare addedTime allRecipes
                        (default (sortBy input) ByName)
                        (default (sortOrder input) Asc))));
           totalCount := Z.of_nat (length allRecipes);
           page := p;
           limit := default (in_limit input) 20;
           totalPages :=
             Qceiling (inject_Z (Z.of_nat (length allRecipes))
                       / inject_Z (default (in_limit input) 20));
           hasNext :=
             p <? Qceiling (inject_Z (Z.of_nat (length allRecipes))
                            / inject_Z (default (in_limit input) 20));
           hasPrevious := 1 <? p |}.
Proof.
  intros V Hp.
  assert (Hl : 0 < default (in_limit input) 20).
  { unfold schema_ok, in_range in V. apply andb_true_iff in V. destruct V as [_ V].
    destruct (in_limit input) as [l |]; cbn [default]; [| lia].
    apply andb_true_iff in V. destruct V as [V _]. apply Z.leb_le in V. lia. }
  assert (V' : schema_ok (on_page input p) = true).
  { unfold schema_ok in *. cbn [on_page in_page in_limit].
    apply andb_true_iff in V. destruct V as [_ V]. rewrite V.
    replace (1 <=? p) with true by (symmetry; apply Z.leb_le; lia). reflexivity. }
  unfold handleGetAllRecipes. rewrite V'. cbn [negb]. cbv zeta.
  cbn [on_page in_page in_limit sortBy sortOrder includeDetails].
  change (default (Some p) 1) with p.
  assert (LEN : length (sortRecipes localeCompare addedTime allRecipes
                          (default (sortBy input) ByName)
                          (default (sortOrder input) Asc))
                = length allRecipes)
    by apply Permutation_length, js_sort_perm.
  rewrite LEN, slice_page by assumption.
  eexists. unfold shown. reflexivity.
Qed.

(** X27.  The pages of [get_all_recipes].  For a request within the
    schema, the sorted list is a rearrangement of all recipes, the number
    of pages is the least that holds them all at [limit] recipes a page,
    and every page from 1 on is answered: a page before the last shows
    exactly [limit] recipes, the last page between 1 and [limit], a page
    after the last none.  The pages 1 to [totalPages], one after the
    other, are the sorted list (in the summary view when [includeDetails]
    is false): no recipe is skipped or shown twice. *)
Theorem pages_hold_the_sorted_recipes (allRecipes : list Recipe) (input : Input) :
  schema_ok input = true ->
  exists (pages : Z) (answer : Z -> PaginatedResponse),
    Permutation
      (sortRecipes localeCompare addedTime allRecipes
         (default (sortBy input) ByName) (default (sortOrder input) Asc))
      allRecipes
    /\ Z.of_nat (length allRecipes) <= pages * default (in_limit input) 20
       < Z.of_nat (length allRecipes) + default (in_limit input) 20
    /\ (forall p, 1 <= p ->
          (exists message,
              handleGetAllRecipes localeCompare addedTime allRecipes (on_page input p)
              = Success message (answer p))
          /\ totalPages (answer p) = pages
          /\ totalCount (answer p) = Z.of_nat (length allRecipes)
          /\ (hasNext (answer p) = true <-> p < pages)
          /\ (hasPrevious (answer p) = true <-> 1 < p)
          /\ (p < pages ->
              Z.of_nat (length (items (answer p))) = default (in_limit input) 20)
          /\ (p = pages ->
              1 <= Z.of_nat (length (items (answer p))) <= default (in_limit input) 20)
          /\ (pages < p -> items (answer p) = []))
    /\ concat (map (fun p => items (answer p)) (countFrom 0 (Z.to_nat pages)))
       = shown input
           (sortRecipes localeCompare addedTime allRecipes
              (default (sortBy input) ByName) (default (sortOrder input) Asc)).
Proof.
  intros V.
  set (l := default (in_limit input) 20).
  set (sorted := sortRecipes localeCompare addedTime allRecipes
                   (default (sortBy input) ByName) (default (sortOrder input) Asc)).
  assert (Hl : 0 < l).
  { unfold l, schema_ok, in_range in *. apply andb_true_iff in V. destruct V as [_ V].
    destruct (in_limit input) as [l0 |]; cbn [default]; [| lia].
    apply andb_true_iff in V. destruct V as [V _]. apply Z.leb_le in V. lia. }
  assert (P : Permutation sorted allRecipes) by apply js_sort_perm.
  pose proof (Permutation_length P) as LEN.
  pose proof (ceiling_of_quotient (Z.of_nat (length allRecipes)) l
                ltac:(lia) Hl) as C.
  set (pages := Qceiling (inject_Z (Z.of_nat (length allRecipes)) / inject_Z l)) in *.
  exists pages.
  exists (fun p =>
    {| items := shown input (firstn (Z.to_nat l)
                               (skipn (Z.to_nat (p - 1) * Z.to_nat l) sorted));
       totalCount := Z.of_nat (length allRecipes);
       page := p;
       limit := l;
       totalPages := pages;
       hasNext := p <? pages;
       hasPrevious := 1 <? p |}).
  split; [exact P |]. split; [exact C |]. split.
  - intros p Hp. cbn [items totalPages totalCount hasNext hasPrevious].
    split; [exact (handleGetAllRecipes_page allRecipes input p V Hp) |].
    split; [reflexivity |]. split; [reflexivity |].
    split; [apply Z.ltb_lt |]. split; [apply Z.ltb_lt |].
    rewrite shown_length, page_length, LEN.
    split; [| split].
    + intros H. nia.
    + intros H. nia.
    + intros H.
      assert (E : length (shown input (firstn (Z.to_nat l)
                    (skipn (Z.to_nat (p - 1) * Z.to_nat l) sorted))) = 0%nat).
      { rewrite shown_length, page_length, LEN. nia. }
      now apply length_zero_iff_nil in E.
  - cbn [items].
    change 0 with (Z.of_nat 0). rewrite countFrom_seq, map_map.
    rewrite (map_ext _ (fun k => shown input
                          (firstn (Z.to_nat l) (skipn (k * Z.to_nat l) sorted)))).
    2:{ intros k. do 3 f_equal. lia. }
    rewrite <- (map_map (fun k => firstn (Z.to_nat l) (skipn (k * Z.to_nat l) sorted))
                        (shown input)).
    rewrite shown_concat, pages_concat. f_equal.
    apply firstn_all2. rewrite LEN. nia.
Qed.

End Pages.

Lemma pages_hold_the_sorted_recipes_witness :
  GetAllRecipes.schema_ok
    {| GetAllRecipes.in_page := None; GetAllRecipes.in_limit := Some 2;
       GetAllRecipes.sortBy := Some GetAllRecipes.ByDifficulty;
       GetAllRecipes.sortOrder := Some GetAllRecipes.Desc;
       GetAllRecipes.includeDetails := Some false |} = true
  /\ exists (pages : Z) (answer : Z -> GetAllRecipes.PaginatedResponse),
      Permutation
        (GetAllRecipes.sortRecipes Samples.flatCollation (fun _ => None)
           Samples.five_recipes GetAllRecipes.ByDifficulty GetAllRecipes.Desc)
        Samples.five_recipes
      /\ 5 <= pages * 2 < 5 + 2
      /\ (forall p, 1 <= p ->
            (exists message,
                GetAllRecipes.handleGetAllRecipes Samples.flatCollation (fun _ => None)
                  Samples.five_recipes
                  {| GetAllRecipes.in_page := Some p; GetAllRecipes.in_limit := Some 2;
                     GetAllRecipes.sortBy := Some GetAllRecipes.ByDifficulty;
                     GetAllRecipes.sortOrder := Some GetAllRecipes.Desc;
                     GetAllRecipes.includeDetails := Some false |}
                = Success message (answer p))
            /\ GetAllRecipes.totalPages (answer p) = pages
            /\ GetAllRecipes.totalCount (answer p) = 5
            /\ (GetAllRecipes.hasNext (answer p) = true <-> p < pages)
            /\ (GetAllRecipes.hasPrevious (answer p) = true <-> 1 < p)
            /\ (p < pages -> Z.of_nat (length (GetAllRecipes.items (answer p))) = 2)
            /\ (p = pages ->
                1 <= Z.of_nat (length (GetAllRecipes.items (answer p))) <= 2)
            /\ (pages < p -> GetAllRecipes.items (answer p) = []))
      /\ concat (map (fun p => GetAllRecipes.items (answer p))
                     (countFrom 0 (Z.to_nat pages)))
         = map (GetAllRecipes.summary)
             (GetAllRecipes.sortRecipes Samples.flatCollation (fun _ => None)
                Samples.five_recipes GetAllRecipes.ByDifficulty GetAllRecipes.Desc).
Proof.
  split; [reflexivity |].
  exact (pages_hold_the_sorted_recipes Samples.flatCollation (fun _ => None)
           Samples.five_recipes
           {| GetAllRecipes.in_page := None; GetAllRecipes.in_limit := Some 2;
              GetAllRecipes.sortBy := Some GetAllRecipes.ByDifficulty;
              GetAllRecipes.sortOrder := Some GetAllRecipes.Desc;
              GetAllRecipes.includeDetails := Some false |} eq_refl).
Defined.

(* ================================================================== *)
(** * The roles of the dishes                                           *)
(* ================================================================== *)

Section DishRoles.

Import DishCombinationUtils.

Lemma assignFrom_numbers (i : Z) (recipes : list Recipe) (prefs : CombinationPreferences) :
  map preparationOrder (assignFrom i recipes prefs) = countFrom i (length recipes).
Proof.
  revert i. induction recipes as [| r rs IH]; intros i; [reflexivity |].
  cbn [assignFrom map length countFrom preparationOrder]. now rewrite IH.
Qed.

(** X29.  [assignDishRoles] keeps the dishes in the order of the recipes
    it is given and numbers their preparation 1, 2, ...; the sort at its
    end moves nothing.  No dish gets the role of an appetizer, so the
    serving order of a dish lies between 2 and 6; a dish is required
    exactly when its recipe is a meat dish, seafood or a staple, and
    recommended exactly when it is a soup for more than two people. *)
Theorem dishes_follow_the_recipes (recipes : list Recipe) (prefs : CombinationPreferences) :
  map dish_recipe (assignDishRoles recipes prefs) = recipes
  /\ map preparationOrder (assignDishRoles recipes prefs)
     = countFrom 0 (length recipes)
  /\ Forall (fun d =>
               role d <> Appetizer
               /\ 2 <= servingOrder d <= 6
               /\ (dish_priority d = Required
                   <-> In (category (dish_recipe d)) [MeatDish; Seafood; Staple])
               /\ (dish_priority d = Recommended
                   <-> category (dish_recipe d) = Soup
                       /\ 2 < cp_numberOfPeople prefs))
            (assignDishRoles recipes prefs).
Proof.
  unfold assignDishRoles. rewrite assignFrom_sorted.
  split; [apply assignFrom_recipes |]. split; [apply assignFrom_numbers |].
  generalize 0 as i. induction recipes as [| r rs IH]; intros i; [constructor |].
  cbn [assignFrom]. constructor; [| apply IH].
  cbn [role servingOrder dish_priority dish_recipe].
  unfold determineDishRole, determineDishPriority, getServingOrder.
  destruct (2 <? cp_numberOfPeople prefs) eqn:L;
    [apply Z.ltb_lt in L | apply Z.ltb_ge in L];
    destruct (category r); cbn [In];
    (split; [discriminate |]); (split; [lia |]);
    (split; split; intros H; try discriminate H; try reflexivity;
     try (split; [reflexivity | lia]); try lia; auto;
     try (destruct H as [H | [H | [H | []]]]; discriminate H);
     try (destruct H as [H _]; discriminate H)).
Qed.

End DishRoles.
